(** * Coriolis client: replica formatters, replica update and endpoint samples

    A shallow embedding of
    - [coriolisclient/cli/replicas.py]: [ReplicaFormatter],
      [ReplicaDetailFormatter] and [UpdateReplica.take_action];
    - [samples/endpoint_samples.py]: [store_barbican_secret_for_coriolis],
      [create_endpoint], [get_endpoint_connection_info] and
      [validate_endpoint].

    Python text is modelled by the [string] of its UTF-8 bytes (a lone
    surrogate, which UTF-8 proper leaves out, by the three bytes of the
    same scheme), so that every text has its [string]: equality,
    concatenation, emptiness and the test for a part of a text read the
    same on the bytes, and the lexicographic order on the bytes is the
    order of the code points, which is what Python's [<] on [str]
    computes.  Python exceptions are modelled by the [Raise] case of
    [result].  The remote service and the vault are collaborators: a client
    object is a record of operations ([CoriolisClient], [BarbicanClient])
    over an arbitrary world state, passed to the functions as in the
    source, and every request sent through it is recorded in a trace.
    Library functions whose outcome the program only passes on
    ([json.dumps], [json.loads], [os.linesep], the text of [dict.keys()])
    are parameters of the functions that use them; the module [PyJson]
    gives a model of the two [json] functions where a statement needs
    one. *)

From Stdlib Require Import ZArith Ascii.
From Stdlib Require DecimalString DecimalFacts DecimalPos DecimalZ.
From Stdlib Require PrimFloat SpecFloat FloatOps.
From stdpp Require Import gmap strings list sorting pretty.

(** ** Exceptions and results *)

Inductive exn :=
| ValueError (msg : string)
| JSONDecodeError
| TypeError
| AttributeError
| IndexError
| KeyError (key : string)
| Exception (msg : string)
| ServiceError (msg : string).

Inductive result (A : Type) :=
| Ok (a : A)
| Raise (e : exn).
Arguments Ok {A} a.
Arguments Raise {A} e.

Definition result_bind {A B} (r : result A) (k : A → result B) : result B :=
  match r with
  | Ok a => k a
  | Raise e => Raise e
  end.

(** [[f(x) for x in l]] where [f] may raise: the first exception wins. *)
Fixpoint result_map {A B} (f : A → result B) (l : list A) : result (list B) :=
  match l with
  | [] => Ok []
  | x :: l' =>
      result_bind (f x) (λ y,
      result_bind (result_map f l') (λ ys, Ok (y :: ys)))
  end.

(** ** The builtin [sorted(l, key=...)]

    Python's sort is stable and compares keys with [<] only.  A stable
    sort has one possible outcome for a given input, so it is modelled by
    insertion from the right: an element is placed before the first
    element of the already sorted tail whose key is not smaller. *)

Section sorted.
Context {A K : Type} (key : A → K) (ltb : K → K → bool).

Fixpoint insert_sorted (x : A) (l : list A) : list A :=
  match l with
  | [] => [x]
  | y :: l' =>
      if ltb (key y) (key x) then y :: insert_sorted x l'
      else x :: y :: l'
  end.

Definition sorted (l : list A) : list A := foldr insert_sorted [] l.

(** [x] may stand before [y]: the key of [y] is not smaller. *)
Definition key_le (x y : A) : Prop := ltb (key y) (key x) = false.
End sorted.

(** The same for keys that are text, with [<=] on text. *)
Definition text_le {A} (key : A → string) (x y : A) : Prop :=
  String.leb (key x) (key y) = true.

(** [l[-1]]: the last element, [IndexError] on the empty list. *)
Definition index_last {A} (l : list A) : result A :=
  match last l with
  | Some x => Ok x
  | None => Raise IndexError
  end.

(** ** Entities of [coriolisclient/cli/replicas.py] *)

Module Execution.
Record t := mk {
  id : string;
  status : string;
  created_at : string;
}.
End Execution.

Module Replica.
Record t := mk {
  id : string;
  instances : list string;
  executions : list Execution.t;
  created_at : string;
}.
End Replica.

(** The text ["\n"]. *)
Definition newline : string := String "010"%char "".

(** ["%(id)s %(status)s" % execution.to_dict()] *)
Definition format_id_status (e : Execution.t) : string :=
  Execution.id e +:+ " " +:+ Execution.status e.

(** The interface [formatter.EntityFormatter] as far as [replicas.py]
    overrides it. *)
Class EntityFormatter (Obj Row : Type) := {
  columns : list string;
  _get_sorted_list : list Obj → list Obj;
  _get_formatted_data : Obj → result Row;
}.

(** Modelled from the spec: [EntityFormatter.list_objects] of
    [coriolisclient/cli/formatter.py] is missing; the list variant
    "sorts by creation timestamp ... and emits one row per entity using a
    fixed, type-specific column set". *)
Definition list_objects {Obj Row} `{EntityFormatter Obj Row}
    (obj_list : list Obj) : result (list string * list Row) :=
  result_bind (result_map _get_formatted_data (_get_sorted_list obj_list))
    (λ rows, Ok (columns, rows)).

Module ReplicaFormatter.
Definition columns : list string :=
  ["ID"; "Instances"; "Last tasks execution"; "Created"].

Definition _get_sorted_list (obj_list : list Replica.t) : list Replica.t :=
  sorted Replica.created_at String.ltb obj_list.

Definition _format_last_execution (obj : Replica.t) : result string :=
  match Replica.executions obj with
  | [] => Ok ""
  | _ :: _ =>
      result_bind
        (index_last
           (sorted Execution.created_at String.ltb (Replica.executions obj)))
        (λ execution, Ok (format_id_status execution))
  end.

Definition _get_formatted_data (obj : Replica.t)
    : result (string * string * string * string) :=
  result_bind (_format_last_execution obj) (λ last_execution,
  Ok (Replica.id obj,
      String.concat newline (Replica.instances obj),
      last_execution,
      Replica.created_at obj)).

#[global] Instance formatter
    : EntityFormatter Replica.t (string * string * string * string) := {
  columns := columns;
  _get_sorted_list := _get_sorted_list;
  _get_formatted_data := _get_formatted_data;
}.
End ReplicaFormatter.

Module ReplicaDetailFormatter.
Section linesep.
(** [os.linesep], which depends on the platform. *)
Variable linesep : string.

Definition _format_instances (obj : Replica.t) : string :=
  String.concat linesep (sorted id String.ltb (Replica.instances obj)).

Definition _format_execution (execution : Execution.t) : string :=
  format_id_status execution.

Definition _format_executions (executions : list Execution.t) : string :=
  String.concat linesep
    (map _format_execution
       (sorted Execution.created_at String.ltb executions)).
End linesep.
End ReplicaDetailFormatter.

(** ** Python values

    The values that connection info, environments and mappings are made
    of.  Dictionaries keep their insertion order, so they are association
    lists; their keys are text.  A [float] is a binary64 number. *)

#[local] Unset Elimination Schemes.
Inductive pyval :=
| PNone
| PBool (b : bool)
| PInt (z : Z)
| PFloat (f : PrimFloat.float)
| PStr (s : string)
| PList (l : list pyval)
| PTuple (l : list pyval)
| PDict (d : list (string * pyval)).
#[local] Set Elimination Schemes.

(** The truth value of [if v:]. *)
Definition truthy (v : pyval) : bool :=
  match v with
  | PNone => false
  | PBool b => b
  | PInt z => negb (z =? 0)%Z
  | PFloat f => negb (PrimFloat.eqb f PrimFloat.zero)
  | PStr s => negb (String.eqb s "")
  | PList l | PTuple l => match l with [] => false | _ :: _ => true end
  | PDict d => match d with [] => false | _ :: _ => true end
  end.

(** The truth value of a command-line argument: [None] when the flag was
    not given, the text otherwise. *)
Definition arg_truthy (a : option string) : bool :=
  match a with
  | None => false
  | Some s => negb (String.eqb s "")
  end.

Fixpoint dict_get (k : string) (d : list (string * pyval)) : option pyval :=
  match d with
  | [] => None
  | (k', v) :: d' => if String.eqb k' k then Some v else dict_get k d'
  end.

(** [k in d] for a dictionary [d]. *)
Definition dict_contains (k : string) (d : list (string * pyval)) : bool :=
  existsb (String.eqb k) (map fst d).

(** [v == item] for a text [item]: only a text is equal to a text. *)
Definition eq_str (item : string) (v : pyval) : bool :=
  match v with
  | PStr s => String.eqb s item
  | _ => false
  end.

(** [item in container] for a text [item]: a key of a dictionary, an
    element of a list or tuple, a part of a text; anything else is not
    iterable. *)
Definition py_contains (item : string) (container : pyval) : result bool :=
  match container with
  | PDict d => Ok (dict_contains item d)
  | PList l | PTuple l => Ok (existsb (eq_str item) l)
  | PStr s =>
      Ok (match String.index 0 item s with Some _ => true | None => false end)
  | PNone | PBool _ | PInt _ | PFloat _ => Raise TypeError
  end.

(** [container[key]] for a text [key]. *)
Definition py_getitem (container : pyval) (key : string) : result pyval :=
  match container with
  | PDict d =>
      match dict_get key d with
      | Some v => Ok v
      | None => Raise (KeyError key)
      end
  | _ => Raise TypeError
  end.

(** ** Entities and collaborators of [samples/endpoint_samples.py] *)

Module Endpoint.
Record t := mk {
  id : string;
  name : string;
  type : string;
  connection_info : pyval;
  description : string;
}.
End Endpoint.

Module Secret.
Record t := mk {
  name : string;
  payload : string;
  payload_content_type : string;
}.
End Secret.

(** The requests that reach the service and the vault. *)
Inductive request :=
| ReqProvidersList
| ReqEndpointsCreate (name platform_type : string) (connection_info : pyval)
    (description : string)
| ReqEndpointsGet (endpoint : Endpoint.t)
| ReqEndpointsValidateConnection (endpoint : Endpoint.t)
| ReqReplicasUpdate (replica_id : string)
    (updated_properties : gmap string pyval) (force : bool)
| ReqSecretStore (secret : Secret.t)
| ReqSecretPayload (secret_ref : pyval).

(** A [coriolisclient] client object: what its managers answer, in a world
    of type [W]. *)
Record CoriolisClient (W : Type) := {
  providers_list : W → result (list (string * pyval)) * W;
  endpoints_create :
    string → string → pyval → string → W → result Endpoint.t * W;
  endpoints_get : Endpoint.t → W → result Endpoint.t * W;
  endpoints_validate_connection :
    Endpoint.t → W → result (bool * string) * W;
  replicas_update :
    string → gmap string pyval → bool → W → result Execution.t * W;
}.
Arguments providers_list {W} _ _.
Arguments endpoints_create {W} _ _ _ _ _ _.
Arguments endpoints_get {W} _ _ _.
Arguments endpoints_validate_connection {W} _ _ _.
Arguments replicas_update {W} _ _ _ _ _.

(** A [barbicanclient] client object: [secret.store()] answers the
    reference of the stored secret, and [secrets.get(ref).payload] the
    payload stored under a reference. *)
Record BarbicanClient (W : Type) := {
  secret_store : Secret.t → W → result string * W;
  secret_payload : pyval → W → result string * W;
}.
Arguments secret_store {W} _ _ _.
Arguments secret_payload {W} _ _ _.

(** ** Computations: a world, a trace of requests, and exceptions *)

Definition M (W A : Type) : Type :=
  W * list request → result A * (W * list request).

#[global] Instance M_ret {W} : MRet (M W) := λ A a s, (Ok a, s).

#[global] Instance M_bind {W} : MBind (M W) := λ A B k m s,
  match m s with
  | (Ok a, s') => k a s'
  | (Raise e, s') => (Raise e, s')
  end.

Definition raise {W A} (e : exn) : M W A := λ s, (Raise e, s).

(** A pure step that may raise. *)
Definition lift {W A} (r : result A) : M W A := λ s, (r, s).

(** A request: it is recorded, and the collaborator answers. *)
Definition call {W A} (req : request) (op : W → result A * W) : M W A :=
  λ '(w, tr), let (r, w') := op w in (r, (w', tr ++ [req])).

(** ** [samples/endpoint_samples.py] *)

(** The stub that stands for connection info kept in the vault:
    [{'secret_ref': secret_ref}]. *)
Definition secret_ref_stub (secret_ref : string) : pyval :=
  PDict [("secret_ref", PStr secret_ref)].

(** Unfold the steps of a computation. *)
Ltac run_program :=
  cbv beta iota delta [mbind M_bind mret M_ret call raise lift secret_ref_stub].

Section endpoint_samples.
Context {W : Type}.
(** [json.dumps] and [json.loads]; [None] stands for a decoding error. *)
Variable json_dumps : pyval → string.
Variable json_loads : string → option pyval.
(** ['%s' % d.keys()]: the text of the keys of a dictionary. *)
Variable str_dict_keys : list string → string.

(** The default of [name] is ['Coriolis Secret']. *)
Definition store_barbican_secret_for_coriolis (barbican : BarbicanClient W)
    (secret_info : pyval) (name : string) : M W string :=
  let payload := json_dumps secret_info in
  let secret := Secret.mk name payload "application/json" in
  secret_ref ← call (ReqSecretStore secret) (secret_store barbican secret);
  mret secret_ref.

(** The defaults are [barbican=None] and [description='']. *)
Definition create_endpoint (coriolis : CoriolisClient W)
    (name platform_type : string) (connection_info : pyval)
    (barbican : option (BarbicanClient W)) (description : string)
    : M W Endpoint.t :=
  providers_dict ← call ReqProvidersList (providers_list coriolis);
  if negb (dict_contains platform_type providers_dict) then
    raise (ValueError ("platform_type must be one of "
                       +:+ str_dict_keys (map fst providers_dict)))
  else
    connection_info ←
      match barbican with
      | Some barbican =>
          secret_ref ← store_barbican_secret_for_coriolis barbican
                         connection_info ("Coriolis Endpoint " +:+ name);
          mret (secret_ref_stub secret_ref)
      | None => mret connection_info
      end;
    endpoint ← call (ReqEndpointsCreate name platform_type connection_info
                       description)
                 (endpoints_create coriolis name platform_type connection_info
                    description);
    mret endpoint.

(** [barbican] is only looked at when the connection info holds a
    reference; [None] has no attribute [secrets]. *)
Definition get_endpoint_connection_info (coriolis : CoriolisClient W)
    (barbican : option (BarbicanClient W)) (endpoint : Endpoint.t)
    : M W pyval :=
  stored ← call (ReqEndpointsGet endpoint) (endpoints_get coriolis endpoint);
  let endpoint_conn_info := Endpoint.connection_info stored in
  has_ref ← lift (py_contains "secret_ref" endpoint_conn_info);
  if negb has_ref then mret endpoint_conn_info
  else
    match barbican with
    | None => raise AttributeError
    | Some barbican =>
        secret_ref ← lift (py_getitem endpoint_conn_info "secret_ref");
        payload ← call (ReqSecretPayload secret_ref)
                    (secret_payload barbican secret_ref);
        match json_loads payload with
        | Some v => mret v
        | None => raise JSONDecodeError
        end
    end.

(** The default is [raise_on_error=True]. *)
Definition validate_endpoint (coriolis : CoriolisClient W)
    (endpoint : Endpoint.t) (raise_on_error : bool) : M W (bool * string) :=
  '(is_valid, error_msg) ←
    call (ReqEndpointsValidateConnection endpoint)
      (endpoints_validate_connection coriolis endpoint);
  if raise_on_error && negb is_valid then
    raise (Exception ("Endpoint validation failed: " +:+ error_msg))
  else mret (is_valid, error_msg).
End endpoint_samples.

(** ** [UpdateReplica] of [coriolisclient/cli/replicas.py] *)

Module UpdateReplica.
Section take_action.
Context {W : Type}.
(** The storage flags that [cli_utils.add_storage_mappings_arguments_to_parser]
    adds, and [cli_utils.get_storage_mappings_dict_from_args], are not part
    of the sources at hand: the first is an arbitrary type, the second an
    arbitrary function that may raise. *)
Context {StorageArgs : Type}.

(** The parsed arguments: a flag that was not given is [None]. *)
Record Args := mk_args {
  id : string;
  destination_environment : option string;
  source_environment : option string;
  network_map : option string;
  notes : option string;
  force : bool;
  storage : StorageArgs;
}.

Variable json_loads : string → option pyval.
Variable get_storage_mappings_dict_from_args : Args → result pyval.
(** [ReplicaExecutionDetailFormatter().get_formatted_entity]. *)
Context {Formatted : Type}.
Variable get_formatted_entity : Execution.t → Formatted.

(** [x = None; if arg: x = json.loads(arg)] *)
Definition loads_if_given (arg : option string) : result pyval :=
  match arg with
  | Some s =>
      if negb (String.eqb s "") then
        match json_loads s with
        | Some v => Ok v
        | None => Raise JSONDecodeError
        end
      else Ok PNone
  | None => Ok PNone
  end.

(** [if v: updated_properties[k] = v] *)
Definition set_if_truthy (k : string) (v : pyval)
    (updated_properties : gmap string pyval) : gmap string pyval :=
  if truthy v then <[k := v]> updated_properties else updated_properties.

Definition notes_value (args : Args) : pyval :=
  match notes args with
  | Some s => PStr s
  | None => PNone
  end.

Definition build_updated_properties
    (destination_environment source_environment storage_mappings
       network_map notes : pyval) : gmap string pyval :=
  set_if_truthy "notes" notes
    (set_if_truthy "network_map" network_map
       (set_if_truthy "storage_mappings" storage_mappings
          (set_if_truthy "source_environment" source_environment
             (set_if_truthy "destination_environment" destination_environment
                ∅)))).

Definition take_action (coriolis : CoriolisClient W) (args : Args)
    : M W Formatted :=
  destination_environment ← lift (loads_if_given (destination_environment args));
  source_environment ← lift (loads_if_given (source_environment args));
  network_map ← lift (loads_if_given (network_map args));
  storage_mappings ← lift (get_storage_mappings_dict_from_args args);
  let updated_properties :=
    build_updated_properties destination_environment source_environment
      storage_mappings network_map (notes_value args) in
  execution ← call (ReqReplicasUpdate (id args) updated_properties (force args))
                (replicas_update coriolis (id args) updated_properties
                   (force args));
  mret (get_formatted_entity execution).
End take_action.
End UpdateReplica.

(** ** The text of a [float]

    [float(text)] for a decimal literal, and [float.__repr__]: the two
    conversions between binary64 numbers and text that the [json] module
    relies on.  Rounding is the one of [SpecFloat], to the nearest number
    with ties to the even mantissa. *)

Module PyFloat.
Import SpecFloat.

(** The binary64 number nearest to [num / den]. *)
Definition nearest (negative : bool) (num den : positive) : spec_float :=
  SFdiv FloatOps.prec FloatOps.emax
    (S754_finite negative num 0) (S754_finite false den 0).

(** The binary64 number nearest to [m * 10 ^ k]: what [float] answers for
    a decimal literal with the digits [m] and the exponent [k].  A literal
    too large is read as an infinity, one too small as a zero. *)
Definition of_decimal (negative : bool) (m : N) (k : Z) : spec_float :=
  match m with
  | N0 => S754_zero negative
  | Npos p =>
      match k with
      | Z0 => nearest negative p 1
      | Zpos e => nearest negative (p * 10 ^ e) 1
      | Zneg e => nearest negative p (10 ^ e)
      end
  end.

(** The number of decimal digits of a positive number. *)
Definition nb_digits (p : positive) : Z :=
  Z.of_nat (Decimal.nb_digits (Pos.to_uint p)).

(** The place of the decimal point: the [k] with
    [10 ^ (k - 1) <= num / den < 10 ^ k]. *)
Definition decimal_point (num den : positive) : Z :=
  match (Zpos num / Zpos den)%Z with
  | Zpos q => nb_digits q
  | _ =>
      match (Zpos den / Zpos num)%Z with
      | Zpos q => 1 - nb_digits q
      | _ => 0
      end
  end.

(** [num / den * 10 ^ s] as a fraction. *)
Definition scale (num den : positive) (s : Z) : positive * positive :=
  match s with
  | Z0 => (num, den)
  | Zpos e => ((num * 10 ^ e)%positive, den)
  | Zneg e => (num, (den * 10 ^ e)%positive)
  end.

(** The shortest decimal that [float] reads back as [f = num / den], and
    of the decimals of that length the nearest one, the even one on a tie:
    its digits [x] and its exponent [q], for [x * 10 ^ q].  With [n]
    digits the candidates are the decimal just below the number and the
    one just above; seventeen digits are enough for a binary64 number. *)
Fixpoint shortest (fuel : nat) (n : Z) (f : spec_float)
    (num den : positive) (k : Z) : N * Z :=
  let q := (k - n)%Z in
  let (a, b) := scale num den (- q) in
  let d := (Npos a / Npos b)%N in
  let r := (Npos a mod Npos b)%N in
  let reads x := SFeqb (of_decimal false x q) f in
  let nearer :=
    match (2 * r ?= Npos b)%N with
    | Lt => d
    | Gt => (d + 1)%N
    | Eq => if N.even d then d else (d + 1)%N
    end in
  if (r =? 0)%N then (d, q)
  else
    match fuel with
    | O => (nearer, q)
    | S fuel =>
        match reads d, reads (d + 1)%N with
        | true, true => (nearer, q)
        | true, false => (d, q)
        | false, true => ((d + 1)%N, q)
        | false, false => shortest fuel (n + 1)%Z f num den k
        end
    end.

(** Zeros at the end of the digits go to the exponent. *)
Fixpoint strip_zeros (fuel : nat) (x : N) (q : Z) : N * Z :=
  match fuel with
  | O => (x, q)
  | S fuel =>
      if (0 <? x)%N && (x mod 10 =? 0)%N then
        strip_zeros fuel (x / 10)%N (q + 1)%Z
      else (x, q)
  end.

Fixpoint zeros (n : nat) : string :=
  match n with
  | O => ""
  | S n => String "0" (zeros n)
  end.

Definition digits_text (x : N) : string :=
  DecimalString.NilZero.string_of_uint (N.to_uint x).

(** The digits [d1 d2 ... dn] with the decimal point after [decpt] of
    them: plain notation when [-4 < decpt <= 16], with [.0] after a whole
    number; the exponent notation otherwise, the exponent written with
    its sign and two digits at least. *)
Definition format (digits : string) (decpt : Z) : string :=
  let n := Z.of_nat (String.length digits) in
  if ((-4 <? decpt) && (decpt <=? 16))%Z then
    if (decpt <=? 0)%Z then
      "0." +:+ zeros (Z.to_nat (- decpt)) +:+ digits
    else if (decpt <? n)%Z then
      String.substring 0 (Z.to_nat decpt) digits +:+ "."
      +:+ String.substring (Z.to_nat decpt) (Z.to_nat (n - decpt)) digits
    else digits +:+ zeros (Z.to_nat (decpt - n)) +:+ ".0"
  else
    let e := (decpt - 1)%Z in
    let mantissa :=
      match digits with
      | String c "" => digits
      | String c rest => String c ("." +:+ rest)
      | "" => ""
      end in
    mantissa +:+ "e" +:+ (if (e <? 0)%Z then "-" else "+")
    +:+ (if (Z.abs e <? 10)%Z then "0" else "")
    +:+ digits_text (Z.to_N (Z.abs e)).

(** [float.__repr__] on the sign, the mantissa and the exponent of a
    number. *)
Definition repr_spec (f : spec_float) : string :=
  match f with
  | S754_nan => "nan"
  | S754_infinity s => if s then "-inf" else "inf"
  | S754_zero s => if s then "-0.0" else "0.0"
  | S754_finite s m e =>
      let (num, den) :=
        match e with
        | Z0 => (m, 1%positive)
        | Zpos p => ((m * 2 ^ p)%positive, 1%positive)
        | Zneg p => (m, (2 ^ p)%positive)
        end in
      let k := decimal_point num den in
      let (x, q) := shortest 17 1 (S754_finite false m e) num den k in
      let (x, q) := strip_zeros 18 x q in
      let digits := digits_text x in
      (if s then "-" else "")
      +:+ format digits (Z.of_nat (String.length digits) + q)
  end.

Definition repr (f : PrimFloat.float) : string :=
  repr_spec (FloatOps.Prim2SF f).

(** [float(text)] for the text [digits * 10 ^ k], with its sign. *)
Definition of_literal (negative : bool) (digits : N) (k : Z)
    : PrimFloat.float :=
  FloatOps.SF2Prim (of_decimal negative digits k).

End PyFloat.

(** ** The [json] module on the values above

    A model of [json.dumps] and [json.loads] with their default options
    (escapes for all but the printable ASCII characters, the separators
    [", "] and [": "], names for the numbers that JSON lacks, strict
    decoding), for the values of [pyval].  Text is the bytes of its UTF-8
    encoding, the JSON text as well; a [float] is written by its [repr]
    and read by [float].  The model is used where a statement needs a
    concrete encoding; the functions of the program take the two functions
    as parameters. *)

Module PyJson.

Definition quote : ascii := "034"%char.
Definition backslash : ascii := "092"%char.

(** *** [json.dumps] *)

Definition hex_char (n : N) : ascii :=
  match n with
  | 0 => "0" | 1 => "1" | 2 => "2" | 3 => "3" | 4 => "4" | 5 => "5"
  | 6 => "6" | 7 => "7" | 8 => "8" | 9 => "9" | 10 => "a" | 11 => "b"
  | 12 => "c" | 13 => "d" | 14 => "e" | _ => "f"
  end%N%char.

(** [\uXXXX] for a number below 65536. *)
Definition escape_unit (n : N) : string :=
  String backslash
    (String "u"
       (String (hex_char (n / 4096))
          (String (hex_char (n / 256 mod 16))
             (String (hex_char (n / 16 mod 16))
                (String (hex_char (n mod 16)) ""))))).

(** An ASCII character inside a JSON string, with [ensure_ascii]: the
    printable characters stand for themselves, except the quote and the
    backslash; the others are escaped. *)
Definition escape_char (c : ascii) : string :=
  if Ascii.eqb c quote then String backslash (String quote "")
  else if Ascii.eqb c backslash then String backslash (String backslash "")
  else if Ascii.eqb c "010" then String backslash "n"
  else if Ascii.eqb c "013" then String backslash "r"
  else if Ascii.eqb c "009" then String backslash "t"
  else if Ascii.eqb c "008" then String backslash "b"
  else if Ascii.eqb c "012" then String backslash "f"
  else
    let n := N_of_ascii c in
    if (32 <=? n)%N && (n <=? 126)%N then String c "" else escape_unit n.

(** A character by its code point: one beyond the ASCII characters is
    escaped, as a pair of surrogates from 65536 on. *)
Definition escape_code_point (cp : N) : string :=
  if (cp <? 128)%N then escape_char (ascii_of_N cp)
  else if (cp <? 65536)%N then escape_unit cp
  else
    escape_unit (55296 + (cp - 65536) / 1024)
    +:+ escape_unit (56320 + (cp - 65536) mod 1024).

(** A byte [10xxxxxx], which continues a character. *)
Definition continuation (c : ascii) : bool :=
  (128 <=? N_of_ascii c)%N && (N_of_ascii c <? 192)%N.

Definition payload (c : ascii) : N := (N_of_ascii c - 128)%N.

(** The character that starts with the byte [c], followed by [s]: its
    code point and the number of bytes of [s] that belong to it.  [None]
    when no character starts there, which happens in no text. *)
Definition code_point (c : ascii) (s : string) : option (N * nat) :=
  let b := N_of_ascii c in
  if (b <? 128)%N then Some (b, 0)
  else if (b <? 192)%N then None
  else if (b <? 224)%N then
    match s with
    | String c1 _ =>
        let cp := ((b - 192) * 64 + payload c1)%N in
        if continuation c1 && (128 <=? cp)%N then Some (cp, 1) else None
    | _ => None
    end
  else if (b <? 240)%N then
    match s with
    | String c1 (String c2 _) =>
        let cp := (((b - 224) * 64 + payload c1) * 64 + payload c2)%N in
        if continuation c1 && continuation c2 && (2048 <=? cp)%N then
          Some (cp, 2)
        else None
    | _ => None
    end
  else if (b <? 248)%N then
    match s with
    | String c1 (String c2 (String c3 _)) =>
        let cp :=
          ((((b - 240) * 64 + payload c1) * 64 + payload c2) * 64
           + payload c3)%N in
        if continuation c1 && continuation c2 && continuation c3
           && (65536 <=? cp)%N && (cp <? 1114112)%N then
          Some (cp, 3)
        else None
    | _ => None
    end
  else None.

(** The printers take the text that follows as a last argument.  The
    characters of a text are written one after the other; [skip] counts
    the bytes that belong to the character just written.  A byte that
    starts no character is left as it is. *)
Fixpoint escape_to (skip : nat) (s rest : string) : string :=
  match s with
  | "" => rest
  | String c s' =>
      match skip with
      | S skip' => escape_to skip' s' rest
      | O =>
          match code_point c s' with
          | Some (cp, more) => escape_code_point cp +:+ escape_to more s' rest
          | None => String c (escape_to 0 s' rest)
          end
      end
  end.

Definition dumps_str_to (s rest : string) : string :=
  String quote (escape_to 0 s (String quote rest)).

Definition dumps_int_to (z : Z) (rest : string) : string :=
  DecimalString.NilZero.string_of_int (Z.to_int z) +:+ rest.

(** A [float] is written by [float.__repr__], except the three that JSON
    has no number for. *)
Definition dumps_float_to (f : PrimFloat.float) (rest : string) : string :=
  match FloatOps.Prim2SF f with
  | SpecFloat.S754_nan => "NaN" +:+ rest
  | SpecFloat.S754_infinity false => "Infinity" +:+ rest
  | SpecFloat.S754_infinity true => "-Infinity" +:+ rest
  | x => PyFloat.repr_spec x +:+ rest
  end.

Section containers_to.
Variable value_to : pyval → string → string.

Fixpoint elems_to (vs : list pyval) (rest : string) : string :=
  match vs with
  | [] => String "]" rest
  | v :: vs' => String "," (String " " (value_to v (elems_to vs' rest)))
  end.

Definition member_to (k : string) (v : pyval) (rest : string) : string :=
  dumps_str_to k (String ":" (String " " (value_to v rest))).

Fixpoint members_to (d : list (string * pyval)) (rest : string) : string :=
  match d with
  | [] => String "}" rest
  | (k, v) :: d' =>
      String "," (String " " (member_to k v (members_to d' rest)))
  end.
End containers_to.

(** A tuple is written as an array. *)
Fixpoint dumps_to (v : pyval) (rest : string) {struct v} : string :=
  match v with
  | PNone => "null" +:+ rest
  | PBool true => "true" +:+ rest
  | PBool false => "false" +:+ rest
  | PInt z => dumps_int_to z rest
  | PFloat f => dumps_float_to f rest
  | PStr s => dumps_str_to s rest
  | PList l | PTuple l =>
      String "["
        match l with
        | [] => String "]" rest
        | v :: vs => dumps_to v (elems_to dumps_to vs rest)
        end
  | PDict d =>
      String "{"
        match d with
        | [] => String "}" rest
        | (k, v) :: d' =>
            dumps_str_to k
              (String ":" (String " " (dumps_to v (members_to dumps_to d' rest))))
        end
  end.

Definition dumps (v : pyval) : string := dumps_to v "".

(** *** [json.loads] *)

Definition is_ws (c : ascii) : bool :=
  Ascii.eqb c " " || Ascii.eqb c "009" || Ascii.eqb c "010"
  || Ascii.eqb c "013".

Fixpoint skip_ws (s : string) : string :=
  match s with
  | String c s' => if is_ws c then skip_ws s' else s
  | "" => ""
  end.

Definition hex_val (c : ascii) : option N :=
  let n := N_of_ascii c in
  if (48 <=? n)%N && (n <=? 57)%N then Some (n - 48)%N
  else if (97 <=? n)%N && (n <=? 102)%N then Some (n - 87)%N
  else if (65 <=? n)%N && (n <=? 70)%N then Some (n - 55)%N
  else None.

(** The number that four hexadecimal digits stand for. *)
Definition hex4 (h1 h2 h3 h4 : ascii) : option N :=
  match hex_val h1, hex_val h2, hex_val h3, hex_val h4 with
  | Some n1, Some n2, Some n3, Some n4 =>
      Some (((n1 * 16 + n2) * 16 + n3) * 16 + n4)%N
  | _, _, _, _ => None
  end.

(** The bytes of a character, by its code point. *)
Definition encode (cp : N) : string :=
  if (cp <? 128)%N then String (ascii_of_N cp) ""
  else if (cp <? 2048)%N then
    String (ascii_of_N (192 + cp / 64))
      (String (ascii_of_N (128 + cp mod 64)) "")
  else if (cp <? 65536)%N then
    String (ascii_of_N (224 + cp / 4096))
      (String (ascii_of_N (128 + cp / 64 mod 64))
         (String (ascii_of_N (128 + cp mod 64)) ""))
  else
    String (ascii_of_N (240 + cp / 262144))
      (String (ascii_of_N (128 + cp / 4096 mod 64))
         (String (ascii_of_N (128 + cp / 64 mod 64))
            (String (ascii_of_N (128 + cp mod 64)) ""))).

Definition high_surrogate (n : N) : bool :=
  (55296 <=? n)%N && (n <? 56320)%N.

Definition low_surrogate (n : N) : bool :=
  (56320 <=? n)%N && (n <? 57344)%N.

Definition join_surrogates (high low : N) : N :=
  (65536 + (high - 55296) * 1024 + (low - 56320))%N.

Definition cons_char (c : ascii) (r : option (string * string))
    : option (string * string) :=
  match r with
  | Some (str, rest) => Some (String c str, rest)
  | None => None
  end.

Definition cons_text (t : string) (r : option (string * string))
    : option (string * string) :=
  match r with
  | Some (str, rest) => Some (t +:+ str, rest)
  | None => None
  end.

(** The characters of a string after its opening quote, up to the closing
    quote; a raw control character is an error.  An escaped high surrogate
    that an escaped low surrogate follows is one character with it. *)
Fixpoint parse_chars (s : string) : option (string * string) :=
  match s with
  | "" => None
  | String c s' =>
      if Ascii.eqb c quote then Some ("", s')
      else if Ascii.eqb c backslash then
        match s' with
        | "" => None
        | String e s'' =>
            if Ascii.eqb e quote then cons_char quote (parse_chars s'')
            else if Ascii.eqb e backslash then
              cons_char backslash (parse_chars s'')
            else if Ascii.eqb e "/" then cons_char "/" (parse_chars s'')
            else if Ascii.eqb e "b" then cons_char "008" (parse_chars s'')
            else if Ascii.eqb e "f" then cons_char "012" (parse_chars s'')
            else if Ascii.eqb e "n" then cons_char "010" (parse_chars s'')
            else if Ascii.eqb e "r" then cons_char "013" (parse_chars s'')
            else if Ascii.eqb e "t" then cons_char "009" (parse_chars s'')
            else if Ascii.eqb e "u" then
              match s'' with
              | String h1 (String h2 (String h3 (String h4 s4))) =>
                  match hex4 h1 h2 h3 h4 with
                  | Some n =>
                      if high_surrogate n then
                        match s4 with
                        | String b (String u (String l1 (String l2
                            (String l3 (String l4 s10))))) =>
                            if Ascii.eqb b backslash && Ascii.eqb u "u" then
                              match hex4 l1 l2 l3 l4 with
                              | Some n' =>
                                  if low_surrogate n' then
                                    cons_text (encode (join_surrogates n n'))
                                      (parse_chars s10)
                                  else cons_text (encode n) (parse_chars s4)
                              | None => None
                              end
                            else cons_text (encode n) (parse_chars s4)
                        | _ => cons_text (encode n) (parse_chars s4)
                        end
                      else cons_text (encode n) (parse_chars s4)
                  | None => None
                  end
              | _ => None
              end
            else None
        end
      else if (N_of_ascii c <? 32)%N then None
      else cons_char c (parse_chars s')
  end.

Definition digit_of (c : ascii) : option (Decimal.uint → Decimal.uint) :=
  match N_of_ascii c with
  | 48 => Some Decimal.D0 | 49 => Some Decimal.D1 | 50 => Some Decimal.D2
  | 51 => Some Decimal.D3 | 52 => Some Decimal.D4 | 53 => Some Decimal.D5
  | 54 => Some Decimal.D6 | 55 => Some Decimal.D7 | 56 => Some Decimal.D8
  | 57 => Some Decimal.D9 | _ => None
  end%N.

Fixpoint read_digits (s : string) : Decimal.uint * string :=
  match s with
  | "" => (Decimal.Nil, "")
  | String c s' =>
      match digit_of c with
      | Some d => let (u, rest) := read_digits s' in (d u, rest)
      | None => (Decimal.Nil, s)
      end
  end.

(** The integer part of a number: [0], or digits that start with a digit
    other than [0]. *)
Definition parse_digits (s : string) : option (Decimal.uint * string) :=
  match s with
  | "" => None
  | String c s' =>
      if Ascii.eqb c "0" then Some (Decimal.D0 Decimal.Nil, s')
      else
        match digit_of c with
        | Some _ => Some (read_digits s)
        | None => None
        end
  end.

Definition is_digit (c : ascii) : bool :=
  match digit_of c with
  | Some _ => true
  | None => false
  end.

(** The fraction of a number: a point and one digit at least. *)
Definition read_fraction (s : string) : option Decimal.uint * string :=
  match s with
  | String p (String c s') =>
      if Ascii.eqb p "." && is_digit c then
        let (u, rest) := read_digits (String c s') in (Some u, rest)
      else (None, s)
  | _ => (None, s)
  end.

(** The exponent of a number: [e] or [E], a sign or none, and one digit
    at least. *)
Definition read_exponent (s : string) : option Decimal.int * string :=
  match s with
  | String e (String c s') =>
      if Ascii.eqb e "e" || Ascii.eqb e "E" then
        if is_digit c then
          let (u, rest) := read_digits (String c s') in
          (Some (Decimal.Pos u), rest)
        else
          match s' with
          | String c' _ =>
              if (Ascii.eqb c "+" || Ascii.eqb c "-") && is_digit c' then
                let (u, rest) := read_digits s' in
                (Some (if Ascii.eqb c "-" then Decimal.Neg u
                       else Decimal.Pos u), rest)
              else (None, s)
          | "" => (None, s)
          end
      else (None, s)
  | _ => (None, s)
  end.

(** [float(integer + frac + exp)]: the digits of the integer part and of
    the fraction, and the exponent less the length of the fraction. *)
Definition float_of_parts (negative : bool) (integer : Decimal.uint)
    (frac : option Decimal.uint) (exp : option Decimal.int)
    : PrimFloat.float :=
  let f := default Decimal.Nil frac in
  PyFloat.of_literal negative (N.of_uint (Decimal.app integer f))
    (Z.of_int (default (Decimal.Pos Decimal.Nil) exp)
     - Z.of_nat (Decimal.nb_digits f)).

(** A number is an integer, unless it has a fraction or an exponent: then
    it is a [float]. *)
Definition parse_number (s : string) : option (pyval * string) :=
  let (negative, digits) :=
    match s with
    | String c s' => if Ascii.eqb c "-" then (true, s') else (false, s)
    | "" => (false, s)
    end in
  match parse_digits digits with
  | Some (u, rest) =>
      let (frac, rest1) := read_fraction rest in
      let (exp, rest2) := read_exponent rest1 in
      match frac, exp with
      | None, None =>
          if negative then Some (PInt (Z.of_int (Decimal.Neg u)), rest)
          else Some (PInt (Z.of_int (Decimal.Pos u)), rest)
      | _, _ => Some (PFloat (float_of_parts negative u frac exp), rest2)
      end
  | None => None
  end.

(** [lit] at the start of [s]: what follows it. *)
Fixpoint expect (lit s : string) : option string :=
  match lit with
  | "" => Some s
  | String c lit' =>
      match s with
      | String c' s' => if Ascii.eqb c c' then expect lit' s' else None
      | "" => None
      end
  end.

(** The three names that stand for a [float] that is no number of JSON. *)
Definition parse_constant (s : string) : option (pyval * string) :=
  match expect "NaN" s with
  | Some rest => Some (PFloat PrimFloat.nan, rest)
  | None =>
      match expect "Infinity" s with
      | Some rest => Some (PFloat PrimFloat.infinity, rest)
      | None =>
          match expect "-Infinity" s with
          | Some rest => Some (PFloat PrimFloat.neg_infinity, rest)
          | None => None
          end
      end
  end.

(** [d[k] = v]: a key that is present keeps its place. *)
Fixpoint dict_set (k : string) (v : pyval) (d : list (string * pyval))
    : list (string * pyval) :=
  match d with
  | [] => [(k, v)]
  | (k', v') :: d' =>
      if String.eqb k' k then (k', v) :: d' else (k', v') :: dict_set k v d'
  end.

Definition dict_of_pairs (pairs : list (string * pyval))
    : list (string * pyval) :=
  fold_left (λ d kv, dict_set kv.1 kv.2 d) pairs [].

(** The parsers answer the value and the text that follows it.  Every
    call consumes a character, and [fuel] bounds the number of nested
    calls. *)
Fixpoint parse_value (fuel : nat) (s : string) {struct fuel}
    : option (pyval * string) :=
  match fuel with
  | O => None
  | S fuel =>
      match s with
      | "" => None
      | String c s' =>
          if Ascii.eqb c "n" then
            match expect "ull" s' with
            | Some rest => Some (PNone, rest)
            | None => None
            end
          else if Ascii.eqb c "t" then
            match expect "rue" s' with
            | Some rest => Some (PBool true, rest)
            | None => None
            end
          else if Ascii.eqb c "f" then
            match expect "alse" s' with
            | Some rest => Some (PBool false, rest)
            | None => None
            end
          else if Ascii.eqb c quote then
            match parse_chars s' with
            | Some (str, rest) => Some (PStr str, rest)
            | None => None
            end
          else if Ascii.eqb c "[" then
            match skip_ws s' with
            | String c1 s1 =>
                if Ascii.eqb c1 "]" then Some (PList [], s1)
                else
                  match parse_elems fuel (String c1 s1) with
                  | Some (vs, rest) => Some (PList vs, rest)
                  | None => None
                  end
            | "" => None
            end
          else if Ascii.eqb c "{" then
            match skip_ws s' with
            | String c1 s1 =>
                if Ascii.eqb c1 "}" then Some (PDict [], s1)
                else
                  match parse_members fuel (String c1 s1) with
                  | Some (pairs, rest) => Some (PDict (dict_of_pairs pairs), rest)
                  | None => None
                  end
            | "" => None
            end
          else
            match parse_number s with
            | Some r => Some r
            | None => parse_constant s
            end
      end
  end
with parse_elems (fuel : nat) (s : string) {struct fuel}
    : option (list pyval * string) :=
  match fuel with
  | O => None
  | S fuel =>
      match parse_value fuel s with
      | Some (v, rest) =>
          match skip_ws rest with
          | String c rest' =>
              if Ascii.eqb c "," then
                match parse_elems fuel (skip_ws rest') with
                | Some (vs, rest'') => Some (v :: vs, rest'')
                | None => None
                end
              else if Ascii.eqb c "]" then Some ([v], rest')
              else None
          | "" => None
          end
      | None => None
      end
  end
with parse_members (fuel : nat) (s : string) {struct fuel}
    : option (list (string * pyval) * string) :=
  match fuel with
  | O => None
  | S fuel =>
      match s with
      | String q s' =>
          if Ascii.eqb q quote then
            match parse_chars s' with
            | Some (k, rest) =>
                match skip_ws rest with
                | String c rest' =>
                    if Ascii.eqb c ":" then
                      match parse_value fuel (skip_ws rest') with
                      | Some (v, rest2) =>
                          match skip_ws rest2 with
                          | String c2 rest3 =>
                              if Ascii.eqb c2 "," then
                                match parse_members fuel (skip_ws rest3) with
                                | Some (pairs, rest4) =>
                                    Some ((k, v) :: pairs, rest4)
                                | None => None
                                end
                              else if Ascii.eqb c2 "}" then Some ([(k, v)], rest3)
                              else None
                          | "" => None
                          end
                      | None => None
                      end
                    else None
                | "" => None
                end
            | None => None
            end
          else None
      | "" => None
      end
  end.

(** [None] stands for [JSONDecodeError]. *)
Definition loads (s : string) : option pyval :=
  match parse_value (S (String.length s)) (skip_ws s) with
  | Some (v, rest) =>
      match skip_ws rest with
      | "" => Some v
      | String _ _ => None
      end
  | None => None
  end.

(** What may follow a value inside a text: nothing, a comma, or a
    closing bracket. *)
Definition delimited (s : string) : bool :=
  match s with
  | "" => true
  | String c _ => Ascii.eqb c "," || Ascii.eqb c "]" || Ascii.eqb c "}"
  end.

(** Values whose text is shown below to decode to the value itself: no
    tuples and no [float], the keys of every dictionary pairwise different,
    and text without surrogates (in the bytes, no byte 237 before a byte
    from 160 on). *)
Fixpoint distinct (ks : list string) : bool :=
  match ks with
  | [] => true
  | k :: ks' => negb (existsb (String.eqb k) ks') && distinct ks'
  end.

Fixpoint no_surrogate (s : string) : bool :=
  match s with
  | String c s' =>
      match s' with
      | String c1 _ =>
          negb ((N_of_ascii c =? 237)%N && (160 <=? N_of_ascii c1)%N)
          && no_surrogate s'
      | "" => true
      end
  | "" => true
  end.

Fixpoint json_native (v : pyval) : bool :=
  match v with
  | PNone | PBool _ | PInt _ => true
  | PFloat _ => false
  | PStr s => no_surrogate s
  | PList l => forallb json_native l
  | PTuple _ => false
  | PDict d =>
      distinct (map fst d) && forallb no_surrogate (map fst d)
      && forallb (λ kv, json_native kv.2) d
  end.

(** Text without white space and without a closing bracket: the text of
    a number is of that kind. *)
Fixpoint solid (s : string) : bool :=
  match s with
  | "" => true
  | String c s' => negb (is_ws c) && negb (Ascii.eqb c "]") && solid s'
  end.

(** Printing a value adds at least one character. *)
Definition grows (v : pyval) : Prop :=
  ∀ rest, 1 + String.length rest ≤ String.length (dumps_to v rest).

(** Decoding the text of [v] followed by [rest] answers [v] and [rest],
    with fuel for the characters of the text of [v]. *)
Definition roundtrips (v : pyval) : Prop :=
  ∀ fuel rest,
    delimited rest = true →
    String.length (dumps_to v rest) ≤ fuel + String.length rest →
    parse_value fuel (dumps_to v rest) = Some (v, rest).

End PyJson.

(** ** A service and a vault to run the program against

    A small in-memory service and vault.  The service lists the providers
    it was set up with, keeps the endpoints it is given and numbers them;
    the vault keeps the secrets it is given under numbered references.  They
    are used to evaluate the program on concrete inputs. *)

Module Mock.

Record world := mk {
  providers : list (string * pyval);
  endpoints : list Endpoint.t;
  secrets : list (string * Secret.t);
  validation : bool * string;
}.

Definition endpoint_id (n : nat) : string := "endpoint-" +:+ pretty n.

Definition secret_href (n : nat) : string :=
  "http://vault:9311/v1/secrets/" +:+ pretty n.

Fixpoint find_endpoint (i : string) (l : list Endpoint.t)
    : option Endpoint.t :=
  match l with
  | [] => None
  | e :: l' => if String.eqb (Endpoint.id e) i then Some e else find_endpoint i l'
  end.

Fixpoint find_secret (href : string) (l : list (string * Secret.t))
    : option Secret.t :=
  match l with
  | [] => None
  | (h, s) :: l' => if String.eqb h href then Some s else find_secret href l'
  end.

Definition coriolis : CoriolisClient world := {|
  providers_list w := (Ok (providers w), w);
  endpoints_create name platform_type connection_info description w :=
    let e := Endpoint.mk (endpoint_id (length (endpoints w))) name
               platform_type connection_info description in
    (Ok e, mk (providers w) (endpoints w ++ [e]) (secrets w) (validation w));
  endpoints_get endpoint w :=
    match find_endpoint (Endpoint.id endpoint) (endpoints w) with
    | Some e => (Ok e, w)
    | None => (Raise (ServiceError "endpoint not found"), w)
    end;
  endpoints_validate_connection endpoint w := (Ok (validation w), w);
  replicas_update replica_id updated_properties force w :=
    (Ok (Execution.mk "execution-1" "RUNNING" "2019-07-11T10:06:13"), w);
|}.

Definition barbican : BarbicanClient world := {|
  secret_store secret w :=
    let href := secret_href (length (secrets w)) in
    (Ok href,
     mk (providers w) (endpoints w) (secrets w ++ [(href, secret)])
       (validation w));
  secret_payload secret_ref w :=
    match secret_ref with
    | PStr href =>
        match find_secret href (secrets w) with
        | Some s => (Ok (Secret.payload s), w)
        | None => (Raise (ServiceError "secret not found"), w)
        end
    | _ => (Raise (ValueError "invalid secret reference"), w)
    end;
|}.

(** A service that knows two platforms and holds nothing yet. *)
Definition fresh : world :=
  mk [("oci", PDict []); ("openstack", PDict [])] [] [] (true, "").

(** The text of the keys of a dictionary, as far as the examples need
    it: keys without quotes or escapes, each between single quotes. *)
Definition str_dict_keys (ks : list string) : string :=
  "dict_keys(["
  +:+ String.concat ", " (map (λ k, "'" +:+ k +:+ "'") ks) +:+ "])".

(** The connection info of the sample script. *)
Definition OCI_CONNECTION_INFO : pyval :=
  PDict [("region", PStr "eu-frankfurt-1");
         ("tenancy", PStr "<tenancy OCID>");
         ("user", PStr "<user OCID>");
         ("private_key_data", PStr "<data of private key>");
         ("private_key_passphrase", PStr "<key passphrase>")].

End Mock.

(** Three executions in the order of their creation, and replicas that
    hold them. *)
Module Samples.

Definition e1 : Execution.t :=
  Execution.mk "exec-1" "COMPLETED" "2019-07-11T10:06:13".
Definition e2 : Execution.t :=
  Execution.mk "exec-2" "ERROR" "2019-07-12T08:00:00".
Definition e3 : Execution.t :=
  Execution.mk "exec-3" "RUNNING" "2019-07-13T23:59:59".

Definition r1 : Replica.t :=
  Replica.mk "replica-1" ["vm-b"; "Vm-c"; "vm-a"] [e2; e3; e1]
    "2019-07-11T10:00:00".
Definition r2 : Replica.t :=
  Replica.mk "replica-2" ["vm-d"] [] "2019-07-10T09:00:00".
(** Created at the same time as [r1]. *)
Definition r3 : Replica.t :=
  Replica.mk "replica-3" ["vm-e"] [e1] "2019-07-11T10:00:00".

End Samples.

(** A time in seconds that is no whole number. *)
Module SampleFloat.
Import PrimFloat.
Definition timeout : float := 1.5.
End SampleFloat.

Module MockRun.

(** The endpoint of the sample script, created with the vault, and the
    world after its creation. *)
Definition sample_created : result Endpoint.t * (Mock.world * list request) :=
  create_endpoint PyJson.dumps Mock.str_dict_keys Mock.coriolis
    "Coriolis Testing Endpoint" "oci" Mock.OCI_CONNECTION_INFO
    (Some Mock.barbican) "Created by Coriolis sample scripts" (Mock.fresh, []).

Definition sample_endpoint : Endpoint.t :=
  Endpoint.mk "endpoint-0" "Coriolis Testing Endpoint" "oci"
    (PDict [("secret_ref", PStr "http://vault:9311/v1/secrets/0")])
    "Created by Coriolis sample scripts".

Definition sample_world : Mock.world := sample_created.2.1.

(** A service whose validation of connections fails. *)
Definition failing : Mock.world :=
  Mock.mk (Mock.providers Mock.fresh) [] [] (false, "authentication failed").

(** No storage flags: the dictionary of storage mappings is empty. *)
Definition no_storage_mappings
    (args : UpdateReplica.Args (StorageArgs := unit)) : result pyval :=
  Ok (PDict []).

(** [replica update replica-1 --network-map '{"net1": "net2"}'
    --notes 'moved to rack 4' --force] *)
Definition update_notes_and_network : UpdateReplica.Args (StorageArgs := unit) :=
  UpdateReplica.mk_args "replica-1" None None
    (Some (PyJson.dumps (PDict [("net1", PStr "net2")])))
    (Some "moved to rack 4") true ().

(** [replica update replica-1 --destination-environment '{}' --notes ''] *)
Definition update_empty_values : UpdateReplica.Args (StorageArgs := unit) :=
  UpdateReplica.mk_args "replica-1" (Some "{}") None None (Some "") false ().


(** Connection info with a number that is no integer and with text
    beyond ASCII: [{"host": "10.0.0.5", "port": 443, "timeout": 1.5,
    "verify": True, "proxy": None, "zones": ["eu-frankfurt-1", "Zürich"]}]. *)
Definition tuned_payload : pyval :=
  PDict [("host", PStr "10.0.0.5"); ("port", PInt 443);
         ("timeout", PFloat SampleFloat.timeout); ("verify", PBool true);
         ("proxy", PNone);
         ("zones", PList [PStr "eu-frankfurt-1"; PStr "Zürich"])].


End MockRun.

(** * The rest of the two files

    The other commands of [coriolisclient/cli/replicas.py] and the other
    functions of [samples/endpoint_samples.py] send requests that
    [request] does not list.  [Comp R W] is [M W] for any type [R] of
    requests. *)

Module Comp.
Definition t (R W A : Type) : Type :=
  W * list R → result A * (W * list R).

#[global] Instance ret {R W} : MRet (t R W) | 100 := λ A a s, (Ok a, s).

#[global] Instance bind {R W} : MBind (t R W) | 100 := λ A B k m s,
  match m s with
  | (Ok a, s') => k a s'
  | (Raise e, s') => (Raise e, s')
  end.

Definition raise {R W A} (e : exn) : t R W A := λ s, (Raise e, s).

Definition lift {R W A} (r : result A) : t R W A := λ s, (r, s).

Definition call {R W A} (req : R) (op : W → result A * W) : t R W A :=
  λ '(w, tr), let (r, w') := op w in (r, (w', tr ++ [req])).
End Comp.

(** Unfold the steps of such a computation. *)
Ltac run_comp :=
  cbv beta iota delta [mbind mret Comp.bind Comp.ret Comp.call Comp.raise
                       Comp.lift].

(** The requests of [get_schema_for_plugin] and of [CreateReplica]. *)
Inductive api_request :=
| ApiSchemasList (platform_type : string) (schema_type : Z)
| ApiEndpointIdForName (name : string)
| ApiReplicasCreate (origin_endpoint_id destination_endpoint_id : string)
    (source_environment destination_environment : pyval)
    (instances : list string) (network_map storage_mappings : pyval).

(** The managers of the client that these functions use:
    [providers.schemas_list(...).to_dict()],
    [endpoints.get_endpoint_id_for_name] and [replicas.create], which
    answers an entity of some type. *)
Record ApiClient (W Entity : Type) := {
  providers_schemas_list : string → Z → W → result pyval * W;
  endpoints_get_endpoint_id_for_name : string → W → result string * W;
  replicas_create :
    string → string → pyval → pyval → list string → pyval → pyval → W →
    result Entity * W;
}.
Arguments providers_schemas_list {W Entity} _ _ _ _.
Arguments endpoints_get_endpoint_id_for_name {W Entity} _ _ _.
Arguments replicas_create {W Entity} _ _ _ _ _ _ _ _ _.

(** ** [get_schema_for_plugin] of [samples/endpoint_samples.py] *)

Definition provider_schema_type_map : gmap string Z :=
  <["destination" := 1%Z]> (<["source" := 2%Z]> (<["connection" := 16%Z]> ∅)).

(** [d[k]] for a dictionary of codes. *)
Definition code_getitem (d : gmap string Z) (k : string) : result Z :=
  match d !! k with
  | Some c => Ok c
  | None => Raise (KeyError k)
  end.

Definition get_schema_for_plugin {W Entity : Type}
    (coriolis : ApiClient W Entity) (platform_type schema_type : string)
    : Comp.t api_request W pyval :=
  code ← Comp.lift (code_getitem provider_schema_type_map schema_type);
  Comp.call (ApiSchemasList platform_type code)
    (providers_schemas_list coriolis platform_type code).

(** ** [CreateReplica] of [coriolisclient/cli/replicas.py] *)

Module CreateReplica.
Section take_action.
Context {W StorageArgs Entity Formatted : Type}.

(** The parsed arguments.  [--origin-endpoint], [--destination-endpoint],
    [--network-map] and [--instance] are required; the storage flags are
    those of [cli_utils.add_storage_mappings_arguments_to_parser]. *)
Record Args := mk_args {
  origin_endpoint : string;
  destination_endpoint : string;
  destination_environment : option string;
  source_environment : option string;
  network_map : string;
  instances : list string;
  storage : StorageArgs;
}.

Variable json_loads : string → option pyval.
Variable get_storage_mappings_dict_from_args : Args → result pyval.
(** [ReplicaDetailFormatter().get_formatted_entity]. *)
Variable get_formatted_entity : Entity → Formatted.

Definition take_action (coriolis : ApiClient W Entity) (args : Args)
    : Comp.t api_request W Formatted :=
  destination_environment ←
    Comp.lift
      (UpdateReplica.loads_if_given json_loads (destination_environment args));
  source_environment ←
    Comp.lift
      (UpdateReplica.loads_if_given json_loads (source_environment args));
  network_map ←
    Comp.lift
      (UpdateReplica.loads_if_given json_loads (Some (network_map args)));
  storage_mappings ← Comp.lift (get_storage_mappings_dict_from_args args);
  origin_endpoint_id ←
    Comp.call (ApiEndpointIdForName (origin_endpoint args))
      (endpoints_get_endpoint_id_for_name coriolis (origin_endpoint args));
  destination_endpoint_id ←
    Comp.call (ApiEndpointIdForName (destination_endpoint args))
      (endpoints_get_endpoint_id_for_name coriolis (destination_endpoint args));
  replica ←
    Comp.call
      (ApiReplicasCreate origin_endpoint_id destination_endpoint_id
         source_environment destination_environment (instances args)
         network_map storage_mappings)
      (replicas_create coriolis origin_endpoint_id destination_endpoint_id
         source_environment destination_environment (instances args)
         network_map storage_mappings);
  mret (get_formatted_entity replica).
End take_action.
End CreateReplica.

(** ** The data of [ReplicaDetailFormatter] *)

(** A replica as the detail view reads it: the fields of [Replica.t] and
    the other attributes; [storage_mappings] is the entry of [to_dict()],
    [None] when the key is missing. *)
Module ReplicaDetail.
Record t := mk {
  base : Replica.t;
  updated_at : pyval;
  reservation_id : pyval;
  origin_endpoint_id : string;
  destination_endpoint_id : string;
  info : pyval;
  storage_mappings : option pyval;
}.
End ReplicaDetail.

Module DetailFormatter.
Section data.
Variable linesep : string.
(** [cli_utils.parse_storage_mappings], [cli_utils.format_mapping] and
    [cli_utils.format_json_for_object_property] are not part of the sources
    at hand: mappings are of an arbitrary type, and the three functions are
    arbitrary; the first may raise. *)
Context {Mapping : Type}.
Variable parse_storage_mappings : pyval → result (pyval * Mapping * Mapping).
Variable format_mapping : Mapping → pyval.
Variable format_json_for_object_property : ReplicaDetail.t → string → pyval.

(** [__init__]: the columns of the formatter. *)
Definition columns (show_instances_data : bool) : list string :=
  ["id"; "created"; "last_updated"; "reservation_id"; "instances";
   "origin_endpoint_id"; "destination_endpoint_id";
   "destination_environment"; "source_environment"; "network_map";
   "disk_storage_mappings"; "storage_backend_mappings";
   "default_storage_backend"; "executions"]
  ++ (if show_instances_data then ["instances-data"] else []).

(** [_get_formatted_data] of a formatter whose columns are
    [self_columns]. *)
Definition _get_formatted_data (self_columns : list string)
    (obj : ReplicaDetail.t) : result (list pyval) :=
  let storage_mappings :=
    default (PDict []) (ReplicaDetail.storage_mappings obj) in
  result_bind (parse_storage_mappings storage_mappings)
    (λ '(default_storage, backend_mappings, disk_mappings),
     let data :=
       [PStr (Replica.id (ReplicaDetail.base obj));
        PStr (Replica.created_at (ReplicaDetail.base obj));
        ReplicaDetail.updated_at obj;
        ReplicaDetail.reservation_id obj;
        PStr (ReplicaDetailFormatter._format_instances linesep
                (ReplicaDetail.base obj));
        PStr (ReplicaDetail.origin_endpoint_id obj);
        PStr (ReplicaDetail.destination_endpoint_id obj);
        format_json_for_object_property obj "destination_environment";
        format_json_for_object_property obj "source_environment";
        format_json_for_object_property obj "network_map";
        format_mapping disk_mappings;
        format_mapping backend_mappings;
        default_storage;
        PStr (ReplicaDetailFormatter._format_executions linesep
                (Replica.executions (ReplicaDetail.base obj)))] in
     Ok (if existsb (String.eqb "instances-data") self_columns
         then data ++ [ReplicaDetail.info obj]
         else data)).
End data.
End DetailFormatter.

(** A flag whose text is given, is not empty and does not decode. *)
Definition undecodable (json_loads : string → option pyval)
    (arg : option string) : Prop :=
  ∃ s, arg = Some s ∧ s ≠ "" ∧ json_loads s = None.

(** ** More worlds to run the program against *)

Module MockMore.

(** A vault that refuses every request. *)
Definition sealed_barbican : BarbicanClient Mock.world := {|
  secret_store secret w := (Raise (ServiceError "vault is sealed"), w);
  secret_payload secret_ref w := (Raise (ServiceError "vault is sealed"), w);
|}.

(** An endpoint that the service answers without connection info. *)
Definition bare_endpoint : Endpoint.t :=
  Endpoint.mk "endpoint-0" "bare" "oci" PNone "".

Definition bare_world : Mock.world :=
  Mock.mk (Mock.providers Mock.fresh) [bare_endpoint] [] (true, "").

(** The same replicas in another order, and instances in another
    order. *)
Definition r1_reordered : Replica.t :=
  Replica.mk "replica-1" ["vm-a"; "vm-b"; "Vm-c"]
    [Samples.e1; Samples.e2; Samples.e3] "2019-07-11T10:00:00".

(** A service that knows endpoints by name and creates replicas: the
    world is the table of the endpoints and the replicas created so far. *)
Record api_world := mk_api {
  endpoint_ids : list (string * string);
  created : list (string * string);
}.

Fixpoint find_id (name : string) (l : list (string * string))
    : option string :=
  match l with
  | [] => None
  | (n, i) :: l' => if String.eqb n name then Some i else find_id name l'
  end.

Definition api : ApiClient api_world (string * string) := {|
  providers_schemas_list platform_type schema_type w :=
    (Ok (PDict [("type", PStr "object")]), w);
  endpoints_get_endpoint_id_for_name name w :=
    match find_id name (endpoint_ids w) with
    | Some i => (Ok i, w)
    | None => (Raise (ServiceError ("no endpoint named " +:+ name)), w)
    end;
  replicas_create origin destination source_environment
      destination_environment instances network_map storage_mappings w :=
    (Ok (origin, destination),
     mk_api (endpoint_ids w) (created w ++ [(origin, destination)]));
|}.

Definition api_fresh : api_world :=
  mk_api [("srcA", "id-1"); ("dstB", "id-2")] [].

Definition no_storage_mappings
    (args : CreateReplica.Args (StorageArgs := unit)) : result pyval :=
  Ok (PDict []).

(** [replica create --origin-endpoint srcA --destination-endpoint dstB
    --instance vm1 --network-map '{"net1": "net2"}'] *)
Definition create_args : CreateReplica.Args (StorageArgs := unit) :=
  CreateReplica.mk_args "srcA" "dstB" None None
    (PyJson.dumps (PDict [("net1", PStr "net2")])) ["vm1"] ().

(** The same with a destination that the service does not know. *)
Definition create_args_unknown : CreateReplica.Args (StorageArgs := unit) :=
  CreateReplica.mk_args "srcA" "dstZ" None None
    (PyJson.dumps (PDict [("net1", PStr "net2")])) ["vm1"] ().

(** The same with a network map that is not JSON. *)
Definition create_args_malformed : CreateReplica.Args (StorageArgs := unit) :=
  CreateReplica.mk_args "srcA" "dstB" None None "{net1: net2" ["vm1"] ().

(** [replica update replica-1 --source-environment '{oops'] *)
Definition update_malformed : UpdateReplica.Args (StorageArgs := unit) :=
  UpdateReplica.mk_args "replica-1" None (Some "{oops") None None false ().

(** Storage mappings as pairs, for the detail view. *)
Definition parse_storage_mappings (raw : pyval)
    : result (pyval * list (string * string) * list (string * string)) :=
  Ok (PNone, [], []).

Definition format_mapping (m : list (string * string)) : pyval :=
  PStr (String.concat newline (map (λ kv, kv.1 +:+ "=" +:+ kv.2) m)).

Definition format_json_for_object_property (obj : ReplicaDetail.t)
    (prop_name : string) : pyval := PStr "{}".

Definition detail : ReplicaDetail.t :=
  ReplicaDetail.mk Samples.r1 PNone PNone "id-1" "id-2"
    (PDict [("vm-a", PDict [])]) None.

End MockMore.

(** * Properties *)

(** ** The order on text *)

Lemma ascii_compare_refl (c : ascii) : Ascii.compare c c = Eq.
Proof. unfold Ascii.compare. apply N.compare_refl. Qed.

Lemma string_compare_refl (s : string) : String.compare s s = Eq.
Proof.
  induction s as [|c s IH]; simpl; [done|].
  by rewrite ascii_compare_refl.
Qed.

Lemma string_compare_lt_trans (s1 s2 s3 : string) :
  String.compare s1 s2 = Lt → String.compare s2 s3 = Lt →
  String.compare s1 s3 = Lt.
Proof.
  revert s2 s3. induction s1 as [|c1 s1 IH]; intros [|c2 s2] [|c3 s3];
    simpl; try done.
  destruct (Ascii.compare c1 c2) eqn:H12; try done.
  - apply Ascii.compare_eq_iff in H12 as ->.
    destruct (Ascii.compare c2 c3); try done. apply IH.
  - intros _. destruct (Ascii.compare c2 c3) eqn:H23; try done.
    + apply Ascii.compare_eq_iff in H23 as <-. by rewrite H12.
    + intros _. unfold Ascii.compare in *.
      rewrite N.compare_lt_iff in H12, H23.
      assert (N_of_ascii c1 < N_of_ascii c3)%N as Hlt by lia.
      apply N.compare_lt_iff in Hlt. by rewrite Hlt.
Qed.

Lemma string_ltb_irrefl (s : string) : String.ltb s s = false.
Proof. unfold String.ltb. by rewrite string_compare_refl. Qed.

Lemma string_ltb_trans (a b c : string) :
  String.ltb a b = true → String.ltb b c = true → String.ltb a c = true.
Proof.
  unfold String.ltb. intros Hab Hbc.
  destruct (String.compare a b) eqn:H1; try done.
  destruct (String.compare b c) eqn:H2; try done.
  by rewrite (string_compare_lt_trans _ _ _ H1 H2).
Qed.

Lemma string_ltb_total (a b : string) :
  String.ltb a b = false → String.ltb b a = false → a = b.
Proof.
  unfold String.ltb. rewrite (String.compare_antisym b a).
  destruct (String.compare a b) eqn:H; simpl; try done.
  intros _ _. by apply String.compare_eq_iff.
Qed.

Lemma string_leb_ltb (a b : string) :
  String.leb a b = negb (String.ltb b a).
Proof.
  unfold String.leb, String.ltb. rewrite (String.compare_antisym b a).
  by destruct (String.compare a b).
Qed.

(** ** The sort: permutation, order, stability *)

Section sorted_facts.
Context {A K : Type} `{EqDecision K} (key : A → K) (ltb : K → K → bool).
Hypothesis ltb_irrefl : ∀ a, ltb a a = false.
Hypothesis ltb_trans :
  ∀ a b c, ltb a b = true → ltb b c = true → ltb a c = true.
Hypothesis ltb_total : ∀ a b, ltb a b = false → ltb b a = false → a = b.

Lemma key_le_refl x : (key_le key ltb) x x.
Proof. apply ltb_irrefl. Qed.

Lemma key_le_trans x y z : (key_le key ltb) x y → (key_le key ltb) y z → (key_le key ltb) x z.
Proof.
  unfold key_le. intros Hxy Hyz.
  destruct (ltb (key z) (key x)) eqn:Hzx; [|done].
  destruct (ltb (key x) (key y)) eqn:Hlt.
  - by rewrite (ltb_trans _ _ _ Hzx Hlt) in Hyz.
  - rewrite (ltb_total _ _ Hlt Hxy) in Hzx. by rewrite Hzx in Hyz.
Qed.

Lemma key_lt_le x y : ltb (key x) (key y) = true → (key_le key ltb) x y.
Proof.
  unfold key_le. intros Hlt.
  destruct (ltb (key y) (key x)) eqn:Hgt; [|done].
  by rewrite <-(ltb_irrefl (key x)), (ltb_trans _ _ _ Hlt Hgt).
Qed.

Lemma insert_sorted_perm x l : insert_sorted key ltb x l ≡ₚ x :: l.
Proof.
  induction l as [|y l IH]; simpl; [done|].
  destruct (ltb (key y) (key x)); [|done].
  rewrite IH. apply Permutation_swap.
Qed.

Lemma sorted_perm l : sorted key ltb l ≡ₚ l.
Proof.
  induction l as [|x l IH]; simpl; [done|].
  by rewrite insert_sorted_perm, IH.
Qed.

Lemma sorted_length l : length (sorted key ltb l) = length l.
Proof. by rewrite sorted_perm. Qed.

Lemma insert_sorted_ordered x l :
  StronglySorted (key_le key ltb) l → StronglySorted (key_le key ltb) (insert_sorted key ltb x l).
Proof.
  induction 1 as [|y l Hl IH Hy]; simpl.
  - repeat constructor.
  - destruct (ltb (key y) (key x)) eqn:Hlt.
    + constructor; [done|].
      rewrite insert_sorted_perm. constructor; [|done].
      by apply key_lt_le.
    + constructor; [by constructor|].
      constructor; [done|].
      eapply Forall_impl; [exact Hy|].
      intros z Hz. by apply key_le_trans with y.
Qed.

Lemma sorted_ordered l : StronglySorted (key_le key ltb) (sorted key ltb l).
Proof.
  induction l as [|x l IH]; simpl; [constructor|].
  by apply insert_sorted_ordered.
Qed.

(** Stability: the elements of any one key keep their input order. *)
Lemma insert_sorted_stable k x l :
  filter (λ a, key a = k) (insert_sorted key ltb x l)
  = filter (λ a, key a = k) (x :: l).
Proof.
  induction l as [|y l IH]; simpl; [done|].
  destruct (ltb (key y) (key x)) eqn:Hlt; [|done].
  rewrite filter_cons, IH, !filter_cons.
  destruct (decide (key y = k)) as [Hy|Hy]; [|done].
  destruct (decide (key x = k)) as [Hx|Hx]; [|done].
  rewrite Hx, Hy in Hlt. by rewrite ltb_irrefl in Hlt.
Qed.

Lemma sorted_stable k l :
  filter (λ a, key a = k) (sorted key ltb l) = filter (λ a, key a = k) l.
Proof.
  induction l as [|x l IH]; simpl; [done|].
  by rewrite insert_sorted_stable, !filter_cons, IH.
Qed.

Lemma ordered_last l e :
  StronglySorted (key_le key ltb) l → last l = Some e → Forall (λ x, (key_le key ltb) x e) l.
Proof.
  induction 1 as [|y l Hl IH Hy]; [done|].
  destruct l as [|z l].
  - intros [= ->]. repeat constructor. apply key_le_refl.
  - rewrite last_cons_cons. intros He. constructor; [|by apply IH].
    rewrite Forall_forall in Hy. apply Hy.
    by apply last_Some_elem_of.
Qed.

Lemma last_filter (P : A → Prop) `{∀ x, Decision (P x)} l e :
  last l = Some e → P e → last (filter P l) = Some e.
Proof.
  rewrite last_Some. intros [l' ->] He.
  rewrite filter_app, filter_cons, decide_True by done.
  by rewrite filter_nil, last_snoc.
Qed.

(** The last element of the sorted list: it comes from the input, no
    key of the input is larger, and among the inputs of its key it is the
    last one. *)
Lemma sorted_last l e :
  last (sorted key ltb l) = Some e →
  e ∈ l ∧ Forall (λ x, (key_le key ltb) x e) l
  ∧ last (filter (λ a, key a = key e) l) = Some e.
Proof.
  intros He. split_and!.
  - rewrite <-(sorted_perm l). by apply last_Some_elem_of.
  - rewrite <-(sorted_perm l).
    apply ordered_last; [apply sorted_ordered|done].
  - rewrite <-(sorted_stable (key e) l). by apply last_filter.
Qed.

Lemma sorted_last_is_Some x l : is_Some (last (sorted key ltb (x :: l))).
Proof.
  destruct (sorted key ltb (x :: l)) as [|y l'] eqn:Hs.
  - apply (f_equal length) in Hs. by rewrite sorted_length in Hs.
  - apply last_is_Some. done.
Qed.
End sorted_facts.

(** ** Sorting by text keys *)

Section sorted_text.
Context {A : Type} (key : A → string).

Lemma key_le_text_le x y : key_le key String.ltb x y ↔ (text_le key) x y.
Proof.
  unfold key_le, text_le. rewrite string_leb_ltb.
  by destruct (String.ltb (key y) (key x)).
Qed.

Lemma sorted_text_perm l : sorted key String.ltb l ≡ₚ l.
Proof. apply sorted_perm. Qed.

Lemma sorted_text_ordered l :
  StronglySorted (text_le key) (sorted key String.ltb l).
Proof.
  pose proof (sorted_ordered key String.ltb string_ltb_irrefl
                string_ltb_trans string_ltb_total l) as Hs.
  induction Hs as [|x l' Hl IH Hx]; constructor; [done|].
  eapply Forall_impl; [exact Hx|]. intros y. apply key_le_text_le.
Qed.

Lemma sorted_text_stable ts l :
  filter (λ a, key a = ts) (sorted key String.ltb l)
  = filter (λ a, key a = ts) l.
Proof. apply sorted_stable, string_ltb_irrefl. Qed.

Lemma sorted_text_last l e :
  last (sorted key String.ltb l) = Some e →
  e ∈ l ∧ Forall (λ x, (text_le key) x e) l
  ∧ last (filter (λ a, key a = key e) l) = Some e.
Proof.
  intros He.
  destruct (sorted_last key String.ltb string_ltb_irrefl
              string_ltb_trans string_ltb_total l e He) as (Hin & Hmax & Hl).
  split_and!; [done| |done].
  eapply Forall_impl; [exact Hmax|]. intros y. apply key_le_text_le.
Qed.
End sorted_text.

(** ** [ReplicaFormatter] *)

Lemma format_last_execution_total (obj : Replica.t) :
  ∃ s, ReplicaFormatter._format_last_execution obj = Ok s.
Proof.
  unfold ReplicaFormatter._format_last_execution.
  destruct (Replica.executions obj) as [|e l]; [by eexists|].
  destruct (sorted_last_is_Some Execution.created_at String.ltb e l) as [x Hx].
  unfold index_last. rewrite Hx. by eexists.
Qed.

Lemma get_formatted_data_total (obj : Replica.t) :
  ∃ row, ReplicaFormatter._get_formatted_data obj = Ok row.
Proof.
  unfold ReplicaFormatter._get_formatted_data.
  destruct (format_last_execution_total obj) as [s ->]. by eexists.
Qed.

Lemma result_map_total {A B} (f : A → result B) (l : list A) :
  (∀ x, ∃ y, f x = Ok y) →
  ∃ ys, result_map f l = Ok ys ∧ Forall2 (λ x y, f x = Ok y) l ys.
Proof.
  intros Hf. induction l as [|x l (ys & IH & Hall)]; simpl.
  - exists []. by split.
  - destruct (Hf x) as [y Hy]. rewrite Hy, IH. simpl.
    exists (y :: ys). split; [done|]. by constructor.
Qed.

(** C3: the "Last tasks execution" projection of a replica is the empty
    text when the replica has no executions; otherwise it is
    ["<id> <status>"] of an execution of the replica whose creation
    timestamp is maximal among the replica's executions (of the executions
    with that timestamp, the one that comes last in the replica's list). *)
Theorem format_last_execution_picks_max (obj : Replica.t) :
  match Replica.executions obj with
  | [] => ReplicaFormatter._format_last_execution obj = Ok ""
  | _ :: _ =>
      ∃ e : Execution.t,
        e ∈ Replica.executions obj
        ∧ Forall (λ e', String.leb (Execution.created_at e')
                          (Execution.created_at e) = true)
            (Replica.executions obj)
        ∧ last (filter (λ e', Execution.created_at e' = Execution.created_at e)
                  (Replica.executions obj)) = Some e
        ∧ ReplicaFormatter._format_last_execution obj
          = Ok (Execution.id e +:+ " " +:+ Execution.status e)
  end.
Proof.
  unfold ReplicaFormatter._format_last_execution.
  destruct (Replica.executions obj) as [|e0 l] eqn:Hex; [done|].
  destruct (sorted_last_is_Some Execution.created_at String.ltb e0 l)
    as [e He].
  destruct (sorted_text_last Execution.created_at _ _ He) as (Hin & Hmax & Hl).
  exists e. split_and!; try done.
  unfold index_last. by rewrite He.
Qed.

(** C4: the list that [ReplicaFormatter] sorts for display is a
    rearrangement of the input replicas of the same length, non-decreasing
    in the creation timestamp, in which the replicas of any one timestamp
    keep their input order; the list variant emits the fixed columns and
    one row per replica, in that order. *)
Theorem get_sorted_list_stable (obj_list : list Replica.t) :
  ReplicaFormatter._get_sorted_list obj_list ≡ₚ obj_list
  ∧ length (ReplicaFormatter._get_sorted_list obj_list) = length obj_list
  ∧ StronglySorted
      (λ a b, String.leb (Replica.created_at a) (Replica.created_at b) = true)
      (ReplicaFormatter._get_sorted_list obj_list)
  ∧ (∀ ts : string,
       filter (λ o, Replica.created_at o = ts)
         (ReplicaFormatter._get_sorted_list obj_list)
       = filter (λ o, Replica.created_at o = ts) obj_list)
  ∧ ∃ rows,
      list_objects obj_list = Ok (ReplicaFormatter.columns, rows)
      ∧ length rows = length obj_list
      ∧ Forall2 (λ o row, ReplicaFormatter._get_formatted_data o = Ok row)
          (ReplicaFormatter._get_sorted_list obj_list) rows.
Proof.
  unfold ReplicaFormatter._get_sorted_list. split_and!.
  - apply sorted_text_perm.
  - by rewrite sorted_text_perm.
  - apply (sorted_text_ordered Replica.created_at).
  - intros ts. apply sorted_text_stable.
  - unfold list_objects. simpl. unfold ReplicaFormatter._get_sorted_list.
    destruct (result_map_total ReplicaFormatter._get_formatted_data
                (sorted Replica.created_at String.ltb obj_list)
                get_formatted_data_total) as (rows & -> & Hall).
    exists rows. split_and!; [done| |done].
    apply Forall2_length in Hall. by rewrite <-Hall, sorted_text_perm.
Qed.

(** ** [ReplicaDetailFormatter] *)

(** C6: the execution history is the line-separator join of
    ["<id> <status>"] over all the executions, taken in an order that is
    non-decreasing in the creation timestamp (executions of one timestamp
    in their input order). *)
Theorem format_executions_history (linesep : string)
    (executions : list Execution.t) :
  ∃ ordered : list Execution.t,
    ordered ≡ₚ executions
    ∧ StronglySorted
        (λ a b, String.leb (Execution.created_at a)
                  (Execution.created_at b) = true) ordered
    ∧ (∀ ts : string,
         filter (λ e, Execution.created_at e = ts) ordered
         = filter (λ e, Execution.created_at e = ts) executions)
    ∧ ReplicaDetailFormatter._format_executions linesep executions
      = String.concat linesep
          (map (λ e, Execution.id e +:+ " " +:+ Execution.status e) ordered).
Proof.
  exists (sorted Execution.created_at String.ltb executions). split_and!.
  - apply sorted_text_perm.
  - apply (sorted_text_ordered Execution.created_at).
  - intros ts. apply sorted_text_stable.
  - done.
Qed.

(** C9: the instances field of the detail view is the line-separator join
    of the replica's instance identifiers, rearranged in non-decreasing
    order of text (the order of character codes). *)
Theorem format_instances_sorted (linesep : string) (obj : Replica.t) :
  ∃ ordered : list string,
    ordered ≡ₚ Replica.instances obj
    ∧ StronglySorted (λ a b, String.leb a b = true) ordered
    ∧ ReplicaDetailFormatter._format_instances linesep obj
      = String.concat linesep ordered.
Proof.
  exists (sorted id String.ltb (Replica.instances obj)). split_and!.
  - apply sorted_text_perm.
  - apply (sorted_text_ordered id).
  - done.
Qed.

(** ** The formatters on samples *)

Example last_execution_of_three :
  ReplicaFormatter._format_last_execution Samples.r1 = Ok "exec-3 RUNNING".
Proof. reflexivity. Qed.

Example last_execution_of_none :
  ReplicaFormatter._format_last_execution Samples.r2 = Ok "".
Proof. reflexivity. Qed.

Example history_of_three :
  ReplicaDetailFormatter._format_executions newline
    [Samples.e2; Samples.e3; Samples.e1]
  = "exec-1 COMPLETED" +:+ newline +:+ "exec-2 ERROR" +:+ newline
    +:+ "exec-3 RUNNING".
Proof. reflexivity. Qed.

(** Capital letters come before small letters. *)
Example instances_of_r1 :
  ReplicaDetailFormatter._format_instances newline Samples.r1
  = "Vm-c" +:+ newline +:+ "vm-a" +:+ newline +:+ "vm-b".
Proof. reflexivity. Qed.

Example sorted_list_keeps_ties :
  ReplicaFormatter._get_sorted_list [Samples.r1; Samples.r2; Samples.r3]
  = [Samples.r2; Samples.r1; Samples.r3]
  ∧ ReplicaFormatter._get_sorted_list [Samples.r3; Samples.r2; Samples.r1]
    = [Samples.r2; Samples.r3; Samples.r1].
Proof. split; reflexivity. Qed.

Example list_of_three_rows :
  list_objects [Samples.r1; Samples.r2; Samples.r3]
  = Ok (["ID"; "Instances"; "Last tasks execution"; "Created"],
        [("replica-2", "vm-d", "", "2019-07-10T09:00:00");
         ("replica-1", "vm-b" +:+ newline +:+ "Vm-c" +:+ newline +:+ "vm-a",
          "exec-3 RUNNING", "2019-07-11T10:00:00");
         ("replica-3", "vm-e", "exec-1 COMPLETED", "2019-07-11T10:00:00")]).
Proof. reflexivity. Qed.

(** ** Induction on values *)

Section pyval_induction.
Variable P : pyval → Prop.
Hypothesis HNone : P PNone.
Hypothesis HBool : ∀ b, P (PBool b).
Hypothesis HInt : ∀ z, P (PInt z).
Hypothesis HFloat : ∀ f, P (PFloat f).
Hypothesis HStr : ∀ s, P (PStr s).
Hypothesis HList : ∀ l, Forall P l → P (PList l).
Hypothesis HTuple : ∀ l, Forall P l → P (PTuple l).
Hypothesis HDict : ∀ d, Forall (λ kv, P kv.2) d → P (PDict d).

Lemma pyval_ind (v : pyval) : P v.
Proof.
  revert v. fix IH 1. intros [| b | z | f | s | l | l | d].
  - apply HNone.
  - apply HBool.
  - apply HInt.
  - apply HFloat.
  - apply HStr.
  - apply HList. induction l as [|x l IHl]; constructor; [apply IH|exact IHl].
  - apply HTuple. induction l as [|x l IHl]; constructor; [apply IH|exact IHl].
  - apply HDict. induction d as [|[k x] d IHd]; constructor;
      [apply IH|exact IHd].
Qed.
End pyval_induction.

(** ** The JSON text of a value decodes to the value *)

Section json_roundtrip.
Import PyJson.
#[local] Arguments String.append : simpl nomatch.

Lemma string_length_app (a b : string) :
  String.length (a +:+ b) = String.length a + String.length b.
Proof. induction a as [|c a IH]; simpl; [done|]. by rewrite IH. Qed.

(** *** Text *)

(** Arithmetic with quotients and remainders by constants. *)
Ltac div_lia := zify; Z.to_euclidean_division_equations; lia.

Lemma string_app_assoc (a b c : string) :
  (a +:+ b) +:+ c = a +:+ (b +:+ c).
Proof. induction a as [|x a IH]; simpl; [done|]. by rewrite IH. Qed.

Lemma N_of_ascii_bound (c : ascii) : (N_of_ascii c < 256)%N.
Proof. destruct c as [[] [] [] [] [] [] [] []]; done. Qed.

Lemma hex_val_hex_char (d : N) : (d < 16)%N → hex_val (hex_char d) = Some d.
Proof.
  intros Hd. rewrite <-(N2Nat.id d) in Hd |- *.
  generalize dependent (N.to_nat d). intros n Hn.
  do 16 (destruct n as [|n]; [reflexivity|]). lia.
Qed.

Lemma hex4_digits (n : N) :
  (n < 65536)%N →
  hex4 (hex_char (n / 4096)) (hex_char (n / 256 mod 16))
    (hex_char (n / 16 mod 16)) (hex_char (n mod 16)) = Some n.
Proof.
  intros Hn. unfold hex4.
  rewrite !hex_val_hex_char by div_lia. f_equal. div_lia.
Qed.

Lemma escape_unit_eq (n : N) (tail : string) :
  escape_unit n +:+ tail
  = String backslash
      (String "u"
         (String (hex_char (n / 4096))
            (String (hex_char (n / 256 mod 16))
               (String (hex_char (n / 16 mod 16))
                  (String (hex_char (n mod 16)) tail))))).
Proof. reflexivity. Qed.

Lemma parse_chars_unicode (t : string) :
  parse_chars (String backslash (String "u" t))
  = match t with
    | String h1 (String h2 (String h3 (String h4 s4))) =>
        match hex4 h1 h2 h3 h4 with
        | Some n =>
            if high_surrogate n then
              match s4 with
              | String b (String u (String l1 (String l2
                  (String l3 (String l4 s10))))) =>
                  if Ascii.eqb b backslash && Ascii.eqb u "u" then
                    match hex4 l1 l2 l3 l4 with
                    | Some n' =>
                        if low_surrogate n' then
                          cons_text (encode (join_surrogates n n'))
                            (parse_chars s10)
                        else cons_text (encode n) (parse_chars s4)
                    | None => None
                    end
                  else cons_text (encode n) (parse_chars s4)
              | _ => cons_text (encode n) (parse_chars s4)
              end
            else cons_text (encode n) (parse_chars s4)
        | None => None
        end
    | _ => None
    end.
Proof. reflexivity. Qed.

(** An escape that stands alone: any number but a high surrogate. *)
Lemma parse_chars_escape_unit (n : N) (tail : string) :
  (n < 65536)%N →
  high_surrogate n = false →
  parse_chars (escape_unit n +:+ tail) = cons_text (encode n) (parse_chars tail).
Proof.
  intros Hn Hhigh.
  by rewrite escape_unit_eq, parse_chars_unicode, hex4_digits, Hhigh.
Qed.

(** The two escapes of a character from 65536 on. *)
Lemma parse_chars_escape_pair (high low : N) (tail : string) :
  (high < 65536)%N → (low < 65536)%N →
  high_surrogate high = true →
  low_surrogate low = true →
  parse_chars (escape_unit high +:+ escape_unit low +:+ tail)
  = cons_text (encode (join_surrogates high low)) (parse_chars tail).
Proof.
  intros Hhigh Hlow Hh Hl.
  rewrite (escape_unit_eq high), parse_chars_unicode, hex4_digits, Hh by done.
  rewrite (escape_unit_eq low). cbv beta iota.
  change (Ascii.eqb backslash backslash && Ascii.eqb "u" "u") with true.
  cbv beta iota. by rewrite hex4_digits, Hl.
Qed.

(** The bytes of a character and its code point. *)
Lemma ascii_of_N_of_ascii (c : ascii) (n : N) :
  n = N_of_ascii c → ascii_of_N n = c.
Proof. intros ->. apply ascii_N_embedding. Qed.

Lemma encode_two (c c1 : ascii) :
  let b := N_of_ascii c in
  let cp := ((b - 192) * 64 + payload c1)%N in
  (192 <= b < 224)%N → continuation c1 = true → (128 <= cp)%N →
  encode cp = String c (String c1 "").
Proof.
  intros b cp Hb Hc1 Hcp. unfold continuation, payload in *.
  apply andb_prop in Hc1 as [H1%N.leb_le H2%N.ltb_lt].
  unfold encode.
  destruct (N.ltb_spec cp 128); [lia|].
  destruct (N.ltb_spec cp 2048); [|subst b cp; div_lia].
  f_equal; [|f_equal]; apply ascii_of_N_of_ascii; subst b cp; div_lia.
Qed.

Lemma encode_three (c c1 c2 : ascii) :
  let b := N_of_ascii c in
  let cp := (((b - 224) * 64 + payload c1) * 64 + payload c2)%N in
  (224 <= b < 240)%N → continuation c1 = true → continuation c2 = true →
  (2048 <= cp)%N →
  encode cp = String c (String c1 (String c2 "")).
Proof.
  intros b cp Hb Hc1 Hc2 Hcp. unfold continuation, payload in *.
  apply andb_prop in Hc1 as [H1%N.leb_le H2%N.ltb_lt].
  apply andb_prop in Hc2 as [H3%N.leb_le H4%N.ltb_lt].
  unfold encode.
  destruct (N.ltb_spec cp 128); [lia|].
  destruct (N.ltb_spec cp 2048); [lia|].
  destruct (N.ltb_spec cp 65536); [|subst b cp; div_lia].
  f_equal; [|f_equal; [|f_equal]]; apply ascii_of_N_of_ascii; subst b cp;
    div_lia.
Qed.

Lemma encode_four (c c1 c2 c3 : ascii) :
  let b := N_of_ascii c in
  let cp :=
    ((((b - 240) * 64 + payload c1) * 64 + payload c2) * 64 + payload c3)%N in
  (240 <= b < 248)%N → continuation c1 = true → continuation c2 = true →
  continuation c3 = true → (65536 <= cp)%N →
  encode cp = String c (String c1 (String c2 (String c3 ""))).
Proof.
  intros b cp Hb Hc1 Hc2 Hc3 Hcp. unfold continuation, payload in *.
  apply andb_prop in Hc1 as [H1%N.leb_le H2%N.ltb_lt].
  apply andb_prop in Hc2 as [H3%N.leb_le H4%N.ltb_lt].
  apply andb_prop in Hc3 as [H5%N.leb_le H6%N.ltb_lt].
  unfold encode.
  destruct (N.ltb_spec cp 128); [lia|].
  destruct (N.ltb_spec cp 2048); [lia|].
  destruct (N.ltb_spec cp 65536); [lia|].
  f_equal; [|f_equal; [|f_equal; [|f_equal]]]; apply ascii_of_N_of_ascii;
    subst b cp; div_lia.
Qed.

Lemma join_surrogates_split (cp : N) :
  (65536 <= cp < 1114112)%N →
  let high := (55296 + (cp - 65536) / 1024)%N in
  let low := (56320 + (cp - 65536) mod 1024)%N in
  (high < 65536)%N ∧ (low < 65536)%N
  ∧ high_surrogate high = true ∧ low_surrogate low = true
  ∧ join_surrogates high low = cp.
Proof.
  intros Hcp high low. unfold high_surrogate, low_surrogate, join_surrogates.
  split_and!.
  - subst high. div_lia.
  - subst low. div_lia.
  - apply andb_true_intro. split; [apply N.leb_le|apply N.ltb_lt];
      subst high; div_lia.
  - apply andb_true_intro. split; [apply N.leb_le|apply N.ltb_lt];
      subst low; div_lia.
  - subst high low. div_lia.
Qed.

(** A byte from 128 on stands for itself. *)
Lemma parse_chars_byte (c : ascii) (tail : string) :
  (N_of_ascii c <? 128)%N = false →
  parse_chars (String c tail) = cons_char c (parse_chars tail).
Proof.
  destruct c as [[] [] [] [] [] [] [] []]; intros H; try discriminate H;
    reflexivity.
Qed.

(** An ASCII character and its escape. *)
Lemma parse_chars_escape_char (c : ascii) (tail : string) :
  (N_of_ascii c <? 128)%N = true →
  parse_chars (escape_char c +:+ tail) = cons_char c (parse_chars tail).
Proof.
  destruct c as [[] [] [] [] [] [] [] []]; intros H; try discriminate H;
    try reflexivity;
    rewrite parse_chars_escape_unit by done; reflexivity.
Qed.

Lemma continuation_payload (c : ascii) :
  continuation c = true → (payload c < 64)%N.
Proof.
  unfold continuation, payload.
  intros [H1%N.leb_le H2%N.ltb_lt]%andb_prop. lia.
Qed.

Lemma cons_text_some (t str rest : string) :
  cons_text t (Some (str, rest)) = Some (t +:+ str, rest).
Proof. reflexivity. Qed.

Lemma no_surrogate_tail (c : ascii) (s : string) :
  no_surrogate (String c s) = true → no_surrogate s = true.
Proof. destruct s as [|c1 s]; [done|]. simpl. by intros [_ H]%andb_prop. Qed.

Lemma no_surrogate_head (c c1 : ascii) (s : string) :
  no_surrogate (String c (String c1 s)) = true →
  (N_of_ascii c = 237 → N_of_ascii c1 < 160)%N.
Proof.
  simpl. intros [H _]%andb_prop Hc. apply negb_true_iff in H.
  rewrite Hc in H. simpl in H. by apply N.leb_gt.
Qed.

(** The text of a string decodes to the string. *)
Lemma parse_chars_escape_to_le (n : nat) (s rest : string) :
  String.length s ≤ n →
  no_surrogate s = true →
  parse_chars (escape_to 0 s (String quote rest)) = Some (s, rest).
Proof.
  revert s. induction n as [|n IH]; intros s Hlen Hs.
  { destruct s; [done|simpl in Hlen; lia]. }
  destruct s as [|c s]; [done|].
  simpl in Hlen. pose proof (no_surrogate_tail c s Hs) as Hs'.
  change (escape_to 0 (String c s) (String quote rest))
    with (match code_point c s with
          | Some (cp, more) =>
              escape_code_point cp +:+ escape_to more s (String quote rest)
          | None => String c (escape_to 0 s (String quote rest))
          end).
  unfold code_point.
  destruct (N.ltb_spec (N_of_ascii c) 128) as [Hb|Hb].
  { (* an ASCII character *)
    unfold escape_code_point.
    destruct (N.ltb_spec (N_of_ascii c) 128); [|lia].
    rewrite ascii_N_embedding, parse_chars_escape_char
      by by apply N.ltb_lt.
    by rewrite IH by (done || lia). }
  assert (parse_chars (String c (escape_to 0 s (String quote rest)))
          = Some (String c s, rest)) as Hraw.
  { rewrite parse_chars_byte by by apply N.ltb_ge.
    by rewrite IH by (done || lia). }
  destruct (N.ltb_spec (N_of_ascii c) 192) as [Hb1|Hb1]; [done|].
  destruct (N.ltb_spec (N_of_ascii c) 224) as [Hb2|Hb2].
  { (* two bytes *)
    destruct s as [|c1 s]; [done|].
    destruct (continuation c1) eqn:Hc1; [|done]. simpl andb.
    destruct (N.leb_spec 128 ((N_of_ascii c - 192) * 64 + payload c1))
      as [Hcp|Hcp]; [|done].
    cbv beta iota.
    change (escape_to 1 (String c1 s) (String quote rest))
      with (escape_to 0 s (String quote rest)).
    pose proof (no_surrogate_tail c1 s Hs') as Hs''.
    pose proof (encode_two c c1 (conj Hb1 Hb2) Hc1 Hcp) as Henc.
    cbv zeta in Henc. unfold escape_code_point.
    assert (((N_of_ascii c - 192) * 64 + payload c1 < 2048)%N) as Hlt.
    { pose proof (continuation_payload c1 Hc1). lia. }
    destruct (N.ltb_spec ((N_of_ascii c - 192) * 64 + payload c1) 128);
      [lia|].
    destruct (N.ltb_spec ((N_of_ascii c - 192) * 64 + payload c1) 65536);
      [|lia].
    rewrite parse_chars_escape_unit, IH, cons_text_some, Henc;
      [done|simpl in Hlen; lia|done|lia|].
    unfold high_surrogate. apply andb_false_intro1, N.leb_gt. lia. }
  destruct (N.ltb_spec (N_of_ascii c) 240) as [Hb3|Hb3].
  { (* three bytes *)
    destruct s as [|c1 [|c2 s]]; [done|done|].
    destruct (continuation c1) eqn:Hc1; [|done].
    destruct (continuation c2) eqn:Hc2; [|done]. simpl andb.
    destruct (N.leb_spec 2048
                (((N_of_ascii c - 224) * 64 + payload c1) * 64 + payload c2))
      as [Hcp|Hcp]; [|done].
    cbv beta iota.
    change (escape_to 2 (String c1 (String c2 s)) (String quote rest))
      with (escape_to 0 s (String quote rest)).
    pose proof (no_surrogate_tail c1 _ Hs') as Hs''.
    pose proof (no_surrogate_tail c2 _ Hs'') as Hs3.
    pose proof (no_surrogate_head c c1 _ Hs) as Hhead.
    pose proof (encode_three c c1 c2 (conj Hb2 Hb3) Hc1 Hc2 Hcp) as Henc.
    cbv zeta in Henc. unfold escape_code_point.
    pose proof (continuation_payload c1 Hc1) as Hp1.
    pose proof (continuation_payload c2 Hc2) as Hp2.
    assert ((((N_of_ascii c - 224) * 64 + payload c1) * 64 + payload c2
             < 65536)%N) as Hlt by lia.
    destruct (N.ltb_spec
                (((N_of_ascii c - 224) * 64 + payload c1) * 64 + payload c2)
                128); [lia|].
    destruct (N.ltb_spec
                (((N_of_ascii c - 224) * 64 + payload c1) * 64 + payload c2)
                65536); [|lia].
    rewrite parse_chars_escape_unit, IH, cons_text_some, Henc;
      [done|simpl in Hlen; lia|done|lia|].
    assert (N_of_ascii c = 237%N → (payload c1 < 32)%N) as Hhead'.
    { intros Heq. specialize (Hhead Heq). unfold payload. lia. }
    unfold high_surrogate.
    destruct (N.eq_dec (N_of_ascii c) 237%N) as [Heq|Hne].
    - specialize (Hhead' Heq). apply andb_false_intro1, N.leb_gt. lia.
    - destruct (N.lt_ge_cases (N_of_ascii c) 237%N).
      + apply andb_false_intro1, N.leb_gt. lia.
      + apply andb_false_intro2, N.ltb_ge. lia. }
  destruct (N.ltb_spec (N_of_ascii c) 248) as [Hb4|Hb4]; [|done].
  (* four bytes *)
  destruct s as [|c1 [|c2 [|c3 s]]]; [done|done|done|].
  destruct (continuation c1) eqn:Hc1; [|done].
  destruct (continuation c2) eqn:Hc2; [|done].
  destruct (continuation c3) eqn:Hc3; [|done]. simpl andb.
  set (cp := ((((N_of_ascii c - 240) * 64 + payload c1) * 64 + payload c2)
              * 64 + payload c3)%N).
  destruct (N.leb_spec 65536 cp) as [Hcp|Hcp]; [|done].
  destruct (N.ltb_spec cp 1114112) as [Hmax|Hmax]; [|done].
  simpl andb. cbv beta iota.
  change (escape_to 3 (String c1 (String c2 (String c3 s)))
            (String quote rest))
    with (escape_to 0 s (String quote rest)).
  pose proof (no_surrogate_tail c1 _ Hs') as Hs''.
  pose proof (no_surrogate_tail c2 _ Hs'') as Hs3.
  pose proof (no_surrogate_tail c3 _ Hs3) as Hs4.
  pose proof (encode_four c c1 c2 c3 (conj Hb3 Hb4) Hc1 Hc2 Hc3 Hcp) as Henc.
  cbv zeta in Henc. fold cp in Henc.
  destruct (join_surrogates_split cp (conj Hcp Hmax))
    as (Hhigh & Hlow & Hh & Hl & Hjoin).
  unfold escape_code_point.
  destruct (N.ltb_spec cp 128); [lia|].
  destruct (N.ltb_spec cp 65536); [lia|].
  rewrite string_app_assoc.
  rewrite parse_chars_escape_pair, Hjoin, IH, cons_text_some, Henc;
    [done|simpl in Hlen; lia|done..].
Qed.

Lemma parse_chars_escape_to (s rest : string) :
  no_surrogate s = true →
  parse_chars (escape_to 0 s (String quote rest)) = Some (s, rest).
Proof. by apply parse_chars_escape_to_le with (String.length s). Qed.

Lemma escape_code_point_length (cp : N) :
  1 ≤ String.length (escape_code_point cp).
Proof.
  unfold escape_code_point.
  destruct (cp <? 128)%N.
  - destruct (ascii_of_N cp) as [[] [] [] [] [] [] [] []]; vm_compute; lia.
  - destruct (cp <? 65536)%N; [simpl; lia|].
    rewrite string_length_app. simpl. lia.
Qed.

Lemma escape_to_length (skip : nat) (s rest : string) :
  String.length rest ≤ String.length (escape_to skip s rest).
Proof.
  revert skip. induction s as [|c s IH]; intros skip; simpl; [done|].
  destruct skip as [|skip]; [|apply IH].
  destruct (code_point c s) as [[cp more]|].
  - rewrite string_length_app. specialize (IH more). lia.
  - specialize (IH 0). simpl. lia.
Qed.

Lemma dumps_str_to_length (s rest : string) :
  2 + String.length rest ≤ String.length (dumps_str_to s rest).
Proof.
  unfold dumps_str_to. simpl.
  pose proof (escape_to_length 0 s (String quote rest)) as H. simpl in H. lia.
Qed.

(** *** Numbers *)

Lemma delimited_cases (s : string) :
  delimited s = true →
  s = "" ∨ ∃ c r, s = String c r ∧ (c = "," ∨ c = "]" ∨ c = "}")%char.
Proof.
  destruct s as [|c r]; [by left|]. intros H. right. exists c, r.
  split; [done|]. revert H.
  destruct c as [[] [] [] [] [] [] [] []]; simpl; intros H;
    try discriminate H; auto.
Qed.

Lemma delimited_no_digit (s : string) :
  delimited s = true →
  match s with String c _ => digit_of c = None | "" => True end.
Proof.
  intros [->|(c & r & -> & [->|[->| ->]])]%delimited_cases; done.
Qed.

Lemma delimited_no_fraction (s : string) :
  delimited s = true →
  read_fraction s = (None, s) ∧ read_exponent s = (None, s).
Proof.
  intros [->|(c & r & -> & [->|[->| ->]])]%delimited_cases; try done;
    by destruct r.
Qed.

Lemma delimited_skip_ws (s : string) :
  delimited s = true → skip_ws s = s.
Proof.
  intros [->|(c & r & -> & [->|[->| ->]])]%delimited_cases; done.
Qed.

Lemma read_digits_string_of_uint (u : Decimal.uint) (rest : string) :
  match rest with String c _ => digit_of c = None | "" => True end →
  read_digits (DecimalString.NilEmpty.string_of_uint u +:+ rest) = (u, rest).
Proof.
  intros Hrest. induction u as [|u IH|u IH|u IH|u IH|u IH|u IH|u IH|u IH|u IH|u IH];
    simpl; try (by rewrite IH).
  destruct rest as [|c r]; [done|]. simpl. by rewrite Hrest.
Qed.

Lemma unorm_head (d : Decimal.uint) :
  match Decimal.unorm d with
  | Decimal.Nil => False
  | Decimal.D0 Decimal.Nil => True
  | Decimal.D0 _ => False
  | _ => True
  end.
Proof. induction d; simpl; done. Qed.

Lemma to_uint_head (p : positive) :
  match Pos.to_uint p with
  | Decimal.Nil | Decimal.D0 _ => False
  | _ => True
  end.
Proof.
  pose proof (DecimalPos.Unsigned.to_of (Pos.to_uint p)) as Hnorm.
  rewrite DecimalPos.Unsigned.of_to in Hnorm. simpl in Hnorm.
  pose proof (unorm_head (Pos.to_uint p)) as Hhead.
  rewrite <-Hnorm in Hhead.
  pose proof (DecimalPos.Unsigned.to_uint_nonzero p) as Hnz.
  destruct (Pos.to_uint p) as [|u|u|u|u|u|u|u|u|u|u]; try done.
  destruct u; try done.
Qed.

Lemma parse_digits_to_uint (p : positive) (rest : string) :
  delimited rest = true →
  parse_digits (DecimalString.NilZero.string_of_uint (Pos.to_uint p) +:+ rest)
  = Some (Pos.to_uint p, rest).
Proof.
  intros Hrest%delimited_no_digit.
  pose proof (to_uint_head p) as Hhead.
  pose proof (read_digits_string_of_uint (Pos.to_uint p) rest Hrest) as Hread.
  destruct (Pos.to_uint p) as [|u|u|u|u|u|u|u|u|u|u]; try done;
    unfold DecimalString.NilZero.string_of_uint;
    simpl in *; by rewrite Hread.
Qed.

Lemma parse_number_dumps_int_to (z : Z) (rest : string) :
  delimited rest = true →
  parse_number (dumps_int_to z rest) = Some (PInt z, rest).
Proof.
  intros Hrest.
  destruct (delimited_no_fraction rest Hrest) as [Hfrac Hexp].
  unfold dumps_int_to. destruct z as [|p|p].
  - simpl. unfold parse_number. simpl. by rewrite Hfrac, Hexp.
  - pose proof (parse_digits_to_uint p rest Hrest) as Hdigits.
    pose proof (to_uint_head p) as Hhead.
    pose proof (f_equal (λ x, Some (PInt x, rest))
                  (DecimalZ.of_to (Z.pos p))) as Hz.
    simpl. unfold parse_number.
    replace (match DecimalString.NilZero.string_of_uint (Pos.to_uint p) +:+ rest
             with
             | String c s' =>
                 if Ascii.eqb c "-"
                 then (true, s')
                 else (false,
                       DecimalString.NilZero.string_of_uint (Pos.to_uint p)
                       +:+ rest)
             | "" =>
                 (false,
                  DecimalString.NilZero.string_of_uint (Pos.to_uint p) +:+ rest)
             end)
      with (false,
            DecimalString.NilZero.string_of_uint (Pos.to_uint p) +:+ rest).
    + rewrite Hdigits, Hfrac, Hexp. exact Hz.
    + destruct (Pos.to_uint p) as [|u|u|u|u|u|u|u|u|u|u]; done.
  - pose proof (parse_digits_to_uint p rest Hrest) as Hdigits.
    pose proof (f_equal (λ x, Some (PInt x, rest))
                  (DecimalZ.of_to (Z.neg p))) as Hz.
    simpl. unfold parse_number. simpl.
    rewrite Hdigits, Hfrac, Hexp. exact Hz.
Qed.

Lemma dumps_int_to_head (z : Z) (rest : string) :
  ∃ c s, dumps_int_to z rest = String c s
         ∧ is_ws c = false
         ∧ (∀ fuel,
              parse_value (S fuel) (String c s)
              = match parse_number (String c s) with
                | Some r => Some r
                | None => parse_constant (String c s)
                end)
         ∧ Ascii.eqb c "]" = false.
Proof.
  unfold dumps_int_to. destruct z as [|p|p]; simpl.
  - by eexists _, _.
  - pose proof (to_uint_head p) as Hhead.
    destruct (Pos.to_uint p) as [|u|u|u|u|u|u|u|u|u|u]; try done;
      by eexists _, _.
  - by eexists _, _.
Qed.

Lemma dumps_int_to_length (z : Z) (rest : string) :
  1 + String.length rest ≤ String.length (dumps_int_to z rest).
Proof.
  unfold dumps_int_to. rewrite string_length_app.
  enough (1 ≤ String.length
                (DecimalString.NilZero.string_of_int (Z.to_int z))) by lia.
  destruct z as [|p|p]; simpl; [lia| |lia].
  pose proof (to_uint_head p) as Hhead.
  destruct (Pos.to_uint p); simpl; try done; lia.
Qed.

(** *** The text of a [float] *)

Lemma solid_app (a b : string) :
  solid a = true → solid b = true → solid (a +:+ b) = true.
Proof.
  intros Ha Hb. induction a as [|c a IH]; simpl in *; [done|].
  apply andb_prop in Ha as [Hc Ha]. by rewrite Hc, IH.
Qed.

Lemma solid_substring (n m : nat) (s : string) :
  solid s = true → solid (String.substring n m s) = true.
Proof.
  revert n m. induction s as [|c s IH]; intros n m Hs.
  - by destruct n, m.
  - simpl in Hs. apply andb_prop in Hs as [Hc Hs].
    destruct n as [|n]; [|by apply IH].
    destruct m as [|m]; [done|]. simpl. by rewrite Hc, IH.
Qed.

Lemma solid_zeros (n : nat) : solid (PyFloat.zeros n) = true.
Proof. induction n as [|n IH]; [done|]. simpl. by rewrite IH. Qed.

Lemma solid_digits_text (x : N) : solid (PyFloat.digits_text x) = true.
Proof.
  unfold PyFloat.digits_text, DecimalString.NilZero.string_of_uint.
  assert (∀ u, solid (DecimalString.NilEmpty.string_of_uint u) = true) as H.
  { induction u; simpl; by rewrite ?IHu. }
  destruct (N.to_uint x); try done; apply H.
Qed.

Lemma format_text (digits : string) (decpt : Z) :
  solid digits = true →
  solid (PyFloat.format digits decpt) = true
  ∧ 1 ≤ String.length (PyFloat.format digits decpt).
Proof.
  intros Hd. unfold PyFloat.format.
  destruct ((-4 <? decpt)%Z && (decpt <=? 16)%Z).
  - destruct (decpt <=? 0)%Z; [|destruct (decpt <? _)%Z].
    + split; [|simpl; lia].
      apply (solid_app "0."); [done|]. apply solid_app; [|done].
      apply solid_zeros.
    + split.
      * apply solid_app; [by apply solid_substring|].
        apply (solid_app "."); [done|]. by apply solid_substring.
      * rewrite !string_length_app. simpl. lia.
    + split.
      * apply solid_app; [done|]. apply solid_app; [apply solid_zeros|done].
      * rewrite !string_length_app. simpl. lia.
  - split.
    + apply solid_app.
      { destruct digits as [|c [|c' r]]; [done|done|].
        simpl in Hd |- *. apply andb_prop in Hd as [Hc Hr]. by rewrite Hc. }
      apply (solid_app "e"); [done|].
      apply solid_app; [by destruct (_ <? 0)%Z|].
      apply solid_app; [by destruct (_ <? 10)%Z|apply solid_digits_text].
    + rewrite !string_length_app. simpl. lia.
Qed.

Lemma repr_spec_text (x : SpecFloat.spec_float) :
  solid (PyFloat.repr_spec x) = true ∧ 1 ≤ String.length (PyFloat.repr_spec x).
Proof.
  destruct x as [[]|[]| |s m e]; try (split; [done|simpl; lia]).
  unfold PyFloat.repr_spec.
  destruct (match e with
            | 0%Z => (m, 1%positive)
            | Z.pos p => ((m * 2 ^ p)%positive, 1%positive)
            | Z.neg p => (m, (2 ^ p)%positive)
            end) as [num den].
  destruct (PyFloat.shortest _ _ _ _ _ _) as [x q].
  destruct (PyFloat.strip_zeros _ _ _) as [x' q'].
  destruct (format_text (PyFloat.digits_text x')
              (Z.of_nat (String.length (PyFloat.digits_text x')) + q')
              (solid_digits_text x')) as [Hsolid Hlen].
  split.
  - apply solid_app; [by destruct s|done].
  - rewrite string_length_app. lia.
Qed.

Lemma dumps_float_to_text (f : PrimFloat.float) :
  ∃ text, (∀ rest, dumps_float_to f rest = text +:+ rest)
          ∧ solid text = true ∧ 1 ≤ String.length text.
Proof.
  unfold dumps_float_to.
  pose proof (repr_spec_text (FloatOps.Prim2SF f)) as [Hsolid Hlen].
  destruct (FloatOps.Prim2SF f) as [s|[]| |s m e];
    try (by eexists; split; [reflexivity|]);
    eexists; (split; [reflexivity|]); split; (done || simpl; lia).
Qed.

Lemma dumps_float_to_head (f : PrimFloat.float) (rest : string) :
  ∃ c s, dumps_float_to f rest = String c s
         ∧ is_ws c = false ∧ Ascii.eqb c "]" = false.
Proof.
  destruct (dumps_float_to_text f) as (text & -> & Hsolid & Hlen).
  destruct text as [|c t]; [simpl in Hlen; lia|].
  simpl in Hsolid. apply andb_prop in Hsolid as [Hc _].
  apply andb_prop in Hc as [Hws Hc].
  exists c, (t +:+ rest). by rewrite negb_true_iff in Hws, Hc.
Qed.

Lemma dumps_float_to_length (f : PrimFloat.float) (rest : string) :
  1 + String.length rest ≤ String.length (dumps_float_to f rest).
Proof.
  destruct (dumps_float_to_text f) as (text & -> & _ & Hlen).
  rewrite string_length_app. lia.
Qed.

(** *** Values *)

Lemma dumps_to_head (v : pyval) (rest : string) :
  ∃ c s, dumps_to v rest = String c s
         ∧ is_ws c = false ∧ Ascii.eqb c "]" = false.
Proof.
  destruct v as [|[]|z|f|s|l|l|d]; simpl; try (by eexists _, _).
  - destruct (dumps_int_to_head z rest) as (c & s & -> & Hws & _ & Hc).
    by exists c, s.
  - apply dumps_float_to_head.
Qed.

Lemma skip_ws_dumps_to (v : pyval) (rest : string) :
  skip_ws (dumps_to v rest) = dumps_to v rest.
Proof.
  destruct (dumps_to_head v rest) as (c & s & -> & Hws & _).
  simpl. by rewrite Hws.
Qed.

Lemma elems_to_delimited (vs : list pyval) (rest : string) :
  delimited (elems_to dumps_to vs rest) = true.
Proof. by destruct vs. Qed.

Lemma members_to_delimited (d : list (string * pyval)) (rest : string) :
  delimited (members_to dumps_to d rest) = true.
Proof. by destruct d as [|[k v] d]. Qed.

Lemma elems_to_length (vs : list pyval) (rest : string) :
  Forall grows vs →
  1 + String.length rest ≤ String.length (elems_to dumps_to vs rest).
Proof.
  induction 1 as [|v vs Hv _ IH]; simpl; [lia|].
  specialize (Hv (elems_to dumps_to vs rest)). lia.
Qed.

Lemma members_to_length (d : list (string * pyval)) (rest : string) :
  Forall (λ kv, grows kv.2) d →
  1 + String.length rest ≤ String.length (members_to dumps_to d rest).
Proof.
  induction 1 as [|[k v] d Hv _ IH]; simpl; [lia|].
  unfold member_to.
  pose proof (dumps_str_to_length k
                (String ":" (String " " (dumps_to v (members_to dumps_to d rest)))))
    as Hk.
  specialize (Hv (members_to dumps_to d rest)). simpl in *. lia.
Qed.

Lemma dumps_to_length (v : pyval) : grows v.
Proof.
  induction v as [|b|z|f|s|l IH|l IH|d IH] using pyval_ind; intros rest.
  - simpl. lia.
  - destruct b; simpl; lia.
  - apply dumps_int_to_length.
  - apply dumps_float_to_length.
  - apply Nat.le_trans with (2 + String.length rest); [lia|].
    apply dumps_str_to_length.
  - destruct l as [|v vs]; simpl; [lia|].
    apply Forall_cons in IH as [Hv Hvs].
    pose proof (elems_to_length vs rest Hvs).
    specialize (Hv (elems_to dumps_to vs rest)). lia.
  - destruct l as [|v vs]; simpl; [lia|].
    apply Forall_cons in IH as [Hv Hvs].
    pose proof (elems_to_length vs rest Hvs).
    specialize (Hv (elems_to dumps_to vs rest)). lia.
  - destruct d as [|[k v] d]; simpl; [lia|].
    apply Forall_cons in IH as [Hv Hd].
    pose proof (members_to_length d rest Hd).
    pose proof (dumps_str_to_length k
                  (String ":" (String " "
                     (dumps_to v (members_to dumps_to d rest))))) as Hk.
    specialize (Hv (members_to dumps_to d rest)). simpl in *. lia.
Qed.

Lemma elems_to_grows (vs : list pyval) (rest : string) :
  1 + String.length rest ≤ String.length (elems_to dumps_to vs rest).
Proof.
  apply elems_to_length, Forall_forall. intros v _. apply dumps_to_length.
Qed.

Lemma members_to_grows (d : list (string * pyval)) (rest : string) :
  1 + String.length rest ≤ String.length (members_to dumps_to d rest).
Proof.
  apply members_to_length, Forall_forall. intros v _. apply dumps_to_length.
Qed.

Lemma parse_elems_S (fuel : nat) (s : string) :
  parse_elems (S fuel) s
  = match parse_value fuel s with
    | Some (v, rest) =>
        match skip_ws rest with
        | String c rest' =>
            if Ascii.eqb c "," then
              match parse_elems fuel (skip_ws rest') with
              | Some (vs, rest'') => Some (v :: vs, rest'')
              | None => None
              end
            else if Ascii.eqb c "]" then Some ([v], rest')
            else None
        | "" => None
        end
    | None => None
    end.
Proof. done. Qed.

Lemma parse_elems_elems_to (vs : list pyval) :
  Forall roundtrips vs →
  ∀ v fuel rest,
    roundtrips v →
    delimited rest = true →
    String.length (dumps_to v (elems_to dumps_to vs rest))
    ≤ fuel + String.length rest →
    parse_elems fuel (dumps_to v (elems_to dumps_to vs rest))
    = Some (v :: vs, rest).
Proof.
  induction 1 as [|v' vs Hv' Hvs IH]; intros v fuel rest Hv Hrest Hlen.
  - pose proof (dumps_to_length v (elems_to dumps_to [] rest)) as Hgrow.
    simpl in *. destruct fuel as [|fuel]; [lia|].
    rewrite parse_elems_S, Hv by (done || simpl; lia). done.
  - pose proof (dumps_to_length v (elems_to dumps_to (v' :: vs) rest)) as Hgrow.
    pose proof (dumps_to_length v' (elems_to dumps_to vs rest)) as Hgrow'.
    pose proof (elems_to_grows vs rest) as Hgrows.
    destruct fuel as [|fuel]; [simpl in *; lia|].
    rewrite parse_elems_S, Hv by (done || simpl in *; lia).
    simpl. rewrite skip_ws_dumps_to, IH by (done || simpl in *; lia). done.
Qed.

Lemma parse_members_S (fuel : nat) (k s : string) :
  no_surrogate k = true →
  parse_members (S fuel) (dumps_str_to k (String ":" (String " " s)))
  = match parse_value fuel (skip_ws s) with
    | Some (v, rest2) =>
        match skip_ws rest2 with
        | String c2 rest3 =>
            if Ascii.eqb c2 "," then
              match parse_members fuel (skip_ws rest3) with
              | Some (pairs, rest4) => Some ((k, v) :: pairs, rest4)
              | None => None
              end
            else if Ascii.eqb c2 "}" then Some ([(k, v)], rest3)
            else None
        | "" => None
        end
    | None => None
    end.
Proof.
  intros Hk. unfold dumps_str_to. simpl. by rewrite parse_chars_escape_to.
Qed.

Lemma parse_members_members_to (d : list (string * pyval)) :
  Forall (λ kv, no_surrogate kv.1 = true ∧ roundtrips kv.2) d →
  ∀ k v fuel rest,
    no_surrogate k = true →
    roundtrips v →
    delimited rest = true →
    String.length (member_to dumps_to k v (members_to dumps_to d rest))
    ≤ fuel + String.length rest →
    parse_members fuel (member_to dumps_to k v (members_to dumps_to d rest))
    = Some ((k, v) :: d, rest).
Proof.
  induction 1 as [|[k' v'] d [Htext' Hv'] Hd IH];
    intros k v fuel rest Htext Hv Hrest Hlen; unfold member_to in *.
  - pose proof (dumps_to_length v (members_to dumps_to [] rest)) as Hgrow.
    pose proof (dumps_str_to_length k
                  (String ":" (String " "
                     (dumps_to v (members_to dumps_to [] rest))))) as Hk.
    simpl in *. destruct fuel as [|fuel]; [lia|].
    rewrite parse_members_S, skip_ws_dumps_to, Hv by (done || simpl; lia).
    done.
  - pose proof (dumps_to_length v (members_to dumps_to ((k', v') :: d) rest))
      as Hgrow.
    pose proof (dumps_str_to_length k
                  (String ":" (String " "
                     (dumps_to v (members_to dumps_to ((k', v') :: d) rest)))))
      as Hk.
    pose proof (dumps_to_length v' (members_to dumps_to d rest)) as Hgrow'.
    pose proof (dumps_str_to_length k'
                  (String ":" (String " "
                     (dumps_to v' (members_to dumps_to d rest))))) as Hk'.
    pose proof (members_to_grows d rest) as Hgrows.
    destruct fuel as [|fuel]; [simpl in *; lia|].
    rewrite parse_members_S, skip_ws_dumps_to, Hv by (done || simpl in *; lia).
    assert (String.length
              (member_to dumps_to k' v' (members_to dumps_to d rest))
            ≤ fuel + String.length rest) as Hlen'
      by (unfold member_to; simpl in *; lia).
    pose proof (IH k' v' fuel rest Htext' Hv' Hrest Hlen') as IH'.
    unfold member_to, dumps_str_to in IH'. simpl in IH' |- *.
    by rewrite IH'.
Qed.

(** *** Dictionaries with pairwise different keys *)

Lemma distinct_app_fresh (l1 l2 : list string) (k : string) :
  distinct (l1 ++ k :: l2) = true → existsb (String.eqb k) l1 = false.
Proof.
  induction l1 as [|a l1 IH]; simpl; [done|].
  intros [Ha Hd]%andb_prop. rewrite (IH Hd), orb_false_r.
  apply negb_true_iff in Ha. rewrite existsb_app in Ha.
  apply orb_false_elim in Ha as [_ Ha]. simpl in Ha.
  apply orb_false_elim in Ha as [Ha _]. by rewrite String.eqb_sym.
Qed.

Lemma dict_set_fresh (k : string) (v : pyval) (d : list (string * pyval)) :
  existsb (String.eqb k) (map fst d) = false →
  dict_set k v d = d ++ [(k, v)].
Proof.
  induction d as [|[k' v'] d IH]; simpl; [done|].
  intros [Hk Hd]%orb_false_elim.
  rewrite String.eqb_sym in Hk. by rewrite Hk, IH.
Qed.

Lemma fold_dict_set_distinct (pairs acc : list (string * pyval)) :
  distinct (map fst (acc ++ pairs)) = true →
  fold_left (λ d kv, dict_set kv.1 kv.2 d) pairs acc = acc ++ pairs.
Proof.
  revert acc. induction pairs as [|[k v] pairs IH]; intros acc Hd; simpl.
  - by rewrite app_nil_r.
  - rewrite dict_set_fresh.
    + rewrite IH; rewrite <-app_assoc; done.
    + rewrite map_app in Hd. simpl in Hd. by apply distinct_app_fresh in Hd.
Qed.

Lemma dict_of_pairs_distinct (d : list (string * pyval)) :
  distinct (map fst d) = true → dict_of_pairs d = d.
Proof. intros Hd. unfold dict_of_pairs. by rewrite fold_dict_set_distinct. Qed.

(** *** The round trip *)

Lemma parse_value_dumps_to (v : pyval) : json_native v = true → roundtrips v.
Proof.
  induction v as [|b|z|f|s|l IH|l IH|d IH] using pyval_ind;
    intros Hnative fuel rest Hrest Hlen.
  - destruct fuel as [|fuel]; [simpl in Hlen; lia|done].
  - destruct fuel as [|fuel]; [destruct b; simpl in Hlen; lia|].
    by destruct b.
  - change (dumps_to (PInt z) rest) with (dumps_int_to z rest) in *.
    pose proof (dumps_int_to_length z rest).
    destruct fuel as [|fuel]; [lia|].
    destruct (dumps_int_to_head z rest) as (c & t & Heq & _ & Hnum & _).
    by rewrite Heq, Hnum, <-Heq, parse_number_dumps_int_to.
  - done.
  - change (dumps_to (PStr s) rest) with (dumps_str_to s rest) in *.
    pose proof (dumps_str_to_length s rest).
    destruct fuel as [|fuel]; [lia|].
    unfold dumps_str_to. simpl. by rewrite parse_chars_escape_to.
  - pose proof (dumps_to_length (PList l) rest) as Hgrow.
    destruct fuel as [|fuel]; [lia|].
    destruct l as [|v vs]; [done|].
    simpl in Hnative. apply andb_prop in Hnative as [Hv Hvs].
    apply Forall_cons in IH as [IHv IHvs].
    assert (Forall roundtrips vs) as Hall.
    { rewrite forallb_forall in Hvs. rewrite Forall_forall in IHvs |- *.
      intros x Hx. apply IHvs; [done|]. by apply Hvs, list_elem_of_In. }
    simpl in Hlen |- *.
    assert (String.length (dumps_to v (elems_to dumps_to vs rest))
            ≤ fuel + String.length rest) as Hlen' by lia.
    pose proof (parse_elems_elems_to vs Hall v fuel rest (IHv Hv) Hrest Hlen')
      as Helems.
    destruct (dumps_to_head v (elems_to dumps_to vs rest))
      as (c & t & Heq & Hws & Hc).
    rewrite Heq in *. simpl. by rewrite Hws, Hc, Helems.
  - done.
  - pose proof (dumps_to_length (PDict d) rest) as Hgrow.
    destruct fuel as [|fuel]; [lia|].
    destruct d as [|[k v] d]; [done|].
    simpl in Hnative. apply andb_prop in Hnative as [Hkeys Hall].
    apply andb_prop in Hkeys as [Hkeys Htext].
    apply andb_prop in Htext as [Hk Htext].
    apply andb_prop in Hall as [Hv Hd].
    apply Forall_cons in IH as [IHv IHd].
    assert (Forall (λ kv, no_surrogate kv.1 = true ∧ roundtrips kv.2) d)
      as Hall.
    { rewrite forallb_forall in Hd, Htext.
      rewrite Forall_forall in IHd |- *.
      intros x Hx. split.
      - apply Htext, in_map. by apply list_elem_of_In.
      - apply IHd; [done|]. by apply Hd, list_elem_of_In. }
    assert (String.length
              (member_to dumps_to k v (members_to dumps_to d rest))
            ≤ fuel + String.length rest) as Hlen'
      by (unfold member_to; simpl in Hlen |- *; lia).
    pose proof (parse_members_members_to d Hall k v fuel rest Hk (IHv Hv)
                  Hrest Hlen') as Hmembers.
    unfold member_to, dumps_str_to in Hmembers. simpl in Hmembers |- *.
    rewrite Hmembers.
    rewrite (dict_of_pairs_distinct ((k, v) :: d)); [done|].
    simpl. by rewrite Hkeys.
Qed.

Lemma loads_dumps (v : pyval) : json_native v = true → loads (dumps v) = Some v.
Proof.
  intros Hnative. unfold loads, dumps.
  rewrite skip_ws_dumps_to, (parse_value_dumps_to v Hnative); [done|done|].
  simpl. lia.
Qed.
End json_roundtrip.

(** *** The encoding on samples *)

Example dumps_ports_payload :
  PyJson.dumps (PDict [("host", PStr "10.0.0.5");
                       ("ports", PTuple [PInt 22; PInt 443]);
                       ("tls", PBool true); ("proxy", PNone)])
  = "{" +:+ String PyJson.quote "host" +:+ String PyJson.quote ": "
    +:+ String PyJson.quote "10.0.0.5" +:+ String PyJson.quote ", "
    +:+ String PyJson.quote "ports" +:+ String PyJson.quote ": [22, 443], "
    +:+ String PyJson.quote "tls" +:+ String PyJson.quote ": true, "
    +:+ String PyJson.quote "proxy" +:+ String PyJson.quote ": null}".
Proof. reflexivity. Qed.

Example loads_with_spaces_and_escapes :
  PyJson.loads
    (" { " +:+ String PyJson.quote "a" +:+ String PyJson.quote " : [ 1 ,-20, {} ] , "
     +:+ String PyJson.quote "b\u0041\n" +:+ String PyJson.quote ":false } ")
  = Some (PDict [("a", PList [PInt 1; PInt (-20); PDict []]);
                 ("bA" +:+ newline, PBool false)]).
Proof. reflexivity. Qed.

Example loads_errors :
  PyJson.loads "[1,]" = None ∧ PyJson.loads "01" = None
  ∧ PyJson.loads "{}x" = None ∧ PyJson.loads "" = None.
Proof. repeat split; reflexivity. Qed.

Module JsonSamples.
Import PrimFloat.

Example repr_of_floats :
  map PyFloat.repr [0.5; 0x1.999999999999ap-4; 1e16; 0x1.4f8b588e368f1p-17;
                    0x1.fffffffffffffp+1023; -2.5; 0; nan; infinity]%float
  = ["0.5"; "0.1"; "1e+16"; "1e-05"; "1.7976931348623157e+308"; "-2.5";
     "0.0"; "nan"; "inf"].
Proof. vm_compute. reflexivity. Qed.

Example dumps_floats :
  PyJson.dumps (PList [PFloat 1.5; PFloat 0x1.999999999999ap-4; PFloat 1e22;
                       PFloat (-0.0); PFloat 0x1p-1074; PFloat 100;
                       PFloat 0x1.0000000000001p+50; PFloat infinity;
                       PFloat neg_infinity; PFloat nan; PInt 3])
  = "[1.5, 0.1, 1e+22, -0.0, 5e-324, 100.0, 1125899906842624.2, Infinity, "
    +:+ "-Infinity, NaN, 3]".
Proof. vm_compute. reflexivity. Qed.

Example loads_floats :
  PyJson.loads "[1.5, -0.0, 1e400, 2.5E-1, 0.1, 3, 3.0, NaN, -Infinity]"
  = Some (PList [PFloat 1.5; PFloat (-0.0); PFloat infinity; PFloat 0.25;
                 PFloat 0x1.999999999999ap-4; PInt 3; PFloat 3; PFloat nan;
                 PFloat neg_infinity]).
Proof. vm_compute. reflexivity. Qed.

Example loads_number_errors :
  PyJson.loads "1." = None ∧ PyJson.loads ".5" = None
  ∧ PyJson.loads "1e" = None ∧ PyJson.loads "-" = None
  ∧ PyJson.loads "+1" = None ∧ PyJson.loads "nan" = None.
Proof. repeat split; reflexivity. Qed.

Example dumps_text_beyond_ascii :
  PyJson.dumps (PStr "Zürich € 😀")
  = String PyJson.quote "Z\u00fcrich \u20ac \ud83d\ude00"
    +:+ String PyJson.quote "".
Proof. vm_compute. reflexivity. Qed.

Example loads_text_beyond_ascii :
  PyJson.loads (String PyJson.quote "Z\u00fcrich € \ud83d\ude00"
                +:+ String PyJson.quote "")
  = Some (PStr "Zürich € 😀").
Proof. vm_compute. reflexivity. Qed.

Example loads_dumps_tuned_payload :
  PyJson.loads (PyJson.dumps MockRun.tuned_payload)
  = Some MockRun.tuned_payload.
Proof. vm_compute. reflexivity. Qed.

End JsonSamples.

(** ** Running computations *)

Lemma bind_run {W A B} (m : M W A) (k : A → M W B) (s : W * list request) :
  (x ← m; k x) s
  = match m s with
    | (Ok a, s') => k a s'
    | (Raise e, s') => (Raise e, s')
    end.
Proof. done. Qed.

Lemma call_run {W A} (req : request) (op : W → result A * W) (w : W)
    (tr : list request) :
  call req op (w, tr) = ((op w).1, ((op w).2, tr ++ [req])).
Proof. unfold call. by destruct (op w). Qed.

Lemma dict_contains_elem_of (k : string) (d : list (string * pyval)) :
  dict_contains k d = true ↔ k ∈ map fst d.
Proof.
  unfold dict_contains. rewrite existsb_exists, list_elem_of_In. split.
  - intros (k' & Hin & Heq). by apply String.eqb_eq in Heq as ->.
  - intros Hin. exists k. split; [done|]. apply String.eqb_refl.
Qed.

Lemma dict_contains_get (k : string) (d : list (string * pyval)) :
  dict_contains k d = match dict_get k d with Some _ => true | None => false end.
Proof.
  unfold dict_contains. induction d as [|[k' v] d IH]; simpl; [done|].
  rewrite (String.eqb_sym k k'). by destruct (String.eqb k' k).
Qed.

(** ** [create_endpoint] *)

(** C10: when the platform type is not among the providers that the
    service lists, [create_endpoint] raises [ValueError]; the listing is the
    only request made, so nothing is stored in the vault and no endpoint is
    created, with or without a vault handle. *)
Theorem create_endpoint_unknown_platform {W : Type}
    (json_dumps : pyval → string) (str_dict_keys : list string → string)
    (coriolis : CoriolisClient W) (barbican : option (BarbicanClient W))
    (name platform_type description : string) (connection_info : pyval)
    (w w1 : W) (tr : list request) (providers_dict : list (string * pyval)) :
  providers_list coriolis w = (Ok providers_dict, w1) →
  platform_type ∉ map fst providers_dict →
  create_endpoint json_dumps str_dict_keys coriolis name platform_type
    connection_info barbican description (w, tr)
  = (Raise (ValueError ("platform_type must be one of "
                        +:+ str_dict_keys (map fst providers_dict))),
     (w1, tr ++ [ReqProvidersList])).
Proof.
  intros Hlist Hnot. unfold create_endpoint.
  run_program. rewrite Hlist. simpl.
  destruct (dict_contains platform_type providers_dict) eqn:Hin; [|done].
  by apply dict_contains_elem_of in Hin.
Qed.

Lemma create_endpoint_unknown_platform_witness :
  create_endpoint PyJson.dumps Mock.str_dict_keys Mock.coriolis
    "Coriolis Testing Endpoint" "vmware" Mock.OCI_CONNECTION_INFO
    (Some Mock.barbican) "Created by Coriolis sample scripts" (Mock.fresh, [])
  = (Raise (ValueError
              "platform_type must be one of dict_keys(['oci', 'openstack'])"),
     (Mock.fresh, [ReqProvidersList])).
Proof.
  apply (create_endpoint_unknown_platform PyJson.dumps Mock.str_dict_keys
           Mock.coriolis (Some Mock.barbican) "Coriolis Testing Endpoint"
           "vmware" "Created by Coriolis sample scripts"
           Mock.OCI_CONNECTION_INFO Mock.fresh Mock.fresh []
           (Mock.providers Mock.fresh)).
  - reflexivity.
  - simpl. intros H. repeat (apply elem_of_cons in H as [H|H]; [discriminate H|]).
    by apply elem_of_nil in H.
Defined.

(** The requests of [create_endpoint] with a vault handle, after the
    provider check. *)
Lemma create_endpoint_with_vault {W : Type}
    (json_dumps : pyval → string) (str_dict_keys : list string → string)
    (coriolis : CoriolisClient W) (barbican : BarbicanClient W)
    (name platform_type description : string) (connection_info : pyval)
    (w w1 w2 : W) (tr : list request)
    (providers_dict : list (string * pyval)) (secret_ref : string) :
  let secret :=
    Secret.mk ("Coriolis Endpoint " +:+ name) (json_dumps connection_info)
      "application/json" in
  let stub := PDict [("secret_ref", PStr secret_ref)] in
  let created :=
    endpoints_create coriolis name platform_type stub description w2 in
  providers_list coriolis w = (Ok providers_dict, w1) →
  platform_type ∈ map fst providers_dict →
  secret_store barbican secret w1 = (Ok secret_ref, w2) →
  create_endpoint json_dumps str_dict_keys coriolis name platform_type
    connection_info (Some barbican) description (w, tr)
  = (created.1,
     (created.2,
      tr ++ [ReqProvidersList; ReqSecretStore secret;
             ReqEndpointsCreate name platform_type stub description])).
Proof.
  intros secret stub created Hlist Hin%dict_contains_elem_of Hstore.
  unfold create_endpoint, store_barbican_secret_for_coriolis.
  run_program. rewrite Hlist. simpl. rewrite Hin. simpl.
  fold secret. rewrite Hstore. simpl. fold stub created.
  rewrite <-!app_assoc. simpl. by destruct created as [[e|e] w3].
Qed.

(** The requests of [create_endpoint] without a vault handle, after the
    provider check. *)
Lemma create_endpoint_without_vault {W : Type}
    (json_dumps : pyval → string) (str_dict_keys : list string → string)
    (coriolis : CoriolisClient W)
    (name platform_type description : string) (connection_info : pyval)
    (w w1 : W) (tr : list request) (providers_dict : list (string * pyval)) :
  let created :=
    endpoints_create coriolis name platform_type connection_info
      description w1 in
  providers_list coriolis w = (Ok providers_dict, w1) →
  platform_type ∈ map fst providers_dict →
  create_endpoint json_dumps str_dict_keys coriolis name platform_type
    connection_info None description (w, tr)
  = (created.1,
     (created.2,
      tr ++ [ReqProvidersList;
             ReqEndpointsCreate name platform_type connection_info
               description])).
Proof.
  intros created Hlist Hin%dict_contains_elem_of. unfold create_endpoint.
  run_program. rewrite Hlist. simpl. rewrite Hin. simpl. fold created.
  rewrite <-!app_assoc. simpl. by destruct created as [[e|e] w3].
Qed.

(** C2: once the platform type is found among the listed providers,
    [create_endpoint] with a vault handle stores the JSON text of the
    connection info in the vault, under the label
    ["Coriolis Endpoint <name>"], and the connection info of the create
    request is exactly [{'secret_ref': <href>}] for the reference the vault
    answered; without a vault handle the create request carries the
    connection info unchanged.  These are the only requests made. *)
Theorem create_endpoint_secret_ref {W : Type}
    (json_dumps : pyval → string) (str_dict_keys : list string → string)
    (coriolis : CoriolisClient W) (barbican : BarbicanClient W)
    (name platform_type description : string) (connection_info : pyval)
    (w w1 : W) (tr : list request) (providers_dict : list (string * pyval)) :
  providers_list coriolis w = (Ok providers_dict, w1) →
  platform_type ∈ map fst providers_dict →
  let secret :=
    Secret.mk ("Coriolis Endpoint " +:+ name) (json_dumps connection_info)
      "application/json" in
  (∀ (secret_ref : string) (w2 : W),
     secret_store barbican secret w1 = (Ok secret_ref, w2) →
     let stub := PDict [("secret_ref", PStr secret_ref)] in
     let created :=
       endpoints_create coriolis name platform_type stub description w2 in
     create_endpoint json_dumps str_dict_keys coriolis name platform_type
       connection_info (Some barbican) description (w, tr)
     = (created.1,
        (created.2,
         tr ++ [ReqProvidersList; ReqSecretStore secret;
                ReqEndpointsCreate name platform_type stub description])))
  ∧ let created :=
      endpoints_create coriolis name platform_type connection_info
        description w1 in
    create_endpoint json_dumps str_dict_keys coriolis name platform_type
      connection_info None description (w, tr)
    = (created.1,
       (created.2,
        tr ++ [ReqProvidersList;
               ReqEndpointsCreate name platform_type connection_info
                 description])).
Proof.
  intros Hlist Hin secret. split.
  - intros secret_ref w2 Hstore.
    by apply create_endpoint_with_vault with w1 providers_dict.
  - by apply create_endpoint_without_vault with providers_dict.
Qed.

Lemma create_endpoint_secret_ref_witness :
  (create_endpoint PyJson.dumps Mock.str_dict_keys Mock.coriolis
     "Coriolis Testing Endpoint" "oci" Mock.OCI_CONNECTION_INFO
     (Some Mock.barbican) "Created by Coriolis sample scripts"
     (Mock.fresh, [])).2.2
  = [ReqProvidersList;
     ReqSecretStore
       (Secret.mk "Coriolis Endpoint Coriolis Testing Endpoint"
          (PyJson.dumps Mock.OCI_CONNECTION_INFO) "application/json");
     ReqEndpointsCreate "Coriolis Testing Endpoint" "oci"
       (PDict [("secret_ref", PStr "http://vault:9311/v1/secrets/0")])
       "Created by Coriolis sample scripts"].
Proof.
  destruct (create_endpoint_secret_ref PyJson.dumps Mock.str_dict_keys
              Mock.coriolis Mock.barbican "Coriolis Testing Endpoint" "oci"
              "Created by Coriolis sample scripts" Mock.OCI_CONNECTION_INFO
              Mock.fresh Mock.fresh [] (Mock.providers Mock.fresh) eq_refl)
    as [Hvault _].
  - simpl. constructor.
  - rewrite (Hvault _ _ eq_refl). reflexivity.
Defined.

(** ** [get_endpoint_connection_info] *)

(** Connection info without the key: it is answered as it is. *)
Lemma get_connection_info_plain {W : Type}
    (json_loads : string → option pyval) (coriolis : CoriolisClient W)
    (barbican : option (BarbicanClient W)) (endpoint stored : Endpoint.t)
    (w w1 : W) (tr : list request) (d : list (string * pyval)) :
  endpoints_get coriolis endpoint w = (Ok stored, w1) →
  Endpoint.connection_info stored = PDict d →
  dict_get "secret_ref" d = None →
  get_endpoint_connection_info json_loads coriolis barbican endpoint (w, tr)
  = (Ok (PDict d), (w1, tr ++ [ReqEndpointsGet endpoint])).
Proof.
  intros Hget Hinfo Href. unfold get_endpoint_connection_info.
  run_program. rewrite Hget, Hinfo. simpl.
  by rewrite dict_contains_get, Href.
Qed.

(** Connection info with the key: the payload under the reference is
    fetched and decoded. *)
Lemma get_connection_info_from_vault {W : Type}
    (json_loads : string → option pyval) (coriolis : CoriolisClient W)
    (barbican : BarbicanClient W) (endpoint stored : Endpoint.t)
    (w w1 w2 : W) (tr : list request) (d : list (string * pyval))
    (secret_ref : pyval) (payload : string) :
  endpoints_get coriolis endpoint w = (Ok stored, w1) →
  Endpoint.connection_info stored = PDict d →
  dict_get "secret_ref" d = Some secret_ref →
  secret_payload barbican secret_ref w1 = (Ok payload, w2) →
  get_endpoint_connection_info json_loads coriolis (Some barbican) endpoint
    (w, tr)
  = (match json_loads payload with
     | Some v => Ok v
     | None => Raise JSONDecodeError
     end,
     (w2, tr ++ [ReqEndpointsGet endpoint; ReqSecretPayload secret_ref])).
Proof.
  intros Hget Hinfo Href Hpayload. unfold get_endpoint_connection_info.
  run_program. rewrite Hget, Hinfo. simpl.
  rewrite dict_contains_get, Href. simpl. rewrite Hpayload.
  rewrite <-!app_assoc. simpl. by destruct (json_loads payload).
Qed.

(** Connection info that is no dictionary: [in] looks for an element of
    a list or tuple and for a part of a text, and nothing else can be
    searched; a list, tuple or text cannot be indexed by the key. *)
Lemma get_connection_info_other {W : Type}
    (json_loads : string → option pyval) (coriolis : CoriolisClient W)
    (barbican : option (BarbicanClient W)) (endpoint stored : Endpoint.t)
    (w w1 : W) (tr : list request) :
  endpoints_get coriolis endpoint w = (Ok stored, w1) →
  match Endpoint.connection_info stored with PDict _ => False | _ => True end →
  get_endpoint_connection_info json_loads coriolis barbican endpoint (w, tr)
  = (match py_contains "secret_ref" (Endpoint.connection_info stored) with
     | Ok false => Ok (Endpoint.connection_info stored)
     | Ok true =>
         Raise match barbican with
               | Some _ => TypeError
               | None => AttributeError
               end
     | Raise e => Raise e
     end,
     (w1, tr ++ [ReqEndpointsGet endpoint])).
Proof.
  intros Hget Hinfo. unfold get_endpoint_connection_info. run_program.
  rewrite Hget.
  destruct (Endpoint.connection_info stored) as [|b|z|f|s|l|l|d]; try done;
    simpl.
  - destruct (String.index 0 "secret_ref" s); [|done]. by destruct barbican.
  - destruct (existsb (eq_str "secret_ref") l); [|done]. by destruct barbican.
  - destruct (existsb (eq_str "secret_ref") l); [|done]. by destruct barbican.
Qed.

(** C7, as the code has it: for a stored endpoint whose connection info
    is a dictionary, [get_endpoint_connection_info] answers that dictionary
    unchanged when it has no key ['secret_ref'], without a request to the
    vault; when it has the key, it asks the vault for the payload under the
    value of the key and answers the payload decoded from JSON.  Connection
    info that is a list, a tuple or a text is answered unchanged as well when
    ['secret_ref'] is no element, or no part, of it, and cannot be asked for
    the reference when it is.  An endpoint without connection info ([None]),
    or with a boolean or a number in its place, is not answered at all: the
    test for the key raises [TypeError]. *)
Theorem get_endpoint_connection_info_secret_ref {W : Type}
    (json_loads : string → option pyval) (coriolis : CoriolisClient W)
    (endpoint stored : Endpoint.t) (w w1 : W) (tr : list request) :
  endpoints_get coriolis endpoint w = (Ok stored, w1) →
  match Endpoint.connection_info stored with
  | PDict d =>
      match dict_get "secret_ref" d with
      | None =>
          ∀ barbican : option (BarbicanClient W),
            get_endpoint_connection_info json_loads coriolis barbican endpoint
              (w, tr)
            = (Ok (PDict d), (w1, tr ++ [ReqEndpointsGet endpoint]))
      | Some secret_ref =>
          ∀ (barbican : BarbicanClient W) (payload : string) (w2 : W),
            secret_payload barbican secret_ref w1 = (Ok payload, w2) →
            get_endpoint_connection_info json_loads coriolis (Some barbican)
              endpoint (w, tr)
            = (match json_loads payload with
               | Some v => Ok v
               | None => Raise JSONDecodeError
               end,
               (w2,
                tr ++ [ReqEndpointsGet endpoint; ReqSecretPayload secret_ref]))
      end
  | (PList l | PTuple l) as connection_info =>
      ∀ barbican : option (BarbicanClient W),
        get_endpoint_connection_info json_loads coriolis barbican endpoint
          (w, tr)
        = (if existsb (eq_str "secret_ref") l then
             Raise match barbican with
                   | Some _ => TypeError
                   | None => AttributeError
                   end
           else Ok connection_info,
           (w1, tr ++ [ReqEndpointsGet endpoint]))
  | PStr s =>
      ∀ barbican : option (BarbicanClient W),
        get_endpoint_connection_info json_loads coriolis barbican endpoint
          (w, tr)
        = (match String.index 0 "secret_ref" s with
           | Some _ =>
               Raise match barbican with
                     | Some _ => TypeError
                     | None => AttributeError
                     end
           | None => Ok (PStr s)
           end,
           (w1, tr ++ [ReqEndpointsGet endpoint]))
  | PNone | PBool _ | PInt _ | PFloat _ =>
      ∀ barbican : option (BarbicanClient W),
        get_endpoint_connection_info json_loads coriolis barbican endpoint
          (w, tr)
        = (Raise TypeError, (w1, tr ++ [ReqEndpointsGet endpoint]))
  end.
Proof.
  intros Hget.
  pose proof (λ barbican,
                get_connection_info_other json_loads coriolis barbican
                  endpoint stored w w1 tr Hget) as Hother.
  destruct (Endpoint.connection_info stored) as [|b|z|f|s|l|l|d] eqn:Hinfo;
    simpl in Hother; cbv beta iota zeta;
    try (intros barbican; by apply Hother).
  - intros barbican. rewrite Hother by done.
    by destruct (String.index 0 "secret_ref" s).
  - destruct (dict_get "secret_ref" d) as [secret_ref|] eqn:Href.
    + intros barbican payload w2 Hpayload.
      by apply get_connection_info_from_vault with stored w1 d.
    + intros barbican. by apply get_connection_info_plain with stored.
Qed.

Lemma get_endpoint_connection_info_secret_ref_witness :
  get_endpoint_connection_info PyJson.loads Mock.coriolis (Some Mock.barbican)
    MockRun.sample_endpoint (MockRun.sample_world, [])
  = (Ok Mock.OCI_CONNECTION_INFO,
     (MockRun.sample_world,
      [ReqEndpointsGet MockRun.sample_endpoint;
       ReqSecretPayload (PStr "http://vault:9311/v1/secrets/0")])).
Proof.
  exact (get_endpoint_connection_info_secret_ref PyJson.loads Mock.coriolis
           MockRun.sample_endpoint MockRun.sample_endpoint
           MockRun.sample_world MockRun.sample_world [] eq_refl Mock.barbican
           (PyJson.dumps Mock.OCI_CONNECTION_INFO) MockRun.sample_world
           eq_refl).
Defined.

(** C7, as it is stated, fails: the service answers an endpoint without
    connection info; [None] does not contain the key ['secret_ref'], and it
    is not returned: the test for the key raises [TypeError]. *)
Lemma connection_info_none_not_returned :
  endpoints_get Mock.coriolis MockMore.bare_endpoint MockMore.bare_world
  = (Ok MockMore.bare_endpoint, MockMore.bare_world)
  ∧ Endpoint.connection_info MockMore.bare_endpoint = PNone
  ∧ get_endpoint_connection_info PyJson.loads Mock.coriolis
      (Some Mock.barbican) MockMore.bare_endpoint (MockMore.bare_world, [])
    = (Raise TypeError,
       (MockMore.bare_world, [ReqEndpointsGet MockMore.bare_endpoint]))
  ∧ (get_endpoint_connection_info PyJson.loads Mock.coriolis
       (Some Mock.barbican) MockMore.bare_endpoint
       (MockMore.bare_world, [])).1
    ≠ Ok PNone.
Proof. split_and!; try reflexivity. intros H. discriminate H. Qed.

(** ** [validate_endpoint] *)

(** C8: when [validate_connection] answers the pair
    [(is_valid, error_msg)], [validate_endpoint] raises an exception whose
    text ends with [error_msg] exactly when [raise_on_error] is set and
    [is_valid] is false, and returns the pair in every other case; the
    validation is the only request made. *)
Theorem validate_endpoint_result {W : Type} (coriolis : CoriolisClient W)
    (endpoint : Endpoint.t) (raise_on_error : bool) (w w1 : W)
    (tr : list request) (is_valid : bool) (error_msg : string) :
  endpoints_validate_connection coriolis endpoint w
  = (Ok (is_valid, error_msg), w1) →
  validate_endpoint coriolis endpoint raise_on_error (w, tr)
  = (match raise_on_error, is_valid with
     | true, false =>
         Raise (Exception ("Endpoint validation failed: " +:+ error_msg))
     | _, _ => Ok (is_valid, error_msg)
     end,
     (w1, tr ++ [ReqEndpointsValidateConnection endpoint])).
Proof.
  intros Hvalid. unfold validate_endpoint. run_program. rewrite Hvalid.
  by destruct raise_on_error, is_valid.
Qed.

Lemma validate_endpoint_result_witness :
  validate_endpoint Mock.coriolis MockRun.sample_endpoint true
    (MockRun.failing, [])
  = (Raise (Exception "Endpoint validation failed: authentication failed"),
     (MockRun.failing,
      [ReqEndpointsValidateConnection MockRun.sample_endpoint])).
Proof.
  exact (validate_endpoint_result Mock.coriolis MockRun.sample_endpoint true
           MockRun.failing MockRun.failing [] false "authentication failed"
           eq_refl).
Defined.

(** ** [UpdateReplica.take_action] *)

Section update_replica.
Context {W StorageArgs Formatted : Type}.
Abbreviation Args := (UpdateReplica.Args (StorageArgs := StorageArgs)).
Variable json_loads : string → option pyval.
Variable get_storage_mappings_dict_from_args : Args → result pyval.
Variable get_formatted_entity : Execution.t → Formatted.

Lemma lookup_set_if_truthy (k k' : string) (v : pyval)
    (m : gmap string pyval) :
  UpdateReplica.set_if_truthy k v m !! k'
  = if decide (k = k') then (if truthy v then Some v else m !! k')
    else m !! k'.
Proof.
  unfold UpdateReplica.set_if_truthy.
  destruct (truthy v); [apply lookup_insert|by case_decide].
Qed.

(** A value decoded from a flag is truthy only if the flag was given
    with a text that is not empty and decodes to that value. *)
Lemma loads_if_given_truthy (arg : option string) (v : pyval) :
  UpdateReplica.loads_if_given json_loads arg = Ok v →
  truthy v = true →
  ∃ s, arg = Some s ∧ s ≠ "" ∧ json_loads s = Some v.
Proof.
  unfold UpdateReplica.loads_if_given.
  destruct arg as [s|].
  - destruct (String.eqb_spec s "") as [->|Hne]; simpl.
    + intros H. injection H as <-. simpl. done.
    + destruct (json_loads s) as [v'|] eqn:Hloads; [|done].
      intros H _. injection H as ->. by exists s.
  - intros H. injection H as <-. simpl. done.
Qed.

(** C1, as the code has it: when the three JSON flags decode and the
    storage mappings are built, [take_action] sends one update request, and
    a field is in its [updated_properties] exactly when the value obtained
    for it is truthy: the value decoded from the flag for
    [destination_environment], [source_environment] and [network_map]
    ([None] when the flag is absent or its text is empty), the dictionary
    built from the storage flags for [storage_mappings], the text of the
    flag for [notes].  No other key is present, and the payload is empty
    when no flag is given and the dictionary of storage mappings is falsy. *)
Theorem take_action_updated_properties (coriolis : CoriolisClient W)
    (args : Args) (w : W) (tr : list request)
    (destination_environment source_environment network_map
       storage_mappings : pyval) :
  UpdateReplica.loads_if_given json_loads
    (UpdateReplica.destination_environment args)
  = Ok destination_environment →
  UpdateReplica.loads_if_given json_loads
    (UpdateReplica.source_environment args)
  = Ok source_environment →
  UpdateReplica.loads_if_given json_loads (UpdateReplica.network_map args)
  = Ok network_map →
  get_storage_mappings_dict_from_args args = Ok storage_mappings →
  ∃ updated_properties : gmap string pyval,
    (UpdateReplica.take_action json_loads get_storage_mappings_dict_from_args
       get_formatted_entity coriolis args (w, tr)).2.2
    = tr ++ [ReqReplicasUpdate (UpdateReplica.id args) updated_properties
               (UpdateReplica.force args)]
    ∧ updated_properties !! "destination_environment"
      = (if truthy destination_environment then Some destination_environment
         else None)
    ∧ updated_properties !! "source_environment"
      = (if truthy source_environment then Some source_environment else None)
    ∧ updated_properties !! "storage_mappings"
      = (if truthy storage_mappings then Some storage_mappings else None)
    ∧ updated_properties !! "network_map"
      = (if truthy network_map then Some network_map else None)
    ∧ updated_properties !! "notes"
      = (match UpdateReplica.notes args with
         | Some s => if String.eqb s "" then None else Some (PStr s)
         | None => None
         end)
    ∧ (∀ k : string,
         k ∉ ["destination_environment"; "source_environment";
              "storage_mappings"; "network_map"; "notes"] →
         updated_properties !! k = None)
    ∧ (UpdateReplica.destination_environment args = None →
       UpdateReplica.source_environment args = None →
       UpdateReplica.network_map args = None →
       UpdateReplica.notes args = None →
       truthy storage_mappings = false →
       updated_properties = ∅).
Proof.
  intros Hde Hse Hnm Hsm.
  exists (UpdateReplica.build_updated_properties destination_environment
            source_environment storage_mappings network_map
            (UpdateReplica.notes_value args)).
  split.
  { unfold UpdateReplica.take_action. run_program.
    rewrite Hde, Hse, Hnm, Hsm.
    by destruct (replicas_update coriolis _ _ _ w) as [[e|e] w1]. }
  unfold UpdateReplica.build_updated_properties. split_and!.
  - rewrite !lookup_set_if_truthy. simpl. by destruct (truthy _).
  - rewrite !lookup_set_if_truthy. simpl. by destruct (truthy _).
  - rewrite !lookup_set_if_truthy. simpl. by destruct (truthy _).
  - rewrite !lookup_set_if_truthy. simpl. by destruct (truthy _).
  - rewrite !lookup_set_if_truthy. simpl. unfold UpdateReplica.notes_value.
    destruct (UpdateReplica.notes args) as [s|]; simpl; [|done].
    by destruct (String.eqb s "").
  - intros k Hk. rewrite !lookup_set_if_truthy.
    repeat case_decide; subst; try done; exfalso; apply Hk; set_solver.
  - intros Hd Hs Hn Hnotes Hfalsy.
    rewrite Hd in Hde. rewrite Hs in Hse. rewrite Hn in Hnm.
    simpl in Hde, Hse, Hnm.
    injection Hde as <-. injection Hse as <-. injection Hnm as <-.
    unfold UpdateReplica.notes_value, UpdateReplica.set_if_truthy.
    rewrite Hnotes, Hfalsy. done.
Qed.
End update_replica.

Lemma take_action_updated_properties_witness :
  ∃ updated_properties : gmap string pyval,
    (UpdateReplica.take_action PyJson.loads MockRun.no_storage_mappings id
       Mock.coriolis MockRun.update_notes_and_network (Mock.fresh, [])).2.2
    = [ReqReplicasUpdate "replica-1" updated_properties true]
    ∧ updated_properties !! "network_map"
      = Some (PDict [("net1", PStr "net2")])
    ∧ updated_properties !! "notes" = Some (PStr "moved to rack 4")
    ∧ updated_properties !! "destination_environment" = None.
Proof.
  destruct (take_action_updated_properties PyJson.loads
              MockRun.no_storage_mappings id Mock.coriolis
              MockRun.update_notes_and_network Mock.fresh [] PNone PNone
              (PDict [("net1", PStr "net2")]) (PDict [])
              eq_refl eq_refl eq_refl eq_refl)
    as (updated_properties & Htrace & Hde & _ & _ & Hnm & Hnotes & _).
  exists updated_properties. split_and!; done.
Defined.

(** C1, as it is stated, fails: the flag [--notes] given with an empty
    text and the flag [--destination-environment] given with the text of
    an empty JSON object are supplied, and the payload of the update
    request holds neither field. *)
Lemma take_action_supplied_fields_absent :
  UpdateReplica.notes MockRun.update_empty_values = Some ""
  ∧ UpdateReplica.destination_environment MockRun.update_empty_values
    = Some "{}"
  ∧ (UpdateReplica.take_action PyJson.loads MockRun.no_storage_mappings id
       Mock.coriolis MockRun.update_empty_values (Mock.fresh, [])).2.2
    = [ReqReplicasUpdate "replica-1" ∅ false].
Proof. split_and!; reflexivity. Qed.

(** ** Connection info through the vault and back *)

(** Creating an endpoint with the vault and reading its connection info
    back, for any encoding: what comes back is what decoding the text of
    the connection info yields. *)
Lemma read_back_through_vault {W : Type}
    (json_dumps : pyval → string) (json_loads : string → option pyval)
    (str_dict_keys : list string → string)
    (coriolis : CoriolisClient W) (barbican : BarbicanClient W)
    (name platform_type description : string) (connection_info : pyval)
    (w w1 w2 w3 w4 w5 : W) (tr : list request)
    (providers_dict : list (string * pyval)) (secret_ref : string)
    (endpoint stored : Endpoint.t) :
  let secret :=
    Secret.mk ("Coriolis Endpoint " +:+ name) (json_dumps connection_info)
      "application/json" in
  let stub := PDict [("secret_ref", PStr secret_ref)] in
  providers_list coriolis w = (Ok providers_dict, w1) →
  platform_type ∈ map fst providers_dict →
  secret_store barbican secret w1 = (Ok secret_ref, w2) →
  endpoints_create coriolis name platform_type stub description w2
  = (Ok endpoint, w3) →
  endpoints_get coriolis endpoint w3 = (Ok stored, w4) →
  Endpoint.connection_info stored = stub →
  secret_payload barbican (PStr secret_ref) w4
  = (Ok (json_dumps connection_info), w5) →
  (endpoint ← create_endpoint json_dumps str_dict_keys coriolis name
                platform_type connection_info (Some barbican) description;
   get_endpoint_connection_info json_loads coriolis (Some barbican) endpoint)
    (w, tr)
  = (match json_loads (json_dumps connection_info) with
     | Some v => Ok v
     | None => Raise JSONDecodeError
     end,
     (w5,
      tr ++ [ReqProvidersList; ReqSecretStore secret;
             ReqEndpointsCreate name platform_type stub description;
             ReqEndpointsGet endpoint; ReqSecretPayload (PStr secret_ref)])).
Proof.
  intros secret stub Hlist Hin Hstore Hcreate Hget Hinfo Hpayload.
  rewrite bind_run.
  rewrite (create_endpoint_with_vault json_dumps str_dict_keys coriolis
             barbican name platform_type description connection_info w w1 w2
             tr providers_dict secret_ref Hlist Hin Hstore).
  fold secret stub. rewrite Hcreate. simpl.
  rewrite (get_connection_info_from_vault json_loads coriolis barbican
             endpoint stored w3 w4 w5 _ [("secret_ref", PStr secret_ref)]
             (PStr secret_ref) (json_dumps connection_info) Hget Hinfo
             eq_refl Hpayload).
  by rewrite <-!app_assoc.
Qed.

(** The round trip in the model of the [json] module, for connection
    info made of [None], booleans, integers, text without surrogates, lists
    and dictionaries with pairwise different keys. *)
Lemma native_roundtrip_through_vault {W : Type}
    (str_dict_keys : list string → string)
    (coriolis : CoriolisClient W) (barbican : BarbicanClient W)
    (name platform_type description : string) (connection_info : pyval)
    (w w1 w2 w3 w4 w5 : W) (tr : list request)
    (providers_dict : list (string * pyval)) (secret_ref : string)
    (endpoint stored : Endpoint.t) :
  let secret :=
    Secret.mk ("Coriolis Endpoint " +:+ name) (PyJson.dumps connection_info)
      "application/json" in
  let stub := PDict [("secret_ref", PStr secret_ref)] in
  PyJson.json_native connection_info = true →
  providers_list coriolis w = (Ok providers_dict, w1) →
  platform_type ∈ map fst providers_dict →
  secret_store barbican secret w1 = (Ok secret_ref, w2) →
  endpoints_create coriolis name platform_type stub description w2
  = (Ok endpoint, w3) →
  endpoints_get coriolis endpoint w3 = (Ok stored, w4) →
  Endpoint.connection_info stored = stub →
  secret_payload barbican (PStr secret_ref) w4
  = (Ok (PyJson.dumps connection_info), w5) →
  (endpoint ← create_endpoint PyJson.dumps str_dict_keys coriolis name
                platform_type connection_info (Some barbican) description;
   get_endpoint_connection_info PyJson.loads coriolis (Some barbican) endpoint)
    (w, tr)
  = (Ok connection_info,
     (w5,
      tr ++ [ReqProvidersList; ReqSecretStore secret;
             ReqEndpointsCreate name platform_type stub description;
             ReqEndpointsGet endpoint; ReqSecretPayload (PStr secret_ref)])).
Proof.
  intros secret stub Hnative Hlist Hin Hstore Hcreate Hget Hinfo Hpayload.
  rewrite (read_back_through_vault PyJson.dumps PyJson.loads str_dict_keys
             coriolis barbican name platform_type description connection_info
             w w1 w2 w3 w4 w5 tr providers_dict secret_ref endpoint stored
             Hlist Hin Hstore Hcreate Hget Hinfo Hpayload).
  by rewrite loads_dumps.
Qed.




(** * More properties *)

(** ** The sort: sorted input, and input in another order *)

Section sorted_more.
Context {A K : Type} (key : A → K) (ltb : K → K → bool).
Hypothesis ltb_irrefl : ∀ a, ltb a a = false.
Hypothesis ltb_trans :
  ∀ a b c, ltb a b = true → ltb b c = true → ltb a c = true.
Hypothesis ltb_total : ∀ a b, ltb a b = false → ltb b a = false → a = b.

Lemma insert_sorted_first x l :
  Forall (key_le key ltb x) l → insert_sorted key ltb x l = x :: l.
Proof.
  destruct 1 as [|y l Hy _]; simpl; [done|].
  unfold key_le in Hy. by rewrite Hy.
Qed.

(** A list that is in order is left as it is. *)
Lemma sorted_of_ordered l :
  StronglySorted (key_le key ltb) l → sorted key ltb l = l.
Proof.
  induction 1 as [|x l Hl IH Hx]; simpl; [done|].
  rewrite IH. by apply insert_sorted_first.
Qed.

(** Two lists in order with the same elements are equal, when elements
    with equal keys are equal. *)
Lemma ordered_perm_unique l1 l2 :
  (∀ x y, x ∈ l1 → y ∈ l1 → key x = key y → x = y) →
  StronglySorted (key_le key ltb) l1 →
  StronglySorted (key_le key ltb) l2 →
  l1 ≡ₚ l2 → l1 = l2.
Proof.
  revert l2. induction l1 as [|x l1 IH]; intros l2 Hinj Hs1 Hs2 Hperm.
  - by apply Permutation_nil_l in Hperm.
  - destruct l2 as [|y l2]; [by apply Permutation_nil_r in Hperm|].
    apply StronglySorted_inv in Hs1 as [Hs1 Hx].
    apply StronglySorted_inv in Hs2 as [Hs2 Hy].
    rewrite Forall_forall in Hx, Hy.
    assert (x = y) as <-.
    { assert (x ∈ y :: l2) as Hxin by (rewrite <-Hperm; left).
      assert (y ∈ x :: l1) as Hyin by (rewrite Hperm; left).
      apply elem_of_cons in Hxin as [->|Hxin]; [done|].
      apply elem_of_cons in Hyin as [->|Hyin]; [done|].
      apply Hinj; [left|by right|].
      apply ltb_total; [apply (Hy x Hxin)|apply (Hx y Hyin)]. }
    f_equal. apply IH; [|done|done|by apply Permutation_cons_inv in Hperm].
    intros a b Ha Hb. apply Hinj; by right.
Qed.

(** The outcome does not depend on the order of the input, when
    elements with equal keys are equal. *)
Lemma sorted_perm_invariant l1 l2 :
  (∀ x y, x ∈ l1 → y ∈ l1 → key x = key y → x = y) →
  l1 ≡ₚ l2 → sorted key ltb l1 = sorted key ltb l2.
Proof.
  intros Hinj Hperm. apply ordered_perm_unique.
  - intros x y Hx Hy. rewrite (sorted_perm key ltb l1) in Hx, Hy.
    by apply Hinj.
  - by apply sorted_ordered.
  - by apply sorted_ordered.
  - by rewrite !sorted_perm.
Qed.
End sorted_more.

Lemma NoDup_keys_inj {A K} (key : A → K) (l : list A) :
  NoDup (map key l) →
  ∀ x y, x ∈ l → y ∈ l → key x = key y → x = y.
Proof.
  induction l as [|a l IH]; simpl; intros Hnd x y Hx Hy Hkey.
  - by apply elem_of_nil in Hx.
  - apply NoDup_cons in Hnd as [Ha Hnd].
    apply elem_of_cons in Hx as [->|Hx]; apply elem_of_cons in Hy as [->|Hy].
    + done.
    + exfalso. apply Ha. rewrite Hkey. by apply (list_elem_of_fmap_2 key).
    + exfalso. apply Ha. rewrite <-Hkey. by apply (list_elem_of_fmap_2 key).
    + by apply IH.
Qed.

Lemma sorted_text_perm_invariant {A} (key : A → string) (l1 l2 : list A) :
  NoDup (map key l1) → l1 ≡ₚ l2 →
  sorted key String.ltb l1 = sorted key String.ltb l2.
Proof.
  intros Hnd Hperm.
  apply (sorted_perm_invariant key String.ltb string_ltb_irrefl
           string_ltb_trans string_ltb_total); [|done].
  by apply NoDup_keys_inj.
Qed.

(** ** [ReplicaFormatter] and [ReplicaDetailFormatter], further *)

(** X1: sorting the replicas for display a second time changes
    nothing. *)
Theorem get_sorted_list_idempotent (obj_list : list Replica.t) :
  ReplicaFormatter._get_sorted_list (ReplicaFormatter._get_sorted_list obj_list)
  = ReplicaFormatter._get_sorted_list obj_list.
Proof.
  unfold ReplicaFormatter._get_sorted_list.
  apply sorted_of_ordered.
  apply (sorted_ordered Replica.created_at String.ltb string_ltb_irrefl
           string_ltb_trans string_ltb_total).
Qed.

(** X2: when no two replicas share a creation timestamp, the sorted
    list does not depend on the order in which the replicas are given. *)
Theorem get_sorted_list_order_free (obj_list obj_list' : list Replica.t) :
  NoDup (map Replica.created_at obj_list) →
  obj_list ≡ₚ obj_list' →
  ReplicaFormatter._get_sorted_list obj_list
  = ReplicaFormatter._get_sorted_list obj_list'.
Proof. apply sorted_text_perm_invariant. Qed.

Lemma get_sorted_list_order_free_witness :
  ReplicaFormatter._get_sorted_list [Samples.r1; Samples.r2]
  = ReplicaFormatter._get_sorted_list [Samples.r2; Samples.r1].
Proof.
  apply get_sorted_list_order_free.
  - simpl. apply NoDup_cons. split; [|apply NoDup_singleton].
    intros H%list_elem_of_singleton. discriminate H.
  - apply Permutation_swap.
Defined.

(** X3: the instances field of the detail view does not depend on the
    order in which the replica lists its instances. *)
Theorem format_instances_order_free (linesep : string) (obj obj' : Replica.t) :
  Replica.instances obj ≡ₚ Replica.instances obj' →
  ReplicaDetailFormatter._format_instances linesep obj
  = ReplicaDetailFormatter._format_instances linesep obj'.
Proof.
  intros Hperm. unfold ReplicaDetailFormatter._format_instances. f_equal.
  by apply (sorted_perm_invariant id String.ltb string_ltb_irrefl
              string_ltb_trans string_ltb_total).
Qed.

Lemma format_instances_order_free_witness :
  ReplicaDetailFormatter._format_instances newline Samples.r1
  = ReplicaDetailFormatter._format_instances newline MockMore.r1_reordered.
Proof.
  apply format_instances_order_free. simpl.
  etrans; [apply perm_skip, Permutation_swap|apply Permutation_swap].
Defined.

(** X4: when no two executions share a creation timestamp, the
    execution history does not depend on the order in which the
    executions are given. *)
Theorem format_executions_order_free (linesep : string)
    (executions executions' : list Execution.t) :
  NoDup (map Execution.created_at executions) →
  executions ≡ₚ executions' →
  ReplicaDetailFormatter._format_executions linesep executions
  = ReplicaDetailFormatter._format_executions linesep executions'.
Proof.
  intros Hnd Hperm. unfold ReplicaDetailFormatter._format_executions.
  by rewrite (sorted_text_perm_invariant Execution.created_at _ _ Hnd Hperm).
Qed.

Lemma format_executions_order_free_witness :
  ReplicaDetailFormatter._format_executions newline
    [Samples.e2; Samples.e3; Samples.e1]
  = ReplicaDetailFormatter._format_executions newline
      [Samples.e1; Samples.e2; Samples.e3].
Proof.
  apply format_executions_order_free.
  - simpl. apply NoDup_cons. split.
    { intros H. apply elem_of_cons in H as [H|H]; [discriminate H|].
      apply list_elem_of_singleton in H. discriminate H. }
    apply NoDup_cons. split; [|apply NoDup_singleton].
    intros H%list_elem_of_singleton. discriminate H.
  - etrans; [apply perm_skip, Permutation_swap|apply Permutation_swap].
Defined.

(** X5: the list view and the detail view agree on the last execution:
    the execution that the list view shows under "Last tasks execution" is
    the one whose line closes the execution history of the detail view; for
    a replica without executions both are the empty text. *)
Theorem last_execution_closes_history (linesep : string) (obj : Replica.t) :
  match Replica.executions obj with
  | [] =>
      ReplicaFormatter._format_last_execution obj = Ok ""
      ∧ ReplicaDetailFormatter._format_executions linesep
          (Replica.executions obj) = ""
  | _ :: _ =>
      ∃ (earlier : list Execution.t) (e : Execution.t),
        earlier ++ [e] ≡ₚ Replica.executions obj
        ∧ ReplicaFormatter._format_last_execution obj
          = Ok (Execution.id e +:+ " " +:+ Execution.status e)
        ∧ ReplicaDetailFormatter._format_executions linesep
            (Replica.executions obj)
          = String.concat linesep
              (map (λ x, Execution.id x +:+ " " +:+ Execution.status x) earlier
               ++ [Execution.id e +:+ " " +:+ Execution.status e])
  end.
Proof.
  unfold ReplicaFormatter._format_last_execution,
    ReplicaDetailFormatter._format_executions.
  destruct (Replica.executions obj) as [|e0 l] eqn:Hex; [done|].
  destruct (sorted_last_is_Some Execution.created_at String.ltb e0 l)
    as [e He].
  pose proof He as [earlier Hsorted]%last_Some.
  exists earlier, e. split_and!.
  - rewrite <-Hsorted. apply sorted_perm.
  - unfold index_last. by rewrite He.
  - by rewrite Hsorted, map_app.
Qed.

(** X17: when no two executions of a replica share a creation timestamp,
    the "Last tasks execution" projection does not depend on the order in
    which the replica lists its executions. *)
Theorem format_last_execution_order_free (obj obj' : Replica.t) :
  NoDup (map Execution.created_at (Replica.executions obj)) →
  Replica.executions obj ≡ₚ Replica.executions obj' →
  ReplicaFormatter._format_last_execution obj
  = ReplicaFormatter._format_last_execution obj'.
Proof.
  intros Hnd Hperm. unfold ReplicaFormatter._format_last_execution.
  rewrite (sorted_text_perm_invariant Execution.created_at _ _ Hnd Hperm).
  destruct (Replica.executions obj) as [|e l] eqn:Hex.
  - destruct (Replica.executions obj') as [|e' l'] eqn:Hex'; [done|].
    by apply Permutation_nil_cons in Hperm.
  - destruct (Replica.executions obj') as [|e' l'] eqn:Hex'; [|done].
    symmetry in Hperm. by apply Permutation_nil_cons in Hperm.
Qed.

Lemma format_last_execution_order_free_witness :
  ReplicaFormatter._format_last_execution Samples.r1
  = ReplicaFormatter._format_last_execution MockMore.r1_reordered.
Proof.
  apply format_last_execution_order_free.
  - simpl. apply NoDup_cons. split.
    { intros H. apply elem_of_cons in H as [H|H]; [discriminate H|].
      apply list_elem_of_singleton in H. discriminate H. }
    apply NoDup_cons. split; [|apply NoDup_singleton].
    intros H%list_elem_of_singleton. discriminate H.
  - simpl.
    etrans; [apply perm_skip, Permutation_swap|apply Permutation_swap].
Defined.

(** X6: in the detail view the values line up with the columns: there
    are as many values as columns, with and without the instances data; the
    value under ["instances"] is the text of the sorted instances, the value
    under ["executions"] is the execution history, and the column
    ["instances-data"] is there, with the replica's [info] under it, exactly
    when it was asked for. *)
Theorem detail_data_matches_columns {Mapping : Type} (linesep : string)
    (parse_storage_mappings : pyval → result (pyval * Mapping * Mapping))
    (format_mapping : Mapping → pyval)
    (format_json_for_object_property : ReplicaDetail.t → string → pyval)
    (show_instances_data : bool) (obj : ReplicaDetail.t)
    (default_storage : pyval) (backend_mappings disk_mappings : Mapping) :
  parse_storage_mappings
    (default (PDict []) (ReplicaDetail.storage_mappings obj))
  = Ok (default_storage, backend_mappings, disk_mappings) →
  let columns := DetailFormatter.columns show_instances_data in
  ∃ data : list pyval,
    DetailFormatter._get_formatted_data linesep parse_storage_mappings
      format_mapping format_json_for_object_property columns obj
    = Ok data
    ∧ length data = length columns
    ∧ columns !! 4 = Some "instances"
    ∧ data !! 4
      = Some (PStr (ReplicaDetailFormatter._format_instances linesep
                      (ReplicaDetail.base obj)))
    ∧ columns !! 13 = Some "executions"
    ∧ data !! 13
      = Some (PStr (ReplicaDetailFormatter._format_executions linesep
                      (Replica.executions (ReplicaDetail.base obj))))
    ∧ (if show_instances_data
       then (columns !! 14 = Some "instances-data"
             ∧ data !! 14 = Some (ReplicaDetail.info obj))
       else (("instances-data" ∉ columns) ∧ length data = 14)).
Proof.
  intros Hparse columns. unfold DetailFormatter._get_formatted_data.
  rewrite Hparse. simpl. destruct show_instances_data; simpl.
  - eexists. split; [done|]. by split_and!.
  - eexists. split; [done|]. split_and!; try done.
    intros H. repeat (apply elem_of_cons in H as [H|H]; [discriminate H|]).
    by apply elem_of_nil in H.
Qed.

Lemma detail_data_matches_columns_witness :
  ∃ data : list pyval,
    DetailFormatter._get_formatted_data newline MockMore.parse_storage_mappings
      MockMore.format_mapping MockMore.format_json_for_object_property
      (DetailFormatter.columns true) MockMore.detail
    = Ok data
    ∧ length data = 15
    ∧ data !! 4 = Some (PStr ("Vm-c" +:+ newline +:+ "vm-a" +:+ newline
                              +:+ "vm-b"))
    ∧ data !! 14 = Some (PDict [("vm-a", PDict [])]).
Proof.
  destruct (detail_data_matches_columns newline MockMore.parse_storage_mappings
              MockMore.format_mapping MockMore.format_json_for_object_property
              true MockMore.detail PNone [] [] eq_refl)
    as (data & Hdata & Hlen & _ & Hinst & _ & _ & _ & Hinfo).
  exists data. split_and!; done.
Defined.

(** ** [create_endpoint] and [get_endpoint_connection_info], further *)


(** X8: when the vault fails to store the secret, [create_endpoint]
    passes the exception on and no endpoint is created. *)
Theorem create_endpoint_vault_failure {W : Type}
    (json_dumps : pyval → string) (str_dict_keys : list string → string)
    (coriolis : CoriolisClient W) (barbican : BarbicanClient W)
    (name platform_type description : string) (connection_info : pyval)
    (w w1 w2 : W) (tr : list request)
    (providers_dict : list (string * pyval)) (e : exn) :
  let secret :=
    Secret.mk ("Coriolis Endpoint " +:+ name) (json_dumps connection_info)
      "application/json" in
  providers_list coriolis w = (Ok providers_dict, w1) →
  platform_type ∈ map fst providers_dict →
  secret_store barbican secret w1 = (Raise e, w2) →
  create_endpoint json_dumps str_dict_keys coriolis name platform_type
    connection_info (Some barbican) description (w, tr)
  = (Raise e, (w2, tr ++ [ReqProvidersList; ReqSecretStore secret])).
Proof.
  intros secret Hlist Hin%dict_contains_elem_of Hstore.
  unfold create_endpoint, store_barbican_secret_for_coriolis. run_program.
  rewrite Hlist. simpl. rewrite Hin. simpl. fold secret. rewrite Hstore.
  simpl. by rewrite <-!app_assoc.
Qed.

Lemma create_endpoint_vault_failure_witness :
  create_endpoint PyJson.dumps Mock.str_dict_keys Mock.coriolis
    "Coriolis Testing Endpoint" "oci" Mock.OCI_CONNECTION_INFO
    (Some MockMore.sealed_barbican) "" (Mock.fresh, [])
  = (Raise (ServiceError "vault is sealed"),
     (Mock.fresh,
      [ReqProvidersList;
       ReqSecretStore
         (Secret.mk "Coriolis Endpoint Coriolis Testing Endpoint"
            (PyJson.dumps Mock.OCI_CONNECTION_INFO) "application/json")])).
Proof.
  apply (create_endpoint_vault_failure PyJson.dumps Mock.str_dict_keys
           Mock.coriolis MockMore.sealed_barbican "Coriolis Testing Endpoint"
           "oci" "" Mock.OCI_CONNECTION_INFO Mock.fresh Mock.fresh Mock.fresh
           [] (Mock.providers Mock.fresh) (ServiceError "vault is sealed")).
  - reflexivity.
  - simpl. constructor.
  - reflexivity.
Defined.

(** X9: whatever the service and the vault answer,
    [get_endpoint_connection_info] asks the service for the endpoint and
    makes at most one more request, to the vault; the vault is asked only
    when a vault handle was given and the connection info of the endpoint is
    a dictionary with the key ['secret_ref'], and it is asked for the value
    under that key. *)
Theorem get_connection_info_vault_requests {W : Type}
    (json_loads : string → option pyval) (coriolis : CoriolisClient W)
    (barbican : option (BarbicanClient W)) (endpoint : Endpoint.t)
    (w : W) (tr : list request) :
  (get_endpoint_connection_info json_loads coriolis barbican endpoint
     (w, tr)).2.2
  = tr ++ [ReqEndpointsGet endpoint]
  ∨ ∃ (stored : Endpoint.t) (w1 : W) (d : list (string * pyval))
      (secret_ref : pyval) (b : BarbicanClient W),
      endpoints_get coriolis endpoint w = (Ok stored, w1)
      ∧ Endpoint.connection_info stored = PDict d
      ∧ dict_get "secret_ref" d = Some secret_ref
      ∧ barbican = Some b
      ∧ (get_endpoint_connection_info json_loads coriolis barbican endpoint
           (w, tr)).2.2
        = tr ++ [ReqEndpointsGet endpoint; ReqSecretPayload secret_ref].
Proof.
  unfold get_endpoint_connection_info. run_program.
  destruct (endpoints_get coriolis endpoint w) as [[stored|e] w1] eqn:Hget;
    simpl; [|by left].
  destruct (Endpoint.connection_info stored) as [|b|z|f|s|l|l|d] eqn:Hinfo;
    simpl; try (by left).
  - destruct (String.index 0 "secret_ref" s); simpl; [|by left].
    destruct barbican; simpl; by left.
  - destruct (existsb (eq_str "secret_ref") l); simpl; [|by left].
    destruct barbican; simpl; by left.
  - destruct (existsb (eq_str "secret_ref") l); simpl; [|by left].
    destruct barbican; simpl; by left.
  - rewrite dict_contains_get.
    destruct (dict_get "secret_ref" d) as [secret_ref|] eqn:Href; simpl;
      [|by left].
    destruct barbican as [b|]; simpl; [|by left].
    right. exists stored, w1, d, secret_ref, b. split_and!; try done.
    destruct (secret_payload b secret_ref w1) as [[payload|e] w2]; simpl.
    + rewrite <-!app_assoc. by destruct (json_loads payload).
    + by rewrite <-!app_assoc.
Qed.

(** X10: when the service answers an endpoint without connection info
    (or with connection info that is [None], a boolean or a number),
    [get_endpoint_connection_info] raises [TypeError], with or without a
    vault handle. *)
Theorem get_connection_info_missing {W : Type}
    (json_loads : string → option pyval) (coriolis : CoriolisClient W)
    (barbican : option (BarbicanClient W)) (endpoint stored : Endpoint.t)
    (w w1 : W) (tr : list request) :
  endpoints_get coriolis endpoint w = (Ok stored, w1) →
  match Endpoint.connection_info stored with
  | PNone | PBool _ | PInt _ | PFloat _ => True
  | _ => False
  end →
  get_endpoint_connection_info json_loads coriolis barbican endpoint (w, tr)
  = (Raise TypeError, (w1, tr ++ [ReqEndpointsGet endpoint])).
Proof.
  intros Hget Hinfo. unfold get_endpoint_connection_info. run_program.
  rewrite Hget. by destruct (Endpoint.connection_info stored).
Qed.

Lemma get_connection_info_missing_witness :
  get_endpoint_connection_info PyJson.loads Mock.coriolis (Some Mock.barbican)
    MockMore.bare_endpoint (MockMore.bare_world, [])
  = (Raise TypeError,
     (MockMore.bare_world, [ReqEndpointsGet MockMore.bare_endpoint])).
Proof.
  exact (get_connection_info_missing PyJson.loads Mock.coriolis
           (Some Mock.barbican) MockMore.bare_endpoint MockMore.bare_endpoint
           MockMore.bare_world MockMore.bare_world [] eq_refl I).
Defined.

(** X11: when the connection info of the endpoint holds a reference and
    no vault handle is given, [get_endpoint_connection_info] raises
    [AttributeError]; the stub is not returned in place of the secret. *)
Theorem get_connection_info_no_vault {W : Type}
    (json_loads : string → option pyval) (coriolis : CoriolisClient W)
    (endpoint stored : Endpoint.t) (w w1 : W) (tr : list request)
    (d : list (string * pyval)) :
  endpoints_get coriolis endpoint w = (Ok stored, w1) →
  Endpoint.connection_info stored = PDict d →
  "secret_ref" ∈ map fst d →
  get_endpoint_connection_info json_loads coriolis None endpoint (w, tr)
  = (Raise AttributeError, (w1, tr ++ [ReqEndpointsGet endpoint])).
Proof.
  intros Hget Hinfo Hin%dict_contains_elem_of.
  unfold get_endpoint_connection_info. run_program.
  rewrite Hget, Hinfo. simpl. by rewrite Hin.
Qed.

Lemma get_connection_info_no_vault_witness :
  get_endpoint_connection_info PyJson.loads Mock.coriolis None
    MockRun.sample_endpoint (MockRun.sample_world, [])
  = (Raise AttributeError,
     (MockRun.sample_world, [ReqEndpointsGet MockRun.sample_endpoint])).
Proof.
  apply (get_connection_info_no_vault PyJson.loads Mock.coriolis
           MockRun.sample_endpoint MockRun.sample_endpoint
           MockRun.sample_world MockRun.sample_world []
           [("secret_ref", PStr "http://vault:9311/v1/secrets/0")]).
  - reflexivity.
  - reflexivity.
  - simpl. constructor.
Defined.

(** ** [get_schema_for_plugin] *)

Lemma provider_schema_type_map_unknown (schema_type : string) :
  schema_type ∉ ["destination"; "source"; "connection"] →
  provider_schema_type_map !! schema_type = None.
Proof.
  intros Hnot. unfold provider_schema_type_map.
  rewrite !lookup_insert_ne, lookup_empty; [done|..];
    intros <-; apply Hnot; set_solver.
Qed.

(** X12: [get_schema_for_plugin] raises [KeyError] for a schema type
    other than ['destination'], ['source'] and ['connection'], without a
    request to the service; for these three it sends one request, with the
    code 1, 2 and 16, and answers what the service answers. *)
Theorem get_schema_for_plugin_codes {W Entity : Type}
    (coriolis : ApiClient W Entity) (platform_type schema_type : string)
    (w : W) (tr : list api_request) :
  (schema_type ∉ ["destination"; "source"; "connection"] →
   get_schema_for_plugin coriolis platform_type schema_type (w, tr)
   = (Raise (KeyError schema_type), (w, tr)))
  ∧ (∀ code : Z,
       (schema_type, code)
       ∈ [("destination", 1%Z); ("source", 2%Z); ("connection", 16%Z)] →
       let answer := providers_schemas_list coriolis platform_type code w in
       get_schema_for_plugin coriolis platform_type schema_type (w, tr)
       = (answer.1, (answer.2, tr ++ [ApiSchemasList platform_type code]))).
Proof.
  unfold get_schema_for_plugin, code_getitem. split.
  - intros Hnot. run_comp.
    by rewrite (provider_schema_type_map_unknown schema_type Hnot).
  - intros code Hin. cbv zeta. run_comp.
    assert (provider_schema_type_map !! schema_type = Some code) as ->.
    { repeat (apply elem_of_cons in Hin as [[= -> ->]|Hin]; [reflexivity|]).
      by apply elem_of_nil in Hin. }
    by destruct (providers_schemas_list coriolis platform_type code w).
Qed.

Lemma get_schema_for_plugin_codes_witness :
  get_schema_for_plugin MockMore.api "oci" "schema" (MockMore.api_fresh, [])
  = (Raise (KeyError "schema"), (MockMore.api_fresh, []))
  ∧ get_schema_for_plugin MockMore.api "oci" "connection"
      (MockMore.api_fresh, [])
    = (Ok (PDict [("type", PStr "object")]),
       (MockMore.api_fresh, [ApiSchemasList "oci" 16])).
Proof.
  destruct (get_schema_for_plugin_codes MockMore.api "oci" "schema"
              MockMore.api_fresh []) as [Hunknown _].
  destruct (get_schema_for_plugin_codes MockMore.api "oci" "connection"
              MockMore.api_fresh []) as [_ Hknown].
  split.
  - apply Hunknown. intros H.
    repeat (apply elem_of_cons in H as [H|H]; [discriminate H|]).
    by apply elem_of_nil in H.
  - apply (Hknown 16%Z). do 2 right. left.
Defined.

(** ** [UpdateReplica] and [CreateReplica]: arguments that are not valid *)

Lemma loads_if_given_cases (json_loads : string → option pyval)
    (arg : option string) :
  (∃ v, UpdateReplica.loads_if_given json_loads arg = Ok v)
  ∨ (UpdateReplica.loads_if_given json_loads arg = Raise JSONDecodeError
     ∧ undecodable json_loads arg).
Proof.
  unfold UpdateReplica.loads_if_given, undecodable.
  destruct arg as [s|]; [|left; by eexists].
  destruct (String.eqb_spec s "") as [->|Hne]; simpl; [left; by eexists|].
  destruct (json_loads s) as [v|] eqn:Hloads; [left; by eexists|].
  right. split; [done|]. by exists s.
Qed.

Lemma loads_if_given_undecodable (json_loads : string → option pyval)
    (arg : option string) :
  undecodable json_loads arg →
  UpdateReplica.loads_if_given json_loads arg = Raise JSONDecodeError.
Proof.
  intros (s & -> & Hne & Hloads). unfold UpdateReplica.loads_if_given.
  apply String.eqb_neq in Hne. by rewrite Hne, Hloads.
Qed.

(** X13: when a JSON flag of [replica update] does not decode, or the
    storage mappings cannot be built, [take_action] raises and no request
    reaches the service; the exception is the decoding error when a flag
    does not decode. *)
Theorem update_invalid_arguments_no_request {W StorageArgs Formatted : Type}
    (json_loads : string → option pyval)
    (get_storage_mappings_dict_from_args :
       UpdateReplica.Args (StorageArgs := StorageArgs) → result pyval)
    (get_formatted_entity : Execution.t → Formatted)
    (coriolis : CoriolisClient W)
    (args : UpdateReplica.Args (StorageArgs := StorageArgs))
    (w : W) (tr : list request) :
  undecodable json_loads (UpdateReplica.destination_environment args)
  ∨ undecodable json_loads (UpdateReplica.source_environment args)
  ∨ undecodable json_loads (UpdateReplica.network_map args)
  ∨ (∃ e, get_storage_mappings_dict_from_args args = Raise e) →
  ∃ e : exn,
    UpdateReplica.take_action json_loads get_storage_mappings_dict_from_args
      get_formatted_entity coriolis args (w, tr)
    = (Raise e, (w, tr))
    ∧ (undecodable json_loads (UpdateReplica.destination_environment args)
       ∨ undecodable json_loads (UpdateReplica.source_environment args)
       ∨ undecodable json_loads (UpdateReplica.network_map args) →
       e = JSONDecodeError).
Proof.
  intros Hbad. unfold UpdateReplica.take_action. run_program.
  destruct (loads_if_given_cases json_loads
              (UpdateReplica.destination_environment args))
    as [[de Hde]|[Hde Hde']]; rewrite Hde; [|by eexists].
  destruct (loads_if_given_cases json_loads
              (UpdateReplica.source_environment args))
    as [[se Hse]|[Hse Hse']]; rewrite Hse; [|by eexists].
  destruct (loads_if_given_cases json_loads
              (UpdateReplica.network_map args))
    as [[nm Hnm]|[Hnm Hnm']]; rewrite Hnm; [|by eexists].
  assert (∀ arg v, UpdateReplica.loads_if_given json_loads arg = Ok v →
                   ¬ undecodable json_loads arg) as Hok.
  { intros arg v Hv Hu. by rewrite (loads_if_given_undecodable _ _ Hu) in Hv. }
  destruct Hbad as [Hu|[Hu|[Hu|[e He]]]];
    [by destruct (Hok _ _ Hde)|by destruct (Hok _ _ Hse)
    |by destruct (Hok _ _ Hnm)|].
  rewrite He. exists e. split; [done|].
  intros [Hu|[Hu|Hu]];
    [by destruct (Hok _ _ Hde)|by destruct (Hok _ _ Hse)
    |by destruct (Hok _ _ Hnm)].
Qed.

Lemma update_invalid_arguments_no_request_witness :
  ∃ e : exn,
    UpdateReplica.take_action PyJson.loads MockRun.no_storage_mappings id
      Mock.coriolis MockMore.update_malformed (Mock.fresh, [])
    = (Raise e, (Mock.fresh, [])).
Proof.
  destruct (update_invalid_arguments_no_request PyJson.loads
              MockRun.no_storage_mappings id Mock.coriolis
              MockMore.update_malformed Mock.fresh [])
    as (e & Hrun & _).
  - right. left. exists "{oops". split_and!; [reflexivity|discriminate|].
    reflexivity.
  - by exists e.
Defined.

(** X14: when a JSON flag of [replica create] does not decode, or the
    storage mappings cannot be built, [take_action] raises before any
    endpoint name is resolved: no request reaches the service. *)
Theorem create_invalid_arguments_no_request
    {W StorageArgs Entity Formatted : Type}
    (json_loads : string → option pyval)
    (get_storage_mappings_dict_from_args :
       CreateReplica.Args (StorageArgs := StorageArgs) → result pyval)
    (get_formatted_entity : Entity → Formatted)
    (coriolis : ApiClient W Entity)
    (args : CreateReplica.Args (StorageArgs := StorageArgs))
    (w : W) (tr : list api_request) :
  undecodable json_loads (CreateReplica.destination_environment args)
  ∨ undecodable json_loads (CreateReplica.source_environment args)
  ∨ undecodable json_loads (Some (CreateReplica.network_map args))
  ∨ (∃ e, get_storage_mappings_dict_from_args args = Raise e) →
  ∃ e : exn,
    CreateReplica.take_action json_loads get_storage_mappings_dict_from_args
      get_formatted_entity coriolis args (w, tr)
    = (Raise e, (w, tr)).
Proof.
  intros Hbad. unfold CreateReplica.take_action. run_comp.
  destruct (loads_if_given_cases json_loads
              (CreateReplica.destination_environment args))
    as [[de Hde]|[Hde Hde']]; rewrite Hde; [|by eexists].
  destruct (loads_if_given_cases json_loads
              (CreateReplica.source_environment args))
    as [[se Hse]|[Hse Hse']]; rewrite Hse; [|by eexists].
  destruct (loads_if_given_cases json_loads
              (Some (CreateReplica.network_map args)))
    as [[nm Hnm]|[Hnm Hnm']]; rewrite Hnm; [|by eexists].
  assert (∀ arg v, UpdateReplica.loads_if_given json_loads arg = Ok v →
                   ¬ undecodable json_loads arg) as Hok.
  { intros arg v Hv Hu. by rewrite (loads_if_given_undecodable _ _ Hu) in Hv. }
  destruct Hbad as [Hu|[Hu|[Hu|[e He]]]];
    [by destruct (Hok _ _ Hde)|by destruct (Hok _ _ Hse)
    |by destruct (Hok _ _ Hnm)|].
  rewrite He. by exists e.
Qed.

Lemma create_invalid_arguments_no_request_witness :
  ∃ e : exn,
    CreateReplica.take_action PyJson.loads MockMore.no_storage_mappings id
      MockMore.api MockMore.create_args_malformed (MockMore.api_fresh, [])
    = (Raise e, (MockMore.api_fresh, [])).
Proof.
  apply (create_invalid_arguments_no_request PyJson.loads
           MockMore.no_storage_mappings id MockMore.api
           MockMore.create_args_malformed MockMore.api_fresh []).
  do 2 right. left. exists "{net1: net2".
  split_and!; [reflexivity|discriminate|reflexivity].
Defined.

(** ** [CreateReplica]: the requests *)

Section create_replica.
Context {W StorageArgs Entity Formatted : Type}.
Variable json_loads : string → option pyval.
Variable get_storage_mappings_dict_from_args :
  CreateReplica.Args (StorageArgs := StorageArgs) → result pyval.
Variable get_formatted_entity : Entity → Formatted.
Variable coriolis : ApiClient W Entity.
Variable args : CreateReplica.Args (StorageArgs := StorageArgs).
Variables (destination_environment source_environment network_map
             storage_mappings : pyval).
Hypothesis Hde :
  UpdateReplica.loads_if_given json_loads
    (CreateReplica.destination_environment args)
  = Ok destination_environment.
Hypothesis Hse :
  UpdateReplica.loads_if_given json_loads
    (CreateReplica.source_environment args)
  = Ok source_environment.
Hypothesis Hnm :
  UpdateReplica.loads_if_given json_loads
    (Some (CreateReplica.network_map args))
  = Ok network_map.
Hypothesis Hsm : get_storage_mappings_dict_from_args args = Ok storage_mappings.

(** X15: a replica is created only between endpoints that the service
    knows by name: when the name of the origin endpoint is not resolved,
    [take_action] passes the exception on without resolving the destination;
    when the name of the destination endpoint is not resolved, it passes the
    exception on; in both cases no create request is sent. *)
Theorem create_unresolved_endpoint (w : W) (tr : list api_request) :
  (∀ (e : exn) (w1 : W),
     endpoints_get_endpoint_id_for_name coriolis
       (CreateReplica.origin_endpoint args) w = (Raise e, w1) →
     CreateReplica.take_action json_loads get_storage_mappings_dict_from_args
       get_formatted_entity coriolis args (w, tr)
     = (Raise e,
        (w1, tr ++ [ApiEndpointIdForName (CreateReplica.origin_endpoint args)])))
  ∧ (∀ (origin_endpoint_id : string) (e : exn) (w1 w2 : W),
       endpoints_get_endpoint_id_for_name coriolis
         (CreateReplica.origin_endpoint args) w = (Ok origin_endpoint_id, w1) →
       endpoints_get_endpoint_id_for_name coriolis
         (CreateReplica.destination_endpoint args) w1 = (Raise e, w2) →
       CreateReplica.take_action json_loads get_storage_mappings_dict_from_args
         get_formatted_entity coriolis args (w, tr)
       = (Raise e,
          (w2,
           tr ++ [ApiEndpointIdForName (CreateReplica.origin_endpoint args);
                  ApiEndpointIdForName
                    (CreateReplica.destination_endpoint args)]))).
Proof.
  split.
  - intros e w1 Horigin. unfold CreateReplica.take_action. run_comp.
    by rewrite Hde, Hse, Hnm, Hsm, Horigin.
  - intros origin_endpoint_id e w1 w2 Horigin Hdest.
    unfold CreateReplica.take_action. run_comp.
    rewrite Hde, Hse, Hnm, Hsm, Horigin, Hdest. by rewrite <-!app_assoc.
Qed.

(** X16: when both names are resolved, [take_action] has sent three
    requests: the two resolutions, origin first, and one create request with
    the two identifiers that were answered, the environments decoded from
    the flags, source first ([None] for a flag that is absent), the
    instances as they were given, the decoded network map and the storage
    mappings; it answers the created replica formatted, or the exception of
    the create request. *)
Theorem create_requests (w w1 w2 : W) (tr : list api_request)
    (origin_endpoint_id destination_endpoint_id : string) :
  endpoints_get_endpoint_id_for_name coriolis
    (CreateReplica.origin_endpoint args) w = (Ok origin_endpoint_id, w1) →
  endpoints_get_endpoint_id_for_name coriolis
    (CreateReplica.destination_endpoint args) w1
  = (Ok destination_endpoint_id, w2) →
  let created :=
    replicas_create coriolis origin_endpoint_id destination_endpoint_id
      source_environment destination_environment
      (CreateReplica.instances args) network_map storage_mappings w2 in
  CreateReplica.take_action json_loads get_storage_mappings_dict_from_args
    get_formatted_entity coriolis args (w, tr)
  = (match created.1 with
     | Ok replica => Ok (get_formatted_entity replica)
     | Raise e => Raise e
     end,
     (created.2,
      tr ++ [ApiEndpointIdForName (CreateReplica.origin_endpoint args);
             ApiEndpointIdForName (CreateReplica.destination_endpoint args);
             ApiReplicasCreate origin_endpoint_id destination_endpoint_id
               source_environment destination_environment
               (CreateReplica.instances args) network_map storage_mappings]))
  ∧ (CreateReplica.destination_environment args = None →
     destination_environment = PNone)
  ∧ (CreateReplica.source_environment args = None →
     source_environment = PNone).
Proof.
  intros Horigin Hdest created. split_and!.
  - unfold CreateReplica.take_action. run_comp.
    rewrite Hde, Hse, Hnm, Hsm, Horigin, Hdest. fold created.
    rewrite <-!app_assoc. by destruct created as [[replica|e] w3].
  - intros Hnone. rewrite Hnone in Hde. by injection Hde as <-.
  - intros Hnone. rewrite Hnone in Hse. by injection Hse as <-.
Qed.
End create_replica.

Lemma create_unresolved_endpoint_witness :
  CreateReplica.take_action PyJson.loads MockMore.no_storage_mappings id
    MockMore.api MockMore.create_args_unknown (MockMore.api_fresh, [])
  = (Raise (ServiceError "no endpoint named dstZ"),
     (MockMore.api_fresh,
      [ApiEndpointIdForName "srcA"; ApiEndpointIdForName "dstZ"])).
Proof.
  destruct (create_unresolved_endpoint PyJson.loads
              MockMore.no_storage_mappings id MockMore.api
              MockMore.create_args_unknown PNone PNone
              (PDict [("net1", PStr "net2")]) (PDict [])
              eq_refl eq_refl eq_refl eq_refl MockMore.api_fresh [])
    as [_ Hdest].
  exact (Hdest "id-1" (ServiceError "no endpoint named dstZ")
           MockMore.api_fresh MockMore.api_fresh eq_refl eq_refl).
Defined.

Lemma create_requests_witness :
  CreateReplica.take_action PyJson.loads MockMore.no_storage_mappings id
    MockMore.api MockMore.create_args (MockMore.api_fresh, [])
  = (Ok ("id-1", "id-2"),
     (MockMore.mk_api (MockMore.endpoint_ids MockMore.api_fresh)
        [("id-1", "id-2")],
      [ApiEndpointIdForName "srcA"; ApiEndpointIdForName "dstB";
       ApiReplicasCreate "id-1" "id-2" PNone PNone ["vm1"]
         (PDict [("net1", PStr "net2")]) (PDict [])])).
Proof.
  destruct (create_requests PyJson.loads MockMore.no_storage_mappings id
              MockMore.api MockMore.create_args PNone PNone
              (PDict [("net1", PStr "net2")]) (PDict [])
              eq_refl eq_refl eq_refl eq_refl
              MockMore.api_fresh MockMore.api_fresh MockMore.api_fresh []
              "id-1" "id-2" eq_refl eq_refl) as [Hrun _].
  exact Hrun.
Defined.
